(** * WeekWise: the content/progress data model and its CRUD + authorization protocol

    A shallow embedding of the server handlers (the Hono application over the
    key-value store) and of the client-side logic of the admin and student
    dashboards (link filtering, publish toggling, the student listing, YouTube
    id extraction and quiz scoring), followed by the properties of the
    specification that concern them. *)

From Stdlib Require Import ZArith Lia Ascii String.
From stdpp Require Import gmap strings list fin_maps pretty sorting.

Set Warnings "-register-all".
Local Open Scope Z_scope.

(** ** JavaScript values and the runtime operations the code relies on *)

Module Js.

(** JSON values, as they travel in request bodies and sit in the store.
    Numbers are modelled as integers (week numbers, option indices and
    timestamps are integers); [undefined] is the [None] of [option json]. *)
Inductive json : Type :=
  | JNull
  | JBool (b : bool)
  | JNum (n : Z)
  | JStr (s : string)
  | JArr (l : list json)
  | JObj (m : gmap string json).

(** A plain object: property name to value. *)
Abbreviation obj := (gmap string json).

(** ToBoolean. *)
Definition truthy (v : option json) : bool :=
  match v with
  | None => false
  | Some JNull => false
  | Some (JBool b) => b
  | Some (JNum n) => negb (n =? 0)
  | Some (JStr s) => match s with EmptyString => false | String _ _ => true end
  | Some (JArr _) => true
  | Some (JObj _) => true
  end.

(** [v || d] *)
Definition or_default (v : option json) (d : json) : json :=
  match v with
  | Some x => if truthy v then x else d
  | None => d
  end.

(** ToString, the coercion applied by a template literal. Strings are
    sequences of code units below U+0100. *)
Fixpoint toStr (v : json) : string :=
  match v with
  | JNull => "null"
  | JBool true => "true"
  | JBool false => "false"
  | JNum n => pretty n
  | JStr s => s
  | JArr l =>
      (fix join (l : list json) : string :=
         match l with
         | [] => EmptyString
         | [x] => match x with JNull => EmptyString | _ => toStr x end
         | x :: l' => (match x with JNull => EmptyString | _ => toStr x end) +:+ "," +:+ join l'
         end) l
  | JObj _ => "[object Object]"
  end.

(** [`${v}`] for a possibly undefined [v]. *)
Definition template (v : option json) : string :=
  match v with
  | None => "undefined"
  | Some x => toStr x
  end.

(** [v === s] for a string [s]. *)
Definition strict_eq_str (v : option json) (s : string) : bool :=
  match v with
  | Some (JStr t) => String.eqb t s
  | _ => false
  end.

(** [s.split(c)] for a one-character separator. *)
Fixpoint split (c : ascii) (s : string) : list string :=
  match s with
  | EmptyString => [EmptyString]
  | String a s' =>
      if Ascii.eqb a c then EmptyString :: split c s'
      else match split c s' with
           | [] => [String a EmptyString]
           | h :: t => String a h :: t
           end
  end.

(** White space of [String.prototype.trim] among the code units below U+0100:
    TAB, LF, VT, FF, CR, SPACE and NBSP. *)
Definition is_white (a : ascii) : bool :=
  let n := nat_of_ascii a in
  ((9 <=? n)%nat && (n <=? 13)%nat) || (n =? 32)%nat || (n =? 160)%nat.

Fixpoint trimStart (s : string) : string :=
  match s with
  | EmptyString => EmptyString
  | String a s' => if is_white a then trimStart s' else s
  end.

Definition trim (s : string) : string :=
  String.rev (trimStart (String.rev (trimStart s))).

(** Truthiness of a string value. *)
Definition nonempty (s : string) : bool :=
  match s with EmptyString => false | String _ _ => true end.

(** The own enumerable properties copied by an object spread [{...v}]. *)
Definition spread (v : json) : obj :=
  match v with
  | JObj m => m
  | JArr l => list_to_map (imap (fun i x => (pretty i, x)) l)
  | JStr s =>
      list_to_map (imap (fun i a => (pretty i, JStr (String a EmptyString))) (list_ascii_of_string s))
  | _ => ∅
  end.

(** [{...a, ...b}]: the properties of [b] win. *)
Definition merge (a b : obj) : obj := b ∪ a.

(** Binding pattern [const { ... } = body]: [None] is the TypeError raised for
    [null]; primitives and arrays have none of the destructured names. *)
Definition destructure (body : json) : option obj :=
  match body with
  | JNull => None
  | JObj m => Some m
  | _ => Some ∅
  end.

(** [Array.prototype.sort] is stable; [gt x y] says the comparator is positive
    on [(x, y)]. With a consistent comparator every stable sort computes this
    list. *)
Fixpoint insert_by {A} (gt : A -> A -> bool) (x : A) (l : list A) : list A :=
  match l with
  | [] => [x]
  | y :: l' => if gt x y then y :: insert_by gt x l' else x :: l
  end.

Definition sort_by {A} (gt : A -> A -> bool) (l : list A) : list A :=
  foldr (insert_by gt) [] l.

(** ToNumber of a property value ([None] is NaN); [str_to_num] is the
    runtime's StringToNumber. *)
Definition toNumber (str_to_num : string -> option Z) (v : option json) : option Z :=
  match v with
  | None => None
  | Some JNull => Some 0
  | Some (JBool b) => Some (if b then 1 else 0)
  | Some (JNum n) => Some n
  | Some x => str_to_num (toStr x)
  end.

(** A comparator [(x, y) => key(x) - key(y)] is positive. *)
Definition by_key {A} (key : A -> Z) (x y : A) : bool := 0 <? key x - key y.

(** [String.prototype.startsWith]. *)
Fixpoint startsWith (p s : string) : bool :=
  match p, s with
  | EmptyString, _ => true
  | String a p', String b s' => Ascii.eqb a b && startsWith p' s'
  | String _ _, EmptyString => false
  end.

(** [String.prototype.includes]. *)
Fixpoint includes (p s : string) : bool :=
  startsWith p s ||
  match s with
  | EmptyString => false
  | String _ s' => includes p s'
  end.

End Js.
Import Js.

(** The comparator [(a, b) => a.weekNumber - b.weekNumber], used by the server
    listing and by both dashboards, is positive on [(a, b)]. A NaN result
    counts as zero in [sort]. *)
Definition after (str_to_num : string -> option Z) (a b : obj) : bool :=
  match toNumber str_to_num (a !! "weekNumber"), toNumber str_to_num (b !! "weekNumber") with
  | Some x, Some y => 0 <? x - y
  | _, _ => false
  end.

(** The number a week is sorted by (zero where the coercion gives NaN). *)
Definition weekNumberOf (str_to_num : string -> option Z) (w : obj) : Z :=
  default 0 (toNumber str_to_num (w !! "weekNumber")).

(** ** The server: handlers over the key-value store *)

Module Server.

(** Every [kv.set] of the server stores an object literal, so the store maps
    keys to objects. *)
Abbreviation store := (gmap string obj).

Record request := Request {
  authorization : option string;  (* the Authorization header *)
  param : string;                 (* the route parameter, where the route has one *)
  payload : json                  (* the parsed JSON body, where the route reads one *)
}.

Record response := Response {
  status : nat;
  body : json
}.

(** What a handler reads from its environment: [Date.now()],
    [new Date().toISOString()] and
    [Math.random().toString(36).substr(2, 9)]. *)
Record clock := Clock {
  date_now : Z;
  iso_now : string;
  random36 : string
}.

Definition ok (fields : list (string * json)) : response :=
  Response 200 (JObj (list_to_map fields)).

Definition error (code : nat) (msg : string) : response :=
  Response code (JObj {[ "error" := JStr msg ]}).

(** Modelled from the spec: the module [kv_store.tsx] imported by the server
    is missing; section 4.1 gives its contract: [get], [set] (unconditional
    overwrite), [del] (idempotent) and a prefix scan returning the values in
    an unspecified order. *)
Definition kv_get (k : string) (s : store) : option obj := s !! k.

(** Modelled from the spec: [set] of the missing [kv_store.tsx] (section 4.1). *)
Definition kv_set (k : string) (v : obj) (s : store) : store := <[k := v]> s.

(** Modelled from the spec: [del] of the missing [kv_store.tsx] (section 4.1). *)
Definition kv_del (k : string) (s : store) : store := delete k s.

Section Handlers.

(** The order in which a prefix scan enumerates the store is unspecified:
    any enumeration of the entries. *)
Variable scan : store -> list (string * obj).

(** The identity provider, [supabase.auth.getUser]: the id of the user a
    token belongs to, or [None] for an error or no user. *)
Variable getUser : string -> option string.

(** The runtime's StringToNumber ([None] is NaN). *)
Variable str_to_num : string -> option Z.

(** Modelled from the spec: [getByPrefix] of the missing [kv_store.tsx]
    (section 4.1, [scanByPrefix]). *)
Definition kv_getByPrefix (p : string) (s : store) : list obj :=
  (filter (fun kv => startsWith p kv.1 = true) (scan s)).*2.

(** [c.req.header('Authorization')?.split(' ')[1]] *)
Definition accessToken (req : request) : option string :=
  match authorization req with
  | None => None
  | Some h => split " " h !! 1%nat
  end.

Inductive gate : Type :=
  | Unauthorized
  | Forbidden
  | Granted (uid : string).

(** The first two checks of every authenticated handler. *)
Definition authenticate (req : request) : option string :=
  match accessToken req with
  | None => None
  | Some tok => if nonempty tok then getUser tok else None
  end.

(** The prelude shared by the five admin handlers: token, identity, role. *)
Definition admin_gate (req : request) (s : store) : gate :=
  match authenticate req with
  | None => Unauthorized
  | Some uid =>
      match kv_get ("users:" +:+ uid) s with
      | None => Forbidden
      | Some userProfile =>
          if strict_eq_str (userProfile !! "role") "admin" then Granted uid
          else Forbidden
      end
  end.

Definition subjectKey (subjectId : string) : string := "subjects:" +:+ subjectId.

Definition weekKey (subjectId weekId : string) : string :=
  "weeks:" +:+ subjectId +:+ ":" +:+ weekId.

Definition weekPrefix (subjectId : string) : string :=
  "weeks:" +:+ subjectId +:+ ":".

Definition progressKey (userId weekId : string) : string :=
  "progress:" +:+ userId +:+ ":" +:+ weekId.

Definition progressPrefix (userId : string) : string :=
  "progress:" +:+ userId +:+ ":".

(** POST /admin/subjects *)
Definition createSubject (ck : clock) (req : request) (s : store) : response * store :=
  match admin_gate req s with
  | Unauthorized => (error 401 "Unauthorized", s)
  | Forbidden => (error 403 "Admin access required", s)
  | Granted _ =>
      match destructure (payload req) with
      | None => (error 500 "Failed to create subject", s)
      | Some b =>
          if negb (truthy (b !! "name")) then (error 400 "Subject name is required", s)
          else
            let subjectId := "subject_" +:+ pretty (date_now ck) +:+ "_" +:+ random36 ck in
            let subject : obj :=
              list_to_map [("id", JStr subjectId);
                           ("name", or_default (b !! "name") JNull); (* truthy here *)
                           ("description", or_default (b !! "description") (JStr EmptyString));
                           ("createdAt", JStr (iso_now ck))] in
            (ok [("success", JBool true); ("subject", JObj subject)],
             kv_set (subjectKey subjectId) subject s)
      end
  end.

(** GET /subjects *)
Definition listSubjects (s : store) : list obj := kv_getByPrefix "subjects:" s.

(** [for (const week of weeks) await kv.del(`weeks:${subjectId}:${week.id}`)] *)
Definition delete_weeks (subjectId : string) (weeks : list obj) (s : store) : store :=
  fold_left (fun s week => kv_del (weekKey subjectId (template (week !! "id"))) s) weeks s.

(** DELETE /admin/subjects/:id *)
Definition deleteSubject (req : request) (s : store) : response * store :=
  match admin_gate req s with
  | Unauthorized => (error 401 "Unauthorized", s)
  | Forbidden => (error 403 "Admin access required", s)
  | Granted _ =>
      let subjectId := param req in
      let s1 := kv_del (subjectKey subjectId) s in
      let weeks := kv_getByPrefix (weekPrefix subjectId) s1 in
      (ok [("success", JBool true)], delete_weeks subjectId weeks s1)
  end.

(** The object literal [week] of the create handler, from the destructured
    body [b]; the three required fields are truthy where it is built. *)
Definition new_week (weekId : string) (ck : clock) (b : obj) : obj :=
  list_to_map [("id", JStr weekId);
               ("subjectId", or_default (b !! "subjectId") JNull);
               ("weekNumber", or_default (b !! "weekNumber") JNull);
               ("title", or_default (b !! "title") JNull);
               ("videoLinks", or_default (b !! "videoLinks") (JArr []));
               ("audioLinks", or_default (b !! "audioLinks") (JArr []));
               ("pdfLinks", or_default (b !! "pdfLinks") (JArr []));
               ("questions", or_default (b !! "questions") (JArr []));
               ("published", or_default (b !! "published") (JBool false));
               ("createdAt", JStr (iso_now ck))].

(** [`week_${Date.now()}_${Math.random().toString(36).substr(2, 9)}`] *)
Definition new_weekId (ck : clock) : string :=
  "week_" +:+ pretty (date_now ck) +:+ "_" +:+ random36 ck.

(** POST /admin/weeks *)
Definition createWeek (ck : clock) (req : request) (s : store) : response * store :=
  match admin_gate req s with
  | Unauthorized => (error 401 "Unauthorized", s)
  | Forbidden => (error 403 "Admin access required", s)
  | Granted _ =>
      match destructure (payload req) with
      | None => (error 500 "Failed to create week", s)
      | Some b =>
          if negb (truthy (b !! "subjectId")) || negb (truthy (b !! "weekNumber"))
             || negb (truthy (b !! "title"))
          then (error 400 "Missing required fields", s)
          else
            let weekId := new_weekId ck in
            let week := new_week weekId ck b in
            (ok [("success", JBool true); ("week", JObj week)],
             kv_set (weekKey (template (b !! "subjectId")) weekId) week s)
      end
  end.

(** [allWeeks.find(w => w.id === weekId)] *)
Definition find_week (weekId : string) (allWeeks : list obj) : option obj :=
  List.find (fun w => strict_eq_str (w !! "id") weekId) allWeeks.

(** PUT /admin/weeks/:id *)
Definition updateWeek (req : request) (s : store) : response * store :=
  match admin_gate req s with
  | Unauthorized => (error 401 "Unauthorized", s)
  | Forbidden => (error 403 "Admin access required", s)
  | Granted _ =>
      let weekId := param req in
      let updates := payload req in
      match find_week weekId (kv_getByPrefix "weeks:" s) with
      | None => (error 404 "Week not found", s)
      | Some week =>
          let updatedWeek := merge week (spread updates) in
          (ok [("success", JBool true); ("week", JObj updatedWeek)],
           kv_set (weekKey (template (week !! "subjectId")) weekId) updatedWeek s)
      end
  end.

(** DELETE /admin/weeks/:id *)
Definition deleteWeek (req : request) (s : store) : response * store :=
  match admin_gate req s with
  | Unauthorized => (error 401 "Unauthorized", s)
  | Forbidden => (error 403 "Admin access required", s)
  | Granted _ =>
      let weekId := param req in
      match find_week weekId (kv_getByPrefix "weeks:" s) with
      | None => (error 404 "Week not found", s)
      | Some week =>
          (ok [("success", JBool true)],
           kv_del (weekKey (template (week !! "subjectId")) weekId) s)
      end
  end.

(** The list computed by GET /weeks/:subjectId. *)
Definition listWeeksForSubject (subjectId : string) (s : store) : list obj :=
  sort_by (after str_to_num) (kv_getByPrefix (weekPrefix subjectId) s).

(** GET /weeks/:subjectId, a public route. *)
Definition getWeeks (req : request) (s : store) : response * store :=
  (ok [("weeks", JArr (JObj <$> listWeeksForSubject (param req) s))], s).

(** POST /progress *)
Definition recordProgress (ck : clock) (req : request) (s : store) : response * store :=
  match authenticate req with
  | None => (error 401 "Unauthorized", s)
  | Some uid =>
      match destructure (payload req) with
      | None => (error 500 "Failed to save progress", s)
      | Some b =>
          let progress : obj :=
            list_to_map (("userId", JStr uid)
                         :: match b !! "weekId" with
                            | Some w => [("weekId", w)]
                            | None => []
                            end
                         ++ [("completed", or_default (b !! "completed") (JBool false));
                             ("lastAccessed", JStr (iso_now ck))]) in
          (ok [("success", JBool true); ("progress", JObj progress)],
           kv_set (progressKey uid (template (b !! "weekId"))) progress s)
      end
  end.

(** The list computed by GET /progress for an authenticated user. *)
Definition listProgress (uid : string) (s : store) : list obj :=
  kv_getByPrefix (progressPrefix uid) s.

(** GET /progress *)
Definition getProgress (req : request) (s : store) : response * store :=
  match authenticate req with
  | None => (error 401 "Unauthorized", s)
  | Some uid => (ok [("progress", JArr (JObj <$> listProgress uid s))], s)
  end.

(** The object a save of [completed = c] for week [w] at time [t] stores for
    user [uid]. *)
Definition progress_record (uid w : string) (c : bool) (t : string) : obj :=
  list_to_map [("userId", JStr uid); ("weekId", JStr w);
               ("completed", JBool c); ("lastAccessed", JStr t)].

(** The five admin-gated routes. *)
Definition admin_handlers (ck : clock) : list (request -> store -> response * store) :=
  [createSubject ck; deleteSubject; createWeek ck; updateWeek; deleteWeek].

End Handlers.
End Server.

(** ** The layout of the week namespace *)

Fixpoint colon_free (s : string) : bool :=
  match s with
  | EmptyString => true
  | String a s' => negb (Ascii.eqb a ":") && colon_free s'
  end.

(** A week record sits under the key its own [subjectId] and [id] spell, the
    way [createWeek] stores it; generated subject ids contain no colon. *)
Definition week_wf (k : string) (w : obj) : Prop :=
  k = Server.weekKey (template (w !! "subjectId")) (template (w !! "id"))
  /\ colon_free (template (w !! "subjectId")) = true.

Definition weeks_wf (s : Server.store) : Prop :=
  forall k w, s !! k = Some w -> startsWith "weeks:" k = true -> week_wf k w.

Definition week_wf_b (k : string) (w : obj) : bool :=
  String.eqb k (Server.weekKey (template (w !! "subjectId")) (template (w !! "id")))
  && colon_free (template (w !! "subjectId")).

Definition weeks_wf_b (s : Server.store) : bool :=
  forallb (fun kv => implb (startsWith "weeks:" kv.1) (week_wf_b kv.1 kv.2)) (map_to_list s).

(** The id [wid] addresses no week record but the one under [key]. *)
Definition sole_week_with_id (s : Server.store) (wid key : string) : Prop :=
  forall k w, s !! k = Some w -> startsWith "weeks:" k = true ->
              w !! "id" = Some (JStr wid) -> k = key.

(** [tok] is the access token of an account whose profile has role admin. *)
Definition admin_session (getUser : string -> option string) (tok : string)
    (s : Server.store) : Prop :=
  exists uid profile,
    Server.authenticate getUser (Server.Request (Some ("Bearer " +:+ tok)) EmptyString JNull) = Some uid
    /\ s !! ("users:" +:+ uid) = Some profile
    /\ profile !! "role" = Some (JStr "admin").

(** ** The admin dashboard *)

Module Admin.
Import Server.

Record ContentItem := {
  url : string;
  title : string
}.

Record Question := {
  qtype : option string;           (* "mcq" | "short_answer"; absent on legacy data *)
  question : string;
  options : option (list string);
  correctAnswer : option Z;
  sampleAnswer : option string
}.

(** The state [weekForm]; [weekNumber] is [None] when [parseInt] gave NaN. *)
Record WeekForm := {
  weekNumber : option Z;
  form_title : string;
  description : string;
  published : bool;
  videoLinks : list ContentItem;
  audioLinks : list ContentItem;
  pdfLinks : list ContentItem;
  questions : list Question
}.

(** [JSON.stringify] of the typed values. *)
Definition item_json (l : ContentItem) : json :=
  JObj (list_to_map [("url", JStr (url l)); ("title", JStr (title l))]).

Definition optional {A} (k : string) (f : A -> json) (v : option A) : list (string * json) :=
  match v with
  | Some x => [(k, f x)]
  | None => []
  end.

Definition question_json (q : Question) : json :=
  JObj (list_to_map
          (optional "type" JStr (qtype q)
           ++ [("question", JStr (question q))]
           ++ optional "options" (fun o => JArr (JStr <$> o)) (options q)
           ++ optional "correctAnswer" JNum (correctAnswer q)
           ++ optional "sampleAnswer" JStr (sampleAnswer q))).

(** The route a request is sent to. *)
Inductive call : Type :=
  | POST_weeks (req : request)
  | PUT_weeks (req : request).

(** [l => l.url.trim()] as a filter predicate. *)
Definition has_url (l : ContentItem) : bool := nonempty (trim (url l)).

(** The object [weekData] of [createOrUpdateWeek]: the form, the selected
    subject and the three filtered link lists. *)
Definition weekData (weekForm : WeekForm) (selectedSubject_id : string) : obj :=
  list_to_map
    [("weekNumber", match weekNumber weekForm with Some n => JNum n | None => JNull end);
     ("title", JStr (form_title weekForm));
     ("description", JStr (description weekForm));
     ("published", JBool (published weekForm));
     ("questions", JArr (question_json <$> questions weekForm));
     ("subjectId", JStr selectedSubject_id);
     ("videoLinks", JArr (item_json <$> List.filter has_url (videoLinks weekForm)));
     ("audioLinks", JArr (item_json <$> List.filter has_url (audioLinks weekForm)));
     ("pdfLinks", JArr (item_json <$> List.filter has_url (pdfLinks weekForm)))].

(** [createOrUpdateWeek]: the request built from the form. The week being
    edited, if any, is the object received in a listing. *)
Definition createOrUpdateWeek (accessToken : string) (weekForm : WeekForm)
    (selectedSubject_id : string) (editingWeek : option obj) : call :=
  let headers := Some ("Bearer " +:+ accessToken) in
  match editingWeek with
  | Some w =>
      PUT_weeks (Request headers (template (w !! "id")) (JObj (weekData weekForm selectedSubject_id)))
  | None => POST_weeks (Request headers EmptyString (JObj (weekData weekForm selectedSubject_id)))
  end.

(** [togglePublish]: PUT of [{ ...week, published: !week.published }]. *)
Definition togglePublish (accessToken : string) (week : obj) : request :=
  Request (Some ("Bearer " +:+ accessToken)) (template (week !! "id"))
    (JObj (<["published" := JBool (negb (truthy (week !! "published")))]> week)).

(** [loadWeeks] of the admin dashboard: the listing, sorted again. *)
Definition loadWeeks (str_to_num : string -> option Z) (weeks : list obj) : list obj :=
  sort_by (after str_to_num) weeks.

End Admin.

(** The earlier revision of the admin dashboard, whose links are bare url
    strings and whose questions carry no type. *)
Module AdminLegacy.
Import Server.

Record Question := {
  question : string;
  options : list string;
  correctAnswer : Z
}.

Record WeekForm := {
  weekNumber : option Z;
  form_title : string;
  published : bool;
  videoLinks : list string;
  audioLinks : list string;
  pdfLinks : list string;
  questions : list Question
}.

Definition question_json (q : Question) : json :=
  JObj (list_to_map [("question", JStr (question q));
                     ("options", JArr (JStr <$> options q));
                     ("correctAnswer", JNum (correctAnswer q))]).

(** [l => l.trim()] as a filter predicate. *)
Definition has_url (l : string) : bool := nonempty (trim l).

Definition weekData (weekForm : WeekForm) (selectedSubject_id : string) : obj :=
  list_to_map
    [("weekNumber", match weekNumber weekForm with Some n => JNum n | None => JNull end);
     ("title", JStr (form_title weekForm));
     ("published", JBool (published weekForm));
     ("questions", JArr (question_json <$> questions weekForm));
     ("subjectId", JStr selectedSubject_id);
     ("videoLinks", JArr (JStr <$> List.filter has_url (videoLinks weekForm)));
     ("audioLinks", JArr (JStr <$> List.filter has_url (audioLinks weekForm)));
     ("pdfLinks", JArr (JStr <$> List.filter has_url (pdfLinks weekForm)))].

Definition createOrUpdateWeek (accessToken : string) (weekForm : WeekForm)
    (selectedSubject_id : string) (editingWeek : option obj) : Admin.call :=
  let headers := Some ("Bearer " +:+ accessToken) in
  match editingWeek with
  | Some w =>
      Admin.PUT_weeks
        (Request headers (template (w !! "id")) (JObj (weekData weekForm selectedSubject_id)))
  | None =>
      Admin.POST_weeks (Request headers EmptyString (JObj (weekData weekForm selectedSubject_id)))
  end.

End AdminLegacy.

(** ** Regular expressions, as [String.prototype.match] runs them *)

Module RegExp.

Inductive re : Type :=
  | Eps
  | Bol                                (* ^ *)
  | Cls (p : ascii -> bool)            (* one code unit of a class *)
  | Seq (r1 r2 : re)
  | Alt (r1 r2 : re)
  | Opt (r : re)                       (* r?, greedy *)
  | Star (r : re)                      (* r*, greedy *)
  | Group (n : nat) (r : re).          (* the n-th capturing group *)

Abbreviation captures := (gmap nat (list ascii)).

(** Backtracking matcher in continuation-passing style: [pos] is the index of
    the next code unit, [s] the rest of the input. *)
Fixpoint run (r : re) (pos : nat) (s : list ascii) (c : captures)
    (k : nat -> list ascii -> captures -> option captures) {struct r} : option captures :=
  match r with
  | Eps => k pos s c
  | Bol => if (pos =? 0)%nat then k pos s c else None
  | Cls p =>
      match s with
      | a :: s' => if p a then k (S pos) s' c else None
      | [] => None
      end
  | Seq r1 r2 => run r1 pos s c (fun pos' s' c' => run r2 pos' s' c' k)
  | Alt r1 r2 =>
      match run r1 pos s c k with
      | Some x => Some x
      | None => run r2 pos s c k
      end
  | Opt r1 =>
      match run r1 pos s c k with
      | Some x => Some x
      | None => k pos s c
      end
  | Star r1 =>
      (fix loop (fuel : nat) (pos : nat) (s : list ascii) (c : captures) : option captures :=
         match fuel with
         | O => k pos s c
         | S fuel' =>
             match run r1 pos s c
                     (fun pos' s' c' => if (pos <? pos')%nat then loop fuel' pos' s' c' else None) with
             | Some x => Some x
             | None => k pos s c
             end
         end) (length s) pos s c
  | Group n r1 =>
      run r1 pos s c (fun pos' s' c' => k pos' s' (<[n := take (pos' - pos) s]> c'))
  end.

(** The continuation at the end of the pattern. *)
Definition accept (pos : nat) (s : list ascii) (c : captures) : option captures := Some c.

(** The search of a non-global match: the first start index with a match. *)
Fixpoint search (r : re) (pos : nat) (s : list ascii) : option captures :=
  match run r pos s ∅ accept with
  | Some c => Some c
  | None =>
      match s with
      | [] => None
      | _ :: s' => search r (S pos) s'
      end
  end.

Definition exec (r : re) (str : string) : option captures :=
  search r 0 (list_ascii_of_string str).

(** The greedy star of a one-character class, unfolded: as long a run as
    the continuation accepts. *)
Fixpoint star_cls (p : ascii -> bool) (pos : nat) (s : list ascii) (c : captures)
    (k : nat -> list ascii -> captures -> option captures) : option captures :=
  match s with
  | a :: s' =>
      if p a then
        match star_cls p (S pos) s' c k with
        | Some x => Some x
        | None => k pos s c
        end
      else k pos s c
  | [] => k pos s c
  end.

(** The classes of a pattern that is a plain sequence of one-character
    classes. *)
Fixpoint classes_of (r : re) : option (list (ascii -> bool)) :=
  match r with
  | Eps => Some []
  | Cls p => Some [p]
  | Seq r1 r2 =>
      match classes_of r1, classes_of r2 with
      | Some ps1, Some ps2 => Some (ps1 ++ ps2)
      | _, _ => None
      end
  | _ => None
  end.

Definition chr (a : ascii) : re := Cls (Ascii.eqb a).

(** [.]: any code unit but a line terminator. *)
Definition is_line_terminator (a : ascii) : bool :=
  Ascii.eqb a "010" || Ascii.eqb a "013".

Definition not_line_terminator (a : ascii) : bool := negb (is_line_terminator a).

Definition any : re := Cls not_line_terminator.

(** [\w] *)
Definition is_word (a : ascii) : bool :=
  let n := nat_of_ascii a in
  ((48 <=? n) && (n <=? 57) || (65 <=? n) && (n <=? 90)
   || (97 <=? n) && (n <=? 122) || (n =? 95))%nat.

Definition word : re := Cls is_word.

(** [[^...]] *)
Definition not_in (cs : string) (a : ascii) : bool :=
  negb (existsb (Ascii.eqb a) (list_ascii_of_string cs)).

Definition none_of (cs : string) : re := Cls (not_in cs).

Fixpoint lit (s : string) : re :=
  match s with
  | EmptyString => Eps
  | String a EmptyString => chr a
  | String a s' => Seq (chr a) (lit s')
  end.

Fixpoint seq (l : list re) : re :=
  match l with
  | [] => Eps
  | [r] => r
  | r :: l' => Seq r (seq l')
  end.

Fixpoint alt (l : list re) : re :=
  match l with
  | [] => Cls (fun _ => false)
  | [r] => r
  | r :: l' => Alt r (alt l')
  end.

End RegExp.

(** ** The student dashboard *)

Module Student.
Import RegExp.

Record Question := {
  qtype : option string;           (* "mcq" | "short_answer"; absent on legacy data *)
  question : string;
  options : option (list string);
  correctAnswer : option Z;
  sampleAnswer : option string
}.

(** [loadWeeks]: only published weeks, sorted by week number. *)
Definition loadWeeks (str_to_num : string -> option Z) (weeks : list obj) : list obj :=
  sort_by (after str_to_num) (List.filter (fun w => truthy (w !! "published")) weeks).

(** The pattern of [extractYouTubeId]: anchored at the start, a greedy run of
    any characters, group 1 with the five alternatives (groups 2 to 6)
    [youtu.be\/], [v\/], [\/u\/\w\/], [embed\/] and [watch\?], then an
    optional [?], an optional [v], an optional [=], group 7 as a greedy run
    of characters other than [#], [&] and [?], and a last greedy run of any
    characters. The dot of [youtu.be] is unescaped: it stands for any
    character. *)
Definition regExp : re :=
  seq [Bol; Star any;
       Group 1 (alt [Group 2 (seq [lit "youtu"; any; lit "be/"]);
                     Group 3 (lit "v/");
                     Group 4 (seq [lit "/u/"; word; chr "/"]);
                     Group 5 (lit "embed/");
                     Group 6 (lit "watch?")]);
       Opt (chr "?"); Opt (chr "v"); Opt (chr "=");
       Group 7 (Star (none_of "#&?"));
       Star any].

(** [extractYouTubeId]; group 7 takes part in every match. *)
Definition extractYouTubeId (url : string) : option string :=
  match exec regExp url with
  | Some m =>
      match m !! 7%nat with
      | Some t => if (length t =? 11)%nat then Some (string_of_list_ascii t) else None
      | None => None
      end
  | None => None
  end.

(** *** The pattern, read as a function

    What the pattern accepts, stated on the list of code units: the five
    separators, the optional characters after a separator and the token. *)

Definition chars (s : string) : list (ascii -> bool) :=
  Ascii.eqb <$> list_ascii_of_string s.

Definition separators : list (list (ascii -> bool)) :=
  [chars "youtu" ++ [not_line_terminator] ++ chars "be/";
   chars "v/";
   chars "/u/" ++ [is_word] ++ chars "/";
   chars "embed/";
   chars "watch?"].

(** [s] starts with code units of the classes [ps]: what follows them. *)
Fixpoint match_prefix (ps : list (ascii -> bool)) (s : list ascii) : option (list ascii) :=
  match ps, s with
  | [], _ => Some s
  | p :: ps', a :: s' => if p a then match_prefix ps' s' else None
  | _ :: _, [] => None
  end.

Fixpoint first_match (pss : list (list (ascii -> bool))) (s : list ascii) : option (list ascii) :=
  match pss with
  | [] => None
  | ps :: pss' =>
      match match_prefix ps s with
      | Some rest => Some rest
      | None => first_match pss' s
      end
  end.

(** [s] starts with a separator: what follows it. *)
Definition after_separator (s : list ascii) : option (list ascii) :=
  first_match separators s.

Definition skip (a : ascii) (s : list ascii) : list ascii :=
  match s with
  | c :: s' => if Ascii.eqb a c then s' else s
  | [] => []
  end.

Fixpoint run_of (p : ascii -> bool) (s : list ascii) : list ascii :=
  match s with
  | a :: s' => if p a then a :: run_of p s' else []
  | [] => []
  end.

(** The token after a separator: past an optional [?], an optional [v] and
    an optional [=], the characters up to the next [#], [&] or [?]. *)
Definition token (rest : list ascii) : list ascii :=
  run_of (not_in "#&?") (skip "=" (skip "v" (skip "?" rest))).

(** The token after the last separator that a line-terminator-free prefix
    reaches. *)
Fixpoint last_token (s : list ascii) : option (list ascii) :=
  match s with
  | [] => token <$> after_separator []
  | a :: s' =>
      if not_line_terminator a then
        match last_token s' with
        | Some t => Some t
        | None => token <$> after_separator s
        end
      else token <$> after_separator s
  end.

(** Following the spec (section 4.4): the four accepted forms,
    [youtu.be/<id>], [.../v/<id>], [.../embed/<id>] and [?v=<id>]. *)
Definition spec_forms : list string := ["youtu.be/"; "/v/"; "embed/"; "?v="].

Definition matches_accepted_form (url : string) : bool :=
  existsb (fun m => includes m url) spec_forms.

(** An entry of the state [answers]: an option index or a typed text. *)
Inductive answer : Type :=
  | Choice (i : Z)
  | Text (s : string).

(** [answers[i] === q.correctAnswer] *)
Definition strict_eq (a : option answer) (c : option Z) : bool :=
  match a, c with
  | None, None => true
  | Some (Choice i), Some j => i =? j
  | _, _ => false
  end.

Record score := Score {
  correct : nat;
  total : nat
}.

(** A question object of [selectedWeek.questions] with its identity: [===]
    on objects compares references, and the elements of a parsed array are
    distinct objects. *)
Abbreviation question_ref := (nat * Question)%type.

(** [q.type === "mcq" || !q.type] *)
Definition is_mcq (q : Question) : bool :=
  match qtype q with
  | Some t => String.eqb t "mcq" || negb (nonempty t)
  | None => true
  end.

(** [questions.findIndex(question => question === q)] *)
Fixpoint findIndex (q : question_ref) (questions : list question_ref) : option nat :=
  match questions with
  | [] => None
  | question :: rest =>
      if (question.1 =? q.1)%nat then Some O else S <$> findIndex q rest
  end.

(** [calculateScore], with [selectedWeek.questions] for [selectedWeek]. *)
Definition calculateScore (selectedWeek : option (list question_ref))
    (answers : gmap nat answer) : score :=
  match selectedWeek with
  | None => Score 0 0
  | Some questions =>
      let mcqQuestions := List.filter (fun q => is_mcq q.2) questions in
      let correct :=
        fold_left
          (fun correct q =>
             let questionIndex := findIndex q questions in
             if strict_eq (questionIndex ≫= fun i => answers !! i) (correctAnswer q.2)
             then S correct else correct)
          mcqQuestions O in
      Score correct (length mcqQuestions)
  end.

(** The student chose, at position [i], the option that is the question's
    [correctAnswer]. *)
Definition chose_correct (answers : gmap nat answer) (i : nat) (q : Question) : bool :=
  match answers !! i, correctAnswer q with
  | Some (Choice a), Some c => a =? c
  | _, _ => false
  end.

(** The number of MCQ questions answered correctly, counting positions from
    [i], and the number of MCQ questions. *)
Fixpoint count_correct (answers : gmap nat answer) (i : nat) (qs : list Question) : nat :=
  match qs with
  | [] => O
  | q :: qs' =>
      ((if is_mcq q && chose_correct answers i q then 1 else 0)
       + count_correct answers (S i) qs')%nat
  end.

Definition count_mcq (qs : list Question) : nat := length (List.filter is_mcq qs).

End Student.

(** The week with id [wid] shows in the student dashboard's list of a
    subject: the server listing as [loadWeeks] filters it. *)
Definition visible_to_students (scan : Server.store -> list (string * obj))
    (str_to_num : string -> option Z) (subjectId wid : string) (s : Server.store) : Prop :=
  exists w, w ∈ Student.loadWeeks str_to_num
                  (Server.listWeeksForSubject scan str_to_num subjectId s)
            /\ w !! "id" = Some (JStr wid).


(** ** A concrete deployment, for the examples *)

Module Scenario.
Import Server.

Definition getUser (tok : string) : option string :=
  if String.eqb tok "admin-token" then Some "u-admin"
  else if String.eqb tok "student-token" then Some "u-student"
  else None.

Definition str_to_num (_ : string) : option Z := None.

Definition scan (s : store) : list (string * obj) := map_to_list s.

Definition bearer (tok : string) : option string := Some ("Bearer " +:+ tok).

Definition profile (uid role : string) : obj :=
  list_to_map [("id", JStr uid); ("role", JStr role)].

(** Two accounts, no content. *)
Definition store0 : store :=
  list_to_map [("users:u-admin", profile "u-admin" "admin");
               ("users:u-student", profile "u-student" "student")].

Definition ck1 : clock := Clock 1700000000001 "2023-11-14T22:13:20.001Z" "k3j9x0q1z".
Definition ck2 : clock := Clock 1700000000002 "2023-11-14T22:13:20.002Z" "a0b1c2d3e".

Definition link (u : string) : json := JObj (list_to_map [("url", JStr u)]).

(** A create-week body whose first video link is blank. *)
Definition blank_link_body : json :=
  JObj (list_to_map [("subjectId", JStr "subject_1_abc"); ("weekNumber", JNum 1);
                     ("title", JStr "Week 1");
                     ("videoLinks", JArr [link "  "; link "http://x"])]).

Definition admin : option string := bearer "admin-token".
Definition student : option string := bearer "student-token".

Definition week_fields (sid : string) (n : Z) (t : string) : obj :=
  list_to_map [("subjectId", JStr sid); ("weekNumber", JNum n); ("title", JStr t)].

Definition wid1 : string := "week_1700000000001_k3j9x0q1z".

(** One week created under subject "A" ... *)
Definition store1 : store :=
  (createWeek getUser ck1 (Request admin EmptyString (JObj (week_fields "A" 2 "Intro"))) store0).2.

Definition week1 : obj := new_week wid1 ck1 (week_fields "A" 2 "Intro").

(** ... and a second one, with a smaller week number. *)
Definition store2 : store :=
  (createWeek getUser ck2 (Request admin EmptyString (JObj (week_fields "A" 1 "Basics"))) store1).2.

Definition week2 : obj :=
  new_week "week_1700000000002_a0b1c2d3e" ck2 (week_fields "A" 1 "Basics").

(** The two weeks as GET /weeks/A lists them. *)
Definition listing : list obj := listWeeksForSubject scan str_to_num "A" store2.

(** An update of the first week that renames it, and one that names another
    subject. *)
Definition rename : request := Request admin wid1 (JObj {[ "title" := JStr "Renamed" ]}).

Definition move (sid : string) : request :=
  Request admin wid1 (JObj {[ "subjectId" := JStr sid ]}).

(** The first week after an update whose body names subject "B" ... *)
Definition store_moved : store := (updateWeek scan getUser (move "B") store1).2.

(** ... and after a second one whose body names subject "C". *)
Definition store_again : store := (updateWeek scan getUser (move "C") store_moved).2.

Definition progress_fields (w : string) (c : bool) : obj :=
  list_to_map [("weekId", JStr w); ("completed", JBool c)].

Definition save (c : bool) : request :=
  Request student EmptyString (JObj (progress_fields "w1" c)).

(** The student opens week "w1", then submits its quiz. *)
Definition store_saved : store :=
  (recordProgress getUser ck2 (save true) (recordProgress getUser ck1 (save false) store0).2).2.

Definition mcq (c : Z) : Student.Question :=
  Student.Build_Question (Some "mcq") "Which one?" (Some ["a"; "b"; "c"; "d"]) (Some c) None.

Definition short_answer : Student.Question :=
  Student.Build_Question (Some "short_answer") "Why?" None None (Some "Because.").

(** Three MCQ questions with correct options 0, 1, 2 and a short-answer
    question, as objects 0 to 3. *)
Definition quiz : list Student.question_ref :=
  [(0%nat, mcq 0); (1%nat, mcq 1); (2%nat, mcq 2); (3%nat, short_answer)].

Definition answers : gmap nat Student.answer :=
  list_to_map [(0%nat, Student.Choice 0); (1%nat, Student.Choice 2);
               (2%nat, Student.Choice 2); (3%nat, Student.Text "Because.")].

Definition form : Admin.WeekForm :=
  {| Admin.weekNumber := Some 1;
     Admin.form_title := "Week 1";
     Admin.description := EmptyString;
     Admin.published := false;
     Admin.videoLinks := [Admin.Build_ContentItem "  " EmptyString; Admin.Build_ContentItem "http://x" EmptyString];
     Admin.audioLinks := [Admin.Build_ContentItem EmptyString EmptyString];
     Admin.pdfLinks := [Admin.Build_ContentItem EmptyString EmptyString];
     Admin.questions := [] |}.

End Scenario.

(** ** Accounts: the sign-up routes and the profile route *)

Module Accounts.
Import Server.

(** The profile stored under [users:<id>]. *)
Definition new_profile (uid : string) (email name : json) (role : string) (ck : clock) : obj :=
  list_to_map [("id", JStr uid); ("email", email); ("name", name);
               ("role", JStr role); ("createdAt", JStr (iso_now ck))].

(** The [user] of a sign-up response. *)
Definition public_user (uid : string) (email name : json) (role : string) : json :=
  JObj (list_to_map [("id", JStr uid); ("email", email); ("name", name); ("role", JStr role)]).

(** The part the two sign-up handlers share after their own checks. [created]
    is the answer of [supabase.auth.admin.createUser], read only where the
    call is reached: [inl message] for an [authError], [inr id] for the id of
    the new user. *)
Definition register (role : string) (ck : clock) (created : string + string) (b : obj)
    (s : store) : response * store :=
  if negb (truthy (b !! "email")) || negb (truthy (b !! "password"))
     || negb (truthy (b !! "name"))
  then (error 400 "Missing required fields", s)
  else
    match created with
    | inl message => (error 400 message, s)
    | inr uid =>
        let email := or_default (b !! "email") JNull in
        let name := or_default (b !! "name") JNull in
        (ok [("success", JBool true); ("user", public_user uid email name role)],
         kv_set ("users:" +:+ uid) (new_profile uid email name role ck) s)
    end.

(** POST /signup *)
Definition signup (ck : clock) (created : string + string) (req : request) (s : store)
    : response * store :=
  match destructure (payload req) with
  | None => (error 500 "Signup failed", s)
  | Some b => register "student" ck created b s
  end.

(** POST /admin/signup: the secret is compared before anything else. *)
Definition adminSignup (ck : clock) (created : string + string) (req : request) (s : store)
    : response * store :=
  match destructure (payload req) with
  | None => (error 500 "Admin signup failed", s)
  | Some b =>
      if negb (strict_eq_str (b !! "adminSecret") "admin123")
      then (error 403 "Invalid admin secret", s)
      else register "admin" ck created b s
  end.

(** GET /user *)
Definition getUserProfile (getUser : string -> option string) (req : request) (s : store)
    : response * store :=
  match authenticate getUser req with
  | None => (error 401 "Unauthorized", s)
  | Some uid =>
      match kv_get ("users:" +:+ uid) s with
      | None => (error 404 "User profile not found", s)
      | Some userProfile => (ok [("user", JObj userProfile)], s)
      end
  end.

End Accounts.

(** [`subject_${Date.now()}_${Math.random().toString(36).substr(2, 9)}`] *)
Definition new_subjectId (ck : Server.clock) : string :=
  "subject_" +:+ pretty (Server.date_now ck) +:+ "_" +:+ Server.random36 ck.

(** The object literal [subject] of the create handler. *)
Definition new_subject (ck : Server.clock) (b : obj) : obj :=
  list_to_map [("id", JStr (new_subjectId ck));
               ("name", or_default (b !! "name") JNull);
               ("description", or_default (b !! "description") (JStr EmptyString));
               ("createdAt", JStr (Server.iso_now ck))].

(** ** The student dashboard: progress and week status *)

Module Dashboard.
Import Server.

(** The field of [Week] that the status code reads. *)
Record Week := {
  id : string
}.

Inductive status : Type :=
  | completed
  | current
  | locked
  | available.

Definition is_locked (st : status) : bool :=
  match st with
  | locked => true
  | _ => false
  end.

(** [progressData.some(p => p.weekId === weekId && p.completed)] *)
Definition isWeekCompleted (progressData : list obj) (weekId : string) : bool :=
  existsb (fun p => strict_eq_str (p !! "weekId") weekId && truthy (p !! "completed"))
          progressData.

(** [progressData.some(p => p.weekId === weekId)] *)
Definition isWeekStarted (progressData : list obj) (weekId : string) : bool :=
  existsb (fun p => strict_eq_str (p !! "weekId") weekId) progressData.

Definition getWeekStatus (progressData : list obj) (weeks : list Week)
    (week : Week) (index : nat) : status :=
  if isWeekCompleted progressData (id week) then completed
  else if (index =? 0)%nat then
    (if isWeekStarted progressData (id week) then current else available)
  else
    match weeks !! (index - 1)%nat with
    | Some previousWeek =>
        if isWeekCompleted progressData (id previousWeek)
        then (if isWeekStarted progressData (id week) then current else available)
        else available
    | None => available
    end.

(** The click on a week card: [None] when the card is locked; otherwise the
    week that becomes [selectedWeek] and the arguments of the call of
    [saveProgress], if there is one. *)
Definition onClick (progressData : list obj) (weeks : list Week)
    (week : Week) (index : nat) : option (Week * option (string * bool)) :=
  let isLocked := is_locked (getWeekStatus progressData weeks week index) in
  if negb isLocked then
    Some (week, if negb (isWeekStarted progressData (id week))
                then Some (id week, false) else None)
  else None.

(** [handleSubmitQuiz]: the arguments of its call of [saveProgress]. *)
Definition handleSubmitQuiz (selectedWeek : option Week) : option (string * bool) :=
  match selectedWeek with
  | Some w => Some (id w, true)
  | None => None
  end.

(** The POST /progress request of [saveProgress]. *)
Definition saveProgress_request (accessToken weekId : string) (completed : bool) : request :=
  Request (Some ("Bearer " +:+ accessToken)) EmptyString
          (JObj (list_to_map [("weekId", JStr weekId); ("completed", JBool completed)])).

(** The GET /progress request of [loadProgress]. *)
Definition loadProgress_request (accessToken : string) : request :=
  Request (Some ("Bearer " +:+ accessToken)) EmptyString JNull.

(** [data.progress || []], read as the list of its objects. *)
Definition progress_of (data : json) : list obj :=
  match data with
  | JObj m =>
      match or_default (m !! "progress") (JArr []) with
      | JArr l => omap (fun p => match p with JObj o => Some o | _ => None end) l
      | _ => []
      end
  | _ => []
  end.

Section Session.
Variable scan : store -> list (string * obj).
Variable getUser : string -> option string.

(** [loadProgress] against the server: the new [progressData]. *)
Definition loadProgress (accessToken : string) (s : store) : list obj :=
  progress_of (body (getProgress scan getUser (loadProgress_request accessToken) s).1).

(** [saveProgress] against the server: the POST, then [loadProgress]. *)
Definition saveProgress (ck : clock) (accessToken weekId : string) (completed : bool)
    (s : store) : list obj * store :=
  let s' := (recordProgress getUser ck (saveProgress_request accessToken weekId completed) s).2 in
  (loadProgress accessToken s', s').

End Session.

End Dashboard.

(** ** The student dashboard: links of a week *)

Module Content.
Import RegExp.

(** [[a-zA-Z0-9_-]] *)
Definition is_id (a : ascii) : bool := is_word a || Ascii.eqb a "-".

(** [[?&]] *)
Definition is_query_mark (a : ascii) : bool := Ascii.eqb a "?" || Ascii.eqb a "&".

(** [r+], greedy. *)
Definition plus (r : re) : re := Seq r (Star r).

(** The first pattern of [extractGoogleDriveId]: [\/d\/] and group 1, one or
    more id characters. *)
Definition by_path : re := Seq (lit "/d/") (Group 1 (plus (Cls is_id))).

(** The second pattern: [[?&]id=] and group 1, one or more id characters. *)
Definition by_query : re :=
  Seq (Seq (Cls is_query_mark) (lit "id=")) (Group 1 (plus (Cls is_id))).

(** [match[n]] *)
Definition group (n : nat) (m : captures) : option string :=
  string_of_list_ascii <$> m !! n.

Definition extractGoogleDriveId (url : string) : option string :=
  match exec by_path url with
  | Some match_ => group 1 match_
  | None =>
      match exec by_query url with
      | Some idMatch => group 1 idMatch
      | None => None
      end
  end.

(** The text after an id does not go on with an id character. *)
Definition no_id_ahead (rest : string) : Prop :=
  match rest with
  | String a _ => is_id a = false
  | EmptyString => True
  end.

(** [getContentUrl]; an item is a bare url (legacy data) or a [ContentItem]. *)
Definition getContentUrl (item : string + Admin.ContentItem) : string :=
  match item with
  | inl s => s
  | inr i => Admin.url i
  end.

Definition getContentTitle (item : string + Admin.ContentItem) (defaultTitle : string) : string :=
  match item with
  | inl _ => defaultTitle
  | inr i => if nonempty (Admin.title i) then Admin.title i else defaultTitle
  end.

End Content.

(** ** The admin dashboard: editing the week form *)

Module Form.
Import Admin.

(** A link as stored: a bare url (legacy data) or a [ContentItem]. *)
Abbreviation link := (string + ContentItem)%type.

(** A week as the dashboard receives it; the fields that the code guards
    with [||] may be missing. *)
Record Week := {
  week_weekNumber : Z;
  week_title : string;
  week_description : option string;
  week_published : bool;
  week_videoLinks : option (list link);
  week_audioLinks : option (list link);
  week_pdfLinks : option (list link);
  week_questions : option (list Question)
}.

(** ["videoLinks" | "audioLinks" | "pdfLinks"] *)
Inductive link_type : Type :=
  | VideoLinks
  | AudioLinks
  | PdfLinks.

(** [weekForm[type]] *)
Definition links_of (type : link_type) (weekForm : WeekForm) : list ContentItem :=
  match type with
  | VideoLinks => videoLinks weekForm
  | AudioLinks => audioLinks weekForm
  | PdfLinks => pdfLinks weekForm
  end.

(** [{ ...weekForm, [type]: links }] *)
Definition with_links (type : link_type) (links : list ContentItem) (weekForm : WeekForm) : WeekForm :=
  {| weekNumber := weekNumber weekForm;
     form_title := form_title weekForm;
     description := description weekForm;
     published := published weekForm;
     videoLinks := match type with VideoLinks => links | _ => videoLinks weekForm end;
     audioLinks := match type with AudioLinks => links | _ => audioLinks weekForm end;
     pdfLinks := match type with PdfLinks => links | _ => pdfLinks weekForm end;
     questions := questions weekForm |}.

(** [{ ...weekForm, questions }] *)
Definition with_questions (qs : list Question) (weekForm : WeekForm) : WeekForm :=
  {| weekNumber := weekNumber weekForm;
     form_title := form_title weekForm;
     description := description weekForm;
     published := published weekForm;
     videoLinks := videoLinks weekForm;
     audioLinks := audioLinks weekForm;
     pdfLinks := pdfLinks weekForm;
     questions := qs |}.

(** The placeholder row [{ url: "", title: "" }]. *)
Definition blank : ContentItem := Build_ContentItem EmptyString EmptyString.

Definition normalizeContentLinks (links : list link) : list ContentItem :=
  (fun item => match item with
               | inl s => Build_ContentItem s EmptyString
               | inr i => i
               end) <$> links.

(** [l.filter((_, i) => i !== index)] *)
Fixpoint without {A} (index : nat) (l : list A) : list A :=
  match l, index with
  | [], _ => []
  | _ :: l', O => l'
  | x :: l', S i => x :: without i l'
  end.

(** [links.length > 0 ? links : [{ url: "", title: "" }]] *)
Definition or_blank (links : list ContentItem) : list ContentItem :=
  if (0 <? length links)%nat then links else [blank].

Definition resetWeekForm (weeks_length : nat) : WeekForm :=
  {| weekNumber := Some (Z.of_nat weeks_length + 1);
     form_title := EmptyString;
     description := EmptyString;
     published := false;
     videoLinks := [blank];
     audioLinks := [blank];
     pdfLinks := [blank];
     questions := [] |}.

Definition addContentLink (type : link_type) (weekForm : WeekForm) : WeekForm :=
  with_links type (links_of type weekForm ++ [blank]) weekForm.

Definition removeContentLink (type : link_type) (index : nat) (weekForm : WeekForm) : WeekForm :=
  let links := without index (links_of type weekForm) in
  with_links type (or_blank links) weekForm.

Definition addQuestion (type : string) (weekForm : WeekForm) : WeekForm :=
  let newQuestion :=
    if String.eqb type "mcq"
    then Build_Question (Some "mcq") EmptyString
           (Some [EmptyString; EmptyString; EmptyString; EmptyString]) (Some 0) None
    else Build_Question (Some "short_answer") EmptyString None None (Some EmptyString) in
  with_questions (questions weekForm ++ [newQuestion]) weekForm.

Definition removeQuestion (index : nat) (weekForm : WeekForm) : WeekForm :=
  with_questions (without index (questions weekForm)) weekForm.

(** [editWeek]: the form filled from a week; a missing link list would
    raise in [normalizeContentLinks] ([None]). *)
Definition editWeek (week : Week) : option WeekForm :=
  match week_videoLinks week, week_audioLinks week, week_pdfLinks week with
  | Some v, Some a, Some p =>
      Some {| weekNumber := Some (week_weekNumber week);
              form_title := week_title week;
              description := match week_description week with
                             | Some d => if nonempty d then d else EmptyString
                             | None => EmptyString
                             end;
              published := week_published week;
              videoLinks := or_blank (normalizeContentLinks v);
              audioLinks := or_blank (normalizeContentLinks a);
              pdfLinks := or_blank (normalizeContentLinks p);
              questions := default [] (week_questions week) |}
  | _, _, _ => None
  end.

(** [l => typeof l === "string" ? l : l.url] as a filter predicate. *)
Definition counted (l : link) : bool :=
  match l with
  | inl s => nonempty s
  | inr i => nonempty (url i)
  end.

Record ContentCount := {
  videos : nat;
  audio : nat;
  pdfs : nat;
  questions_count : nat
}.

Definition getContentCount (week : Week) : ContentCount :=
  {| videos := length (List.filter counted (default [] (week_videoLinks week)));
     audio := length (List.filter counted (default [] (week_audioLinks week)));
     pdfs := length (List.filter counted (default [] (week_pdfLinks week)));
     questions_count := length (default [] (week_questions week)) |}.

(** Every link list of the form has a row to type into. *)
Definition has_rows (weekForm : WeekForm) : Prop :=
  forall type, links_of type weekForm <> [].

End Form.

(** ** More data for the examples *)

Module Examples.
Import Server.

(** The body of a sign-up, with or without an admin secret. *)
Definition account (secret : option string) : obj :=
  list_to_map ([("email", JStr "ann@example.org"); ("password", JStr "secret1");
                ("name", JStr "Ann")]
               ++ match secret with
                  | Some x => [("adminSecret", JStr x)]
                  | None => []
                  end).

Definition anonymous (b : obj) : request := Request None EmptyString (JObj b).

Definition subject_body : obj := list_to_map [("name", JStr "Maths")].

(** A create-week body with week number 0 and no name. *)
Definition week0_body : obj :=
  list_to_map [("subjectId", JStr "A"); ("weekNumber", JNum 0); ("title", JStr "Week 0")].

Definition intro : request :=
  Request Scenario.admin EmptyString (JObj (Scenario.week_fields "A" 2 "Intro")).

Definition w1 : Dashboard.Week := Dashboard.Build_Week "w1".

(** The week of subject "A" after an authorized PUT whose body is
    [{ id: "zzz" }]: the record stays under its key and carries the new id. *)
Definition store_relabelled : store :=
  (updateWeek Scenario.scan Scenario.getUser
     (Request Scenario.admin Scenario.wid1 (JObj {[ "id" := JStr "zzz" ]}))
     Scenario.store1).2.

(** One week created with the subjectId "A:B". *)
Definition store_nested : store :=
  (createWeek Scenario.getUser Scenario.ck1
     (Request Scenario.admin EmptyString (JObj (Scenario.week_fields "A:B" 1 "Nested")))
     Scenario.store0).2.

(** An authorized DELETE /admin/subjects/:id. *)
Definition delete_subject (subjectId : string) (s : store) : response * store :=
  deleteSubject Scenario.scan Scenario.getUser (Request Scenario.admin subjectId JNull) s.

End Examples.

(** * Properties *)

Import Server.

(** ** Strings and keys *)

Lemma app_String a s t : String a s +:+ t = String a (s +:+ t).
Proof. reflexivity. Qed.

Lemma app_empty_l s : EmptyString +:+ s = s.
Proof. reflexivity. Qed.

Lemma startsWith_iff p s : startsWith p s = true <-> exists r, s = p +:+ r.
Proof.
  revert s. induction p as [|a p IH]; intros s; simpl.
  - split; [intros _; by exists s | done].
  - destruct s as [|b s].
    + split; [done | intros [r Hr]; discriminate].
    + rewrite andb_true_iff, IH, Ascii.eqb_eq. split.
      * intros [-> [r ->]]. by exists r.
      * intros [r Hr]. rewrite app_String in Hr. injection Hr as -> ->. eauto.
Qed.

Lemma startsWith_app p r : startsWith p (p +:+ r) = true.
Proof. apply startsWith_iff. by exists r. Qed.

Lemma startsWith_app_l a p s : startsWith (a +:+ p) (a +:+ s) = startsWith p s.
Proof.
  induction a as [|c a IH]; [done|].
  rewrite !app_String. simpl. by rewrite Ascii.eqb_refl.
Qed.

Lemma startsWith_progress uid w : startsWith (progressPrefix uid) (progressKey uid w) = true.
Proof.
  unfold progressPrefix, progressKey. rewrite !startsWith_app_l. apply startsWith_app.
Qed.

Lemma startsWith_week sid wid : startsWith (weekPrefix sid) (weekKey sid wid) = true.
Proof.
  unfold weekPrefix, weekKey. rewrite !startsWith_app_l. apply startsWith_app.
Qed.

Lemma startsWith_weeks sid wid : startsWith "weeks:" (weekKey sid wid) = true.
Proof. apply startsWith_app. Qed.

(** ** The prefix scan *)

Section Scan.
Context (scan : store -> list (string * obj)).
Hypothesis scan_perm : forall s, scan s ≡ₚ map_to_list s.

Lemma elem_of_getByPrefix p s v :
  v ∈ kv_getByPrefix scan p s <-> exists k, s !! k = Some v /\ startsWith p k = true.
Proof.
  unfold kv_getByPrefix. rewrite list_elem_of_fmap. split.
  - intros [[k v'] [-> Hin]]. apply list_elem_of_filter in Hin as [Hp Hin].
    rewrite scan_perm in Hin. apply elem_of_map_to_list in Hin. eauto.
  - intros (k & Hk & Hp). exists (k, v). split; [done|].
    apply list_elem_of_filter. split; [done|].
    rewrite scan_perm. by apply elem_of_map_to_list.
Qed.

Lemma getByPrefix_nil p s :
  (forall k v, s !! k = Some v -> startsWith p k = false) -> kv_getByPrefix scan p s = [].
Proof.
  intros H. destruct (kv_getByPrefix scan p s) as [|v l] eqn:E; [done|].
  assert (v ∈ kv_getByPrefix scan p s) as Hin by (rewrite E; left).
  apply elem_of_getByPrefix in Hin as (k & Hk & Hp). rewrite (H _ _ Hk) in Hp. done.
Qed.

Lemma getByPrefix_insert p k v s :
  kv_getByPrefix scan p (<[k := v]> s)
  ≡ₚ (if startsWith p k then [v] else []) ++ kv_getByPrefix scan p (delete k s).
Proof.
  unfold kv_getByPrefix. rewrite !scan_perm.
  rewrite <- (insert_delete_eq s k v) at 1.
  rewrite map_to_list_insert by apply lookup_delete_eq.
  rewrite filter_cons. simpl. destruct (startsWith p k) eqn:E.
  - rewrite decide_True by done. done.
  - rewrite decide_False by (by intros ?). done.
Qed.

End Scan.

(** ** Authorization of the admin routes *)

Section Authorization.
Context (scan : store -> list (string * obj)) (getUser : string -> option string).

Lemma authenticate_None req :
  (forall tok, accessToken req = Some tok -> tok = EmptyString \/ getUser tok = None) ->
  authenticate getUser req = None.
Proof.
  intros H. unfold authenticate. destruct (accessToken req) as [tok|]; [|done].
  destruct (H tok eq_refl) as [-> | Hg]; [done|].
  rewrite Hg. by destruct (nonempty tok).
Qed.

Lemma authenticate_Some req tok uid :
  accessToken req = Some tok -> tok <> EmptyString -> getUser tok = Some uid ->
  authenticate getUser req = Some uid.
Proof.
  intros Ht Hne Hg. unfold authenticate. rewrite Ht.
  destruct tok; [done|]. done.
Qed.

Lemma admin_gate_Forbidden req s uid :
  authenticate getUser req = Some uid ->
  (forall profile, s !! ("users:" +:+ uid) = Some profile ->
                   profile !! "role" <> Some (JStr "admin")) ->
  admin_gate getUser req s = Forbidden.
Proof.
  intros Ha Hrole. unfold admin_gate, kv_get. rewrite Ha.
  destruct (s !! ("users:" +:+ uid)) as [profile|] eqn:Hp; [|done].
  specialize (Hrole profile eq_refl). unfold strict_eq_str.
  destruct (profile !! "role") as [[| | |t| |]|]; try done.
  destruct (String.eqb t "admin") eqn:E; [|done].
  apply String.eqb_eq in E as ->. done.
Qed.

(** C6: each of the five admin-gated handlers answers 401 with the same body
    when the bearer token is missing, empty or rejected by the identity
    provider, and 403 with the same body when the token is valid but the
    caller has no profile with role "admin"; the store is returned unchanged
    in both cases. *)
Theorem admin_routes_reject (ck : clock) (req : request) (s : store)
    (h : request -> store -> response * store) :
  h ∈ admin_handlers scan getUser ck ->
  ((forall tok, accessToken req = Some tok -> tok = EmptyString \/ getUser tok = None) ->
   h req s = (error 401 "Unauthorized", s))
  /\ (forall tok uid,
        accessToken req = Some tok -> tok <> EmptyString -> getUser tok = Some uid ->
        (forall profile, s !! ("users:" +:+ uid) = Some profile ->
                         profile !! "role" <> Some (JStr "admin")) ->
        h req s = (error 403 "Admin access required", s)).
Proof.
  intros Hh. split.
  - intros Htok. apply authenticate_None in Htok.
    unfold admin_handlers in Hh.
    repeat (apply elem_of_cons in Hh as [-> | Hh]); [..| by apply elem_of_nil in Hh];
      unfold createSubject, deleteSubject, createWeek, updateWeek, deleteWeek, admin_gate;
      by rewrite Htok.
  - intros tok uid Ht Hne Hg Hrole.
    pose proof (admin_gate_Forbidden req s uid (authenticate_Some _ _ _ Ht Hne Hg) Hrole) as Hf.
    unfold admin_handlers in Hh.
    repeat (apply elem_of_cons in Hh as [-> | Hh]); [..| by apply elem_of_nil in Hh];
      unfold createSubject, deleteSubject, createWeek, updateWeek, deleteWeek;
      by rewrite Hf.
Qed.

End Authorization.

(** ** Progress records *)

Section Progress.
Context (scan : store -> list (string * obj)) (getUser : string -> option string).
Hypothesis scan_perm : forall s, scan s ≡ₚ map_to_list s.


Lemma recordProgress_once ck req s uid b w c :
  authenticate getUser req = Some uid ->
  payload req = JObj b ->
  b !! "weekId" = Some (JStr w) ->
  b !! "completed" = Some (JBool c) ->
  recordProgress getUser ck req s
  = (ok [("success", JBool true); ("progress", JObj (progress_record uid w c (iso_now ck)))],
     <[progressKey uid w := progress_record uid w c (iso_now ck)]> s).
Proof.
  intros Ha Hp Hw Hc. unfold recordProgress. rewrite Ha, Hp. simpl. rewrite Hw, Hc.
  unfold kv_set, progress_record. simpl. by destruct c.
Qed.

(** C5: two saves by the same user for the same week, whatever the two
    [completed] flags (in particular false then true), write one key: the
    store after both is the initial store with the single key of (user, week)
    bound to the record of the second call, whose [completed] is the second
    flag and whose [lastAccessed] is the time of the second call; after the
    first call the key held the first flag and the time of the first call.
    The user's listing then holds that record once, next to the records the
    user had under other keys. *)
Theorem recordProgress_last_write_wins ck1 ck2 req1 req2 (s : store) uid b1 b2 w c1 c2 :
  authenticate getUser req1 = Some uid ->
  authenticate getUser req2 = Some uid ->
  payload req1 = JObj b1 -> b1 !! "weekId" = Some (JStr w) ->
  b1 !! "completed" = Some (JBool c1) ->
  payload req2 = JObj b2 -> b2 !! "weekId" = Some (JStr w) ->
  b2 !! "completed" = Some (JBool c2) ->
  let r1 := recordProgress getUser ck1 req1 s in
  let r2 := recordProgress getUser ck2 req2 r1.2 in
  status r1.1 = 200%nat /\ status r2.1 = 200%nat
  /\ r1.2 !! progressKey uid w = Some (progress_record uid w c1 (iso_now ck1))
  /\ r2.2 = <[progressKey uid w := progress_record uid w c2 (iso_now ck2)]> s
  /\ r2.2 !! progressKey uid w = Some (progress_record uid w c2 (iso_now ck2))
  /\ progress_record uid w c2 (iso_now ck2) !! "completed" = Some (JBool c2)
  /\ progress_record uid w c2 (iso_now ck2) !! "lastAccessed" = Some (JStr (iso_now ck2))
  /\ listProgress scan uid r2.2
     ≡ₚ progress_record uid w c2 (iso_now ck2)
        :: listProgress scan uid (delete (progressKey uid w) s)
  /\ ((forall k v, s !! k = Some v -> startsWith (progressPrefix uid) k = true ->
                   k = progressKey uid w) ->
      listProgress scan uid r2.2 = [progress_record uid w c2 (iso_now ck2)]).
Proof.
  intros Ha1 Ha2 Hp1 Hw1 Hc1 Hp2 Hw2 Hc2 r1 r2. subst r1 r2.
  rewrite (recordProgress_once ck1 req1 s uid b1 w c1) by done. simpl.
  rewrite (recordProgress_once ck2 req2 _ uid b2 w c2) by done. simpl.
  rewrite insert_insert_eq, !lookup_insert_eq.
  assert (kv_getByPrefix scan (progressPrefix uid)
            (<[progressKey uid w := progress_record uid w c2 (iso_now ck2)]> s)
          ≡ₚ progress_record uid w c2 (iso_now ck2)
             :: kv_getByPrefix scan (progressPrefix uid) (delete (progressKey uid w) s)) as HP.
  { rewrite getByPrefix_insert by done. by rewrite startsWith_progress. }
  repeat split; try done.
  intros Hfresh. unfold listProgress.
  rewrite (getByPrefix_nil scan scan_perm (progressPrefix uid) (delete (progressKey uid w) s)) in HP.
  - by apply Permutation_singleton_r in HP.
  - intros k v Hk. apply lookup_delete_Some in Hk as [Hne Hk].
    destruct (startsWith (progressPrefix uid) k) eqn:E; [|done].
    by destruct Hne; symmetry; eapply Hfresh.
Qed.

End Progress.

(** ** The stable sort *)

Section Sort.
Context {A : Type} (gt : A -> A -> bool).

Lemma insert_by_perm x l : insert_by gt x l ≡ₚ x :: l.
Proof.
  induction l as [|y l IH]; simpl; [done|].
  destruct (gt x y); [|done]. rewrite IH. apply Permutation_swap.
Qed.

Lemma sort_by_perm l : sort_by gt l ≡ₚ l.
Proof.
  induction l as [|x l IH]; simpl; [done|].
  rewrite insert_by_perm. by rewrite IH.
Qed.

Lemma elem_of_sort_by x l : x ∈ sort_by gt l <-> x ∈ l.
Proof. by rewrite sort_by_perm. Qed.

Lemma insert_by_ext (gt' : A -> A -> bool) x l :
  (forall y, y ∈ l -> gt x y = gt' x y) -> insert_by gt x l = insert_by gt' x l.
Proof.
  induction l as [|y l IH]; intros H; simpl; [done|].
  rewrite <- (H y) by left. rewrite IH; [done|]. intros z Hz. apply H. by right.
Qed.

End Sort.

Lemma sort_by_ext {A} (gt gt' : A -> A -> bool) l :
  (forall x y, x ∈ l -> y ∈ l -> gt x y = gt' x y) -> sort_by gt l = sort_by gt' l.
Proof.
  induction l as [|x l IH]; intros H; simpl; [done|].
  rewrite <- IH.
  - apply insert_by_ext. intros y Hy. apply elem_of_sort_by in Hy.
    apply H; [left | by right].
  - intros y z Hy Hz. apply H; by right.
Qed.

Section SortByKey.
Context {A : Type} (key : A -> Z).


Lemma insert_by_sorted x l :
  StronglySorted (fun a b => key a <= key b) l ->
  StronglySorted (fun a b => key a <= key b) (insert_by (by_key key) x l).
Proof.
  induction 1 as [|y l Hl IH Hy]; simpl.
  - repeat constructor.
  - unfold by_key at 1. destruct (0 <? key x - key y) eqn:E.
    + apply Z.ltb_lt in E. constructor; [done|].
      rewrite insert_by_perm. constructor; [lia | done].
    + apply Z.ltb_ge in E. constructor; [by constructor|].
      constructor; [lia|]. eapply Forall_impl; [exact Hy|]. simpl. intros; lia.
Qed.

Lemma sort_by_sorted l : StronglySorted (fun a b => key a <= key b) (sort_by (by_key key) l).
Proof.
  induction l as [|x l IH]; simpl; [constructor|]. by apply insert_by_sorted.
Qed.

Lemma insert_by_stable n x l :
  filter (fun a => key a = n) (insert_by (by_key key) x l) = filter (fun a => key a = n) (x :: l).
Proof.
  induction l as [|y l IH]; simpl; [done|].
  unfold by_key at 1. destruct (0 <? key x - key y) eqn:E; [|done].
  apply Z.ltb_lt in E. rewrite filter_cons, IH, !filter_cons.
  repeat case_decide; try done; lia.
Qed.

Lemma sort_by_stable n l :
  filter (fun a => key a = n) (sort_by (by_key key) l) = filter (fun a => key a = n) l.
Proof.
  induction l as [|x l IH]; simpl; [done|].
  rewrite insert_by_stable, !filter_cons, IH. done.
Qed.

End SortByKey.

Lemma StronglySorted_adjacent {A} (R : A -> A -> Prop) l i a b :
  StronglySorted R l -> l !! i = Some a -> l !! S i = Some b -> R a b.
Proof.
  intros H. revert i. induction H as [|x l Hl IH Hx]; intros i Ha Hb; [done|].
  destruct i as [|i]; simpl in *.
  - injection Ha as ->. rewrite Forall_forall in Hx. apply Hx.
    apply list_elem_of_lookup. eauto.
  - eauto.
Qed.

(** ** The week listing *)

Section Listing.
Context (scan : store -> list (string * obj)) (str_to_num : string -> option Z).

Lemma after_key (l : list obj) :
  (forall w, w ∈ l -> is_Some (toNumber str_to_num (w !! "weekNumber"))) ->
  forall a b, a ∈ l -> b ∈ l ->
    after str_to_num a b = by_key (weekNumberOf str_to_num) a b.
Proof.
  intros H a b Ha Hb. unfold after, by_key, weekNumberOf.
  destruct (H a Ha) as [x ->], (H b Hb) as [y ->]. done.
Qed.

(** C3: when no stored week number coerces to NaN (all are numbers, as in the
    data model), the list returned by GET /weeks/:subjectId has the weeks the
    prefix scan returned, every adjacent pair in ascending order of week
    number, and the weeks of any one week number in the order of the scan. *)
Theorem listWeeksForSubject_sorted_stable (subjectId : string) (s : store) :
  (forall w, w ∈ kv_getByPrefix scan (weekPrefix subjectId) s ->
             is_Some (toNumber str_to_num (w !! "weekNumber"))) ->
  let weeks := listWeeksForSubject scan str_to_num subjectId s in
  (forall i a b, weeks !! i = Some a -> weeks !! S i = Some b ->
                 weekNumberOf str_to_num a <= weekNumberOf str_to_num b)
  /\ (forall n, filter (fun w => weekNumberOf str_to_num w = n) weeks
                = filter (fun w => weekNumberOf str_to_num w = n)
                    (kv_getByPrefix scan (weekPrefix subjectId) s))
  /\ weeks ≡ₚ kv_getByPrefix scan (weekPrefix subjectId) s
  /\ forall req, param req = subjectId ->
       getWeeks scan str_to_num req s = (ok [("weeks", JArr (JObj <$> weeks))], s).
Proof.
  intros Hnum weeks. subst weeks. unfold listWeeksForSubject.
  rewrite (sort_by_ext _ _ _ (after_key _ Hnum)).
  split; [|split; [|split]].
  - intros i a b Ha Hb.
    exact (StronglySorted_adjacent _ _ i a b (sort_by_sorted (weekNumberOf str_to_num) _) Ha Hb).
  - intros n. apply (sort_by_stable (weekNumberOf str_to_num)).
  - apply sort_by_perm.
  - intros req <-. unfold getWeeks, listWeeksForSubject.
    by rewrite (sort_by_ext _ _ _ (after_key _ Hnum)).
Qed.

End Listing.

(** ** Updating a week *)

Section Update.
Context (scan : store -> list (string * obj)) (getUser : string -> option string)
  (str_to_num : string -> option Z).
Hypothesis scan_perm : forall s, scan s ≡ₚ map_to_list s.

Lemma merge_lookup (week updates : obj) f :
  merge week updates !! f
  = match updates !! f with Some v => Some v | None => week !! f end.
Proof.
  unfold merge. rewrite lookup_union.
  destruct (updates !! f), (week !! f); done.
Qed.

Lemma find_week_Some weekId s week :
  find_week weekId (kv_getByPrefix scan "weeks:" s) = Some week ->
  week !! "id" = Some (JStr weekId)
  /\ exists k, s !! k = Some week /\ startsWith "weeks:" k = true.
Proof.
  unfold find_week. intros H. apply find_some in H as [Hin Hid]. split.
  - unfold strict_eq_str in Hid. destruct (week !! "id") as [[| | |t| |]|]; try done.
    by apply String.eqb_eq in Hid as ->.
  - apply list_elem_of_In in Hin. by apply elem_of_getByPrefix in Hin.
Qed.

Lemma updateWeek_found req s uid week :
  admin_gate getUser req s = Granted uid ->
  find_week (param req) (kv_getByPrefix scan "weeks:" s) = Some week ->
  updateWeek scan getUser req s
  = (ok [("success", JBool true); ("week", JObj (merge week (spread (payload req))))],
     <[weekKey (template (week !! "subjectId")) (param req)
       := merge week (spread (payload req))]> s).
Proof. intros Hg Hf. unfold updateWeek. by rewrite Hg, Hf. Qed.


(** C10, as amended: when the addressed week sits under the key built from
    its own subjectId field and the addressed id, an authorized update writes
    the merged record back under that same key, whatever the payload: no key
    is added or removed, and a payload with another subjectId changes the
    stored field while the record stays listed under the original subject. *)
Theorem updateWeek_keeps_key req (s : store) uid week :
  admin_gate getUser req s = Granted uid ->
  find_week (param req) (kv_getByPrefix scan "weeks:" s) = Some week ->
  s !! weekKey (template (week !! "subjectId")) (param req) = Some week ->
  let key := weekKey (template (week !! "subjectId")) (param req) in
  let updatedWeek := merge week (spread (payload req)) in
  let s' := (updateWeek scan getUser req s).2 in
  s' = <[key := updatedWeek]> s
  /\ dom s' = dom s
  /\ (forall k, k <> key -> s' !! k = s !! k)
  /\ (forall updates v, payload req = JObj updates -> updates !! "subjectId" = Some v ->
        updatedWeek !! "subjectId" = Some v)
  /\ updatedWeek ∈ listWeeksForSubject scan str_to_num (template (week !! "subjectId")) s'.
Proof.
  intros Hg Hf Hk key updatedWeek s'. subst key updatedWeek s'.
  rewrite (updateWeek_found req s uid week Hg Hf). simpl. repeat split.
  - rewrite dom_insert_L. apply elem_of_dom_2 in Hk.
    apply set_eq. intros k. rewrite elem_of_union, elem_of_singleton.
    split; [by intros [-> | ?] | by right].
  - intros k Hne. by rewrite lookup_insert_ne.
  - intros updates v -> Hv. simpl. by rewrite merge_lookup, Hv.
  - unfold listWeeksForSubject. apply elem_of_sort_by.
    apply (elem_of_getByPrefix scan scan_perm). eexists. split.
    + apply lookup_insert_eq.
    + apply startsWith_week.
Qed.

End Update.

(** ** Creating a week *)

Section Create.
Context (getUser : string -> option string).

Lemma createWeek_ok ck req s uid b :
  admin_gate getUser req s = Granted uid -> payload req = JObj b ->
  truthy (b !! "subjectId") = true -> truthy (b !! "weekNumber") = true ->
  truthy (b !! "title") = true ->
  createWeek getUser ck req s
  = (ok [("success", JBool true); ("week", JObj (new_week (new_weekId ck) ck b))],
     <[weekKey (template (b !! "subjectId")) (new_weekId ck) := new_week (new_weekId ck) ck b]> s).
Proof.
  intros Hg Hp H1 H2 H3. unfold createWeek. rewrite Hg, Hp. cbn [destructure].
  by rewrite H1, H2, H3.
Qed.

Lemma new_week_id wid ck b : new_week wid ck b !! "id" = Some (JStr wid).
Proof. unfold new_week. by simplify_map_eq. Qed.

Lemma new_week_subjectId wid ck b x :
  b !! "subjectId" = Some x -> truthy (Some x) = true ->
  new_week wid ck b !! "subjectId" = Some x.
Proof. intros Hb Ht. unfold new_week. simplify_map_eq. unfold or_default. by rewrite Ht. Qed.

Lemma new_week_published wid ck b :
  new_week wid ck b !! "published" = Some (or_default (b !! "published") (JBool false)).
Proof. unfold new_week. by simplify_map_eq. Qed.

Lemma new_week_links wid ck b :
  new_week wid ck b !! "videoLinks" = Some (or_default (b !! "videoLinks") (JArr []))
  /\ new_week wid ck b !! "audioLinks" = Some (or_default (b !! "audioLinks") (JArr []))
  /\ new_week wid ck b !! "pdfLinks" = Some (or_default (b !! "pdfLinks") (JArr [])).
Proof. unfold new_week. repeat split; by simplify_map_eq. Qed.

Lemma has_url_nonblank (l : Admin.ContentItem) :
  Admin.has_url l = true <-> trim (Admin.url l) <> EmptyString.
Proof. unfold Admin.has_url. destruct (trim (Admin.url l)); simpl; split; done. Qed.

Lemma filter_Forall {A} (P : A -> bool) (l : list A) :
  Forall (fun x => P x = true) (List.filter P l).
Proof. apply Forall_forall. intros x Hx. by apply list_elem_of_In, filter_In in Hx as [_ Hx]. Qed.

(** C1, as amended: a week created through the admin form reaches the store
    without blank links. The request built by [createOrUpdateWeek] carries
    only the links whose url is not blank after trimming, and the POST
    handler stores the three link arrays of the body as they are. *)
Theorem created_from_form_has_no_blank_links ck accessToken (form : Admin.WeekForm)
    subjectId n (s : store) uid req :
  Admin.createOrUpdateWeek accessToken form subjectId None = Admin.POST_weeks req ->
  admin_gate getUser req s = Granted uid ->
  subjectId <> EmptyString -> Admin.form_title form <> EmptyString ->
  Admin.weekNumber form = Some n -> n <> 0 ->
  let r := createWeek getUser ck req s in
  let weekId := new_weekId ck in
  let kept := List.filter Admin.has_url in
  status r.1 = 200%nat
  /\ exists week, r.2 = <[weekKey subjectId weekId := week]> s
     /\ week !! "videoLinks" = Some (JArr (Admin.item_json <$> kept (Admin.videoLinks form)))
     /\ week !! "audioLinks" = Some (JArr (Admin.item_json <$> kept (Admin.audioLinks form)))
     /\ week !! "pdfLinks" = Some (JArr (Admin.item_json <$> kept (Admin.pdfLinks form)))
     /\ Forall (fun l => trim (Admin.url l) <> EmptyString)
          (kept (Admin.videoLinks form) ++ kept (Admin.audioLinks form)
           ++ kept (Admin.pdfLinks form)).
Proof.
  intros Hreq Hg Hsid Htitle Hn Hn0 r weekId kept. subst r weekId kept.
  unfold Admin.createOrUpdateWeek in Hreq. injection Hreq as <-.
  set (b := Admin.weekData form subjectId) in *.
  assert (b !! "subjectId" = Some (JStr subjectId)) as Hb1
    by (unfold b, Admin.weekData; by simplify_map_eq).
  assert (b !! "weekNumber" = Some (JNum n)) as Hb2
    by (unfold b, Admin.weekData; rewrite Hn; by simplify_map_eq).
  assert (b !! "title" = Some (JStr (Admin.form_title form))) as Hb3
    by (unfold b, Admin.weekData; by simplify_map_eq).
  rewrite (createWeek_ok ck _ s uid b Hg eq_refl).
  - rewrite Hb1. cbn [fst snd status ok template toStr]. split; [done|].
    eexists. split; [reflexivity|].
    destruct (new_week_links (new_weekId ck) ck b) as (-> & -> & ->).
    unfold b, Admin.weekData. simplify_map_eq. repeat split.
    rewrite !Forall_app. repeat split;
      (eapply Forall_impl; [apply filter_Forall|]); intros l; apply has_url_nonblank.
  - rewrite Hb1. by destruct subjectId.
  - rewrite Hb2. simpl. by destruct (Z.eqb_spec n 0).
  - rewrite Hb3. by destruct (Admin.form_title form).
Qed.

(** The same through the earlier form, whose links are bare strings. *)
Lemma created_from_legacy_form ck accessToken (form : AdminLegacy.WeekForm)
    subjectId n (s : store) uid req :
  AdminLegacy.createOrUpdateWeek accessToken form subjectId None = Admin.POST_weeks req ->
  admin_gate getUser req s = Granted uid ->
  subjectId <> EmptyString -> AdminLegacy.form_title form <> EmptyString ->
  AdminLegacy.weekNumber form = Some n -> n <> 0 ->
  let kept := List.filter AdminLegacy.has_url in
  exists week,
    (createWeek getUser ck req s).2 = <[weekKey subjectId (new_weekId ck) := week]> s
    /\ week !! "videoLinks" = Some (JArr (JStr <$> kept (AdminLegacy.videoLinks form)))
    /\ week !! "audioLinks" = Some (JArr (JStr <$> kept (AdminLegacy.audioLinks form)))
    /\ week !! "pdfLinks" = Some (JArr (JStr <$> kept (AdminLegacy.pdfLinks form)))
    /\ Forall (fun l => trim l <> EmptyString)
         (kept (AdminLegacy.videoLinks form) ++ kept (AdminLegacy.audioLinks form)
          ++ kept (AdminLegacy.pdfLinks form)).
Proof.
  intros Hreq Hg Hsid Htitle Hn Hn0 kept. subst kept.
  unfold AdminLegacy.createOrUpdateWeek in Hreq. injection Hreq as <-.
  set (b := AdminLegacy.weekData form subjectId) in *.
  assert (b !! "subjectId" = Some (JStr subjectId)) as Hb1
    by (unfold b, AdminLegacy.weekData; by simplify_map_eq).
  assert (b !! "weekNumber" = Some (JNum n)) as Hb2
    by (unfold b, AdminLegacy.weekData; rewrite Hn; by simplify_map_eq).
  assert (b !! "title" = Some (JStr (AdminLegacy.form_title form))) as Hb3
    by (unfold b, AdminLegacy.weekData; by simplify_map_eq).
  rewrite (createWeek_ok ck _ s uid b Hg eq_refl).
  - rewrite Hb1. cbn [fst snd template toStr].
    eexists. split; [reflexivity|].
    destruct (new_week_links (new_weekId ck) ck b) as (-> & -> & ->).
    unfold b, AdminLegacy.weekData. simplify_map_eq. repeat split.
    rewrite !Forall_app. repeat split;
      (eapply Forall_impl; [apply filter_Forall|]); intros l;
      unfold AdminLegacy.has_url; by destruct (trim l).
  - rewrite Hb1. by destruct subjectId.
  - rewrite Hb2. simpl. by destruct (Z.eqb_spec n 0).
  - rewrite Hb3. by destruct (AdminLegacy.form_title form).
Qed.

End Create.

(** C1, as stated, fails on the handler: a body with a blank video link is
    stored with both entries. *)
Lemma createWeek_stores_blank_links :
  ((createWeek Scenario.getUser Scenario.ck1
      (Request Scenario.admin EmptyString Scenario.blank_link_body) Scenario.store0).2
     !! "weeks:subject_1_abc:week_1700000000001_k3j9x0q1z") ≫= (fun w => w !! "videoLinks")
  = Some (JArr [Scenario.link "  "; Scenario.link "http://x"]).
Proof. vm_compute. reflexivity. Qed.

(** ** The layout of the week namespace *)

Lemma app_assoc_str a b c : (a +:+ b) +:+ c = a +:+ (b +:+ c).
Proof. induction a as [|x a IH]; [done|]. rewrite !app_String. by rewrite IH. Qed.

Lemma startsWith_app_inv a b k : startsWith (a +:+ b) k = true -> startsWith a k = true.
Proof.
  intros [r ->]%startsWith_iff. apply startsWith_iff. exists (b +:+ r).
  apply app_assoc_str.
Qed.

Lemma weekPrefix_weeks sid k : startsWith (weekPrefix sid) k = true -> startsWith "weeks:" k = true.
Proof. apply startsWith_app_inv. Qed.

Lemma colon_prefix_inj a b y :
  colon_free a = true -> colon_free b = true ->
  startsWith (a +:+ ":") (b +:+ ":" +:+ y) = true -> a = b.
Proof.
  revert b. induction a as [|c a IH]; intros [|d b] Ha Hb H.
  - done.
  - rewrite app_empty_l, app_String in H. cbn [startsWith colon_free] in H, Hb.
    apply andb_true_iff in H as [H _]. apply Ascii.eqb_eq in H as <-. done.
  - rewrite app_empty_l, !app_String in H. cbn [startsWith colon_free] in H, Ha.
    apply andb_true_iff in H as [H _]. apply Ascii.eqb_eq in H as ->. done.
  - rewrite !app_String in H. cbn [startsWith colon_free] in H, Ha, Hb.
    apply andb_true_iff in H as [Hc H]. apply Ascii.eqb_eq in Hc as ->.
    apply andb_true_iff in Ha as [_ Ha]. apply andb_true_iff in Hb as [_ Hb].
    f_equal. by apply IH.
Qed.

Lemma weekPrefix_weekKey_inj sid sid' wid :
  colon_free sid = true -> colon_free sid' = true ->
  startsWith (weekPrefix sid) (weekKey sid' wid) = true -> sid = sid'.
Proof.
  unfold weekPrefix, weekKey. rewrite startsWith_app_l. apply colon_prefix_inj.
Qed.

Lemma subjects_not_weeks sid k :
  startsWith "subjects:" k = true -> startsWith (weekPrefix sid) k = false.
Proof. intros [r ->]%startsWith_iff. reflexivity. Qed.

Lemma weeks_not_subjects k : startsWith "weeks:" k = true -> startsWith "subjects:" k = false.
Proof. intros [r ->]%startsWith_iff. reflexivity. Qed.

Lemma weeks_not_users uid k : startsWith "weeks:" k = true -> k <> "users:" +:+ uid.
Proof. intros [r ->]%startsWith_iff. discriminate. Qed.

Lemma subjectKey_not_weeks sid : startsWith "weeks:" (subjectKey sid) = false.
Proof. reflexivity. Qed.

Lemma weeks_wf_delete k s : weeks_wf s -> weeks_wf (delete k s).
Proof. intros H k' w Hk'. apply lookup_delete_Some in Hk' as [_ Hk']. by apply H. Qed.

Lemma weeks_wf_insert k v s :
  weeks_wf s -> (startsWith "weeks:" k = true -> week_wf k v) -> weeks_wf (<[k := v]> s).
Proof.
  intros H Hv k' w Hk' Hp. apply lookup_insert_Some in Hk' as [[<- <-] | [_ Hk']]; auto.
Qed.

Section Cascade.
Context (scan : store -> list (string * obj)) (getUser : string -> option string)
  (str_to_num : string -> option Z).
Hypothesis scan_perm : forall s, scan s ≡ₚ map_to_list s.

Lemma delete_weeks_lookup sid ws s k :
  delete_weeks sid ws s !! k
  = if decide (k ∈ (fun w : obj => weekKey sid (template (w !! "id"))) <$> ws)
    then None else s !! k.
Proof.
  unfold delete_weeks. revert s. induction ws as [|w ws IH]; intros s.
  - rewrite decide_False; [done | apply not_elem_of_nil].
  - cbn [fold_left]. rewrite IH, fmap_cons. unfold kv_del.
    destruct (decide (k ∈ (fun w : obj => weekKey sid (template (w !! "id"))) <$> ws))
      as [Hin | Hin].
    + rewrite decide_True; [done | by right].
    + destruct (decide (k = weekKey sid (template (w !! "id")))) as [-> | Hne].
      * rewrite decide_True by left. apply lookup_delete_eq.
      * rewrite decide_False by (by intros [? | ?]%elem_of_cons).
        by rewrite lookup_delete_ne.
Qed.

(** C2: on a store whose week records sit under the keys their own subjectId
    and id spell (the layout [createWeek] produces), an authorized
    [deleteSubject] of a colon-free id removes the subject key, so the
    subject listing keeps exactly the subjects stored under other keys,
    leaves no week under the subject: the listing of the subject is empty and
    no remaining week record carries that subjectId, and touches no other
    key. *)
Theorem deleteSubject_cascade req (s : store) uid :
  admin_gate getUser req s = Granted uid ->
  weeks_wf s ->
  colon_free (param req) = true ->
  let subjectId := param req in
  let r := deleteSubject scan getUser req s in
  r.1 = ok [("success", JBool true)]
  /\ r.2 !! subjectKey subjectId = None
  /\ (forall v, v ∈ listSubjects scan r.2
        <-> exists k, k <> subjectKey subjectId /\ s !! k = Some v
                      /\ startsWith "subjects:" k = true)
  /\ listWeeksForSubject scan str_to_num subjectId r.2 = []
  /\ (forall k w, r.2 !! k = Some w -> startsWith "weeks:" k = true ->
        template (w !! "subjectId") <> subjectId)
  /\ (forall k, startsWith (weekPrefix subjectId) k = false -> k <> subjectKey subjectId ->
        r.2 !! k = s !! k).
Proof.
  intros Hg Hwf Hcf subjectId r. subst r. unfold deleteSubject. rewrite Hg.
  cbn [fst snd]. fold subjectId.
  set (s1 := kv_del (subjectKey subjectId) s).
  set (ws := kv_getByPrefix scan (weekPrefix subjectId) s1).
  assert (forall k w, s1 !! k = Some w -> startsWith (weekPrefix subjectId) k = true ->
            k ∈ (fun w : obj => weekKey subjectId (template (w !! "id"))) <$> ws) as HA.
  { intros k w Hk Hp. apply list_elem_of_fmap. exists w. split.
    - destruct (weeks_wf_delete (subjectKey subjectId) s Hwf k w Hk
                  (weekPrefix_weeks _ _ Hp)) as [Hkey Hc].
      rewrite Hkey in Hp. apply weekPrefix_weekKey_inj in Hp; [|done..].
      by rewrite Hp.
    - apply (elem_of_getByPrefix scan scan_perm). eauto. }
  assert (forall k, startsWith (weekPrefix subjectId) k = true ->
            delete_weeks subjectId ws s1 !! k = None) as HB.
  { intros k Hp. rewrite delete_weeks_lookup. case_decide; [done|].
    destruct (s1 !! k) as [w|] eqn:Hk; [|done]. destruct H. by eapply HA. }
  assert (forall k, startsWith (weekPrefix subjectId) k = false ->
            delete_weeks subjectId ws s1 !! k = s1 !! k) as HC.
  { intros k Hp. rewrite delete_weeks_lookup. case_decide; [|done].
    apply list_elem_of_fmap in H as (w & -> & _). by rewrite startsWith_week in Hp. }
  split; [done|]. split; [|split; [|split; [|split]]].
  - rewrite HC by reflexivity. apply lookup_delete_eq.
  - intros v. unfold listSubjects. rewrite (elem_of_getByPrefix scan scan_perm). split.
    + intros (k & Hk & Hp). rewrite HC in Hk by by apply subjects_not_weeks.
      unfold s1, kv_del in Hk.
      apply lookup_delete_Some in Hk as [Hne Hk]. exists k. by repeat split.
    + intros (k & Hne & Hk & Hp). exists k. split; [|done].
      rewrite HC by by apply subjects_not_weeks. unfold s1, kv_del.
      by rewrite lookup_delete_ne.
  - unfold listWeeksForSubject.
    rewrite (getByPrefix_nil scan scan_perm); [done|].
    intros k v Hk. destruct (startsWith (weekPrefix subjectId) k) eqn:Hp; [|done].
    by rewrite HB in Hk.
  - intros k w Hk Hp Hsid.
    assert (s !! k = Some w) as Hs.
    { rewrite delete_weeks_lookup in Hk. case_decide; [done|].
      unfold s1, kv_del in Hk. by apply lookup_delete_Some in Hk as [_ Hk]. }
    destruct (Hwf k w Hs Hp) as [Hkey _]. rewrite Hsid in Hkey.
    rewrite HB in Hk; [done|]. rewrite Hkey. apply startsWith_week.
  - intros k Hp Hne. rewrite HC by done. unfold s1, kv_del. by rewrite lookup_delete_ne.
Qed.

End Cascade.

(** ** Publishing *)

Section Publish.
Context (scan : store -> list (string * obj)) (getUser : string -> option string)
  (str_to_num : string -> option Z).
Hypothesis scan_perm : forall s, scan s ≡ₚ map_to_list s.

Lemma admin_session_gate tok s p b :
  admin_session getUser tok s ->
  exists uid, admin_gate getUser (Request (Some ("Bearer " +:+ tok)) p b) s = Granted uid.
Proof.
  intros (uid & profile & Ha & Hp & Hr). exists uid.
  unfold admin_gate, kv_get. change (authenticate getUser _) with
    (authenticate getUser (Request (Some ("Bearer " +:+ tok)) EmptyString JNull)).
  rewrite Ha, Hp. unfold strict_eq_str. by rewrite Hr.
Qed.

Lemma admin_session_insert tok s k v :
  startsWith "weeks:" k = true ->
  admin_session getUser tok s -> admin_session getUser tok (<[k := v]> s).
Proof.
  intros Hk (uid & profile & Ha & Hp & Hr). exists uid, profile. repeat split; [done| |done].
  rewrite lookup_insert_ne; [done|]. by apply weeks_not_users.
Qed.

Lemma find_week_sole s wid key w :
  s !! key = Some w -> startsWith "weeks:" key = true ->
  w !! "id" = Some (JStr wid) -> sole_week_with_id s wid key ->
  find_week wid (kv_getByPrefix scan "weeks:" s) = Some w.
Proof.
  intros Hk Hp Hid Hsole. unfold find_week.
  destruct (find _ _) as [w'|] eqn:E.
  - apply find_week_Some in E as (Hid' & k & Hk' & Hp'); [|done].
    rewrite (Hsole k w' Hk' Hp' Hid') in Hk'. congruence.
  - assert (w ∈ kv_getByPrefix scan "weeks:" s) as Hin
      by (apply (elem_of_getByPrefix scan scan_perm); eauto).
    apply list_elem_of_In in Hin. apply (find_none _ _ E) in Hin.
    unfold strict_eq_str in Hin. rewrite Hid, String.eqb_refl in Hin. done.
Qed.

Lemma visible_iff s sid wid w :
  s !! weekKey sid wid = Some w -> w !! "id" = Some (JStr wid) ->
  sole_week_with_id s wid (weekKey sid wid) ->
  visible_to_students scan str_to_num sid wid s <-> truthy (w !! "published") = true.
Proof.
  intros Hk Hid Hsole. unfold visible_to_students, Student.loadWeeks, listWeeksForSubject. split.
  - intros (w' & Hin & Hid'). apply elem_of_sort_by, list_elem_of_In, filter_In in Hin as [Hin Hpub].
    apply list_elem_of_In, elem_of_sort_by, (elem_of_getByPrefix scan scan_perm) in Hin
      as (k & Hk' & Hp).
    rewrite (Hsole k w' Hk' (weekPrefix_weeks _ _ Hp) Hid') in Hk'. congruence.
  - intros Hpub. exists w. split; [|done].
    apply elem_of_sort_by, list_elem_of_In, filter_In. split; [|done].
    apply list_elem_of_In, elem_of_sort_by, (elem_of_getByPrefix scan scan_perm).
    exists (weekKey sid wid). split; [done | apply startsWith_week].
Qed.

Lemma sole_week_insert s wid key w :
  sole_week_with_id s wid key -> sole_week_with_id (<[key := w]> s) wid key.
Proof.
  intros H k w' Hk Hp Hid. apply lookup_insert_Some in Hk as [[<- _] | [_ Hk]]; [done|].
  by eapply H.
Qed.

(** One click on Publish/Unpublish for a week the dashboard has listed. *)
Lemma togglePublish_store tok s sid wid w :
  admin_session getUser tok s ->
  s !! weekKey sid wid = Some w -> w !! "id" = Some (JStr wid) ->
  template (w !! "subjectId") = sid ->
  sole_week_with_id s wid (weekKey sid wid) ->
  (updateWeek scan getUser (Admin.togglePublish tok w) s).2
  = <[weekKey sid wid := <["published" := JBool (negb (truthy (w !! "published")))]> w]> s.
Proof.
  intros Hadm Hk Hid Hsid Hsole. unfold Admin.togglePublish.
  destruct (admin_session_gate tok s (template (w !! "id"))
              (JObj (<["published" := JBool (negb (truthy (w !! "published")))]> w)) Hadm)
    as [uid Hg].
  rewrite (updateWeek_found scan getUser _ s uid w Hg).
  - cbn [snd param payload spread]. rewrite Hsid, Hid. cbn [template toStr]. f_equal.
    unfold merge. apply map_eq. intros f. rewrite lookup_union.
    destruct (decide (f = "published")) as [-> | Hne].
    + rewrite lookup_insert_eq. by destruct (w !! "published").
    + rewrite lookup_insert_ne by done. by destruct (w !! f).
  - cbn [param]. rewrite Hid. cbn [template toStr].
    apply (find_week_sole s wid (weekKey sid wid)); [done | apply startsWith_weeks | done..].
Qed.

(** C4: a week created with a falsy [published] is in the server's unfiltered
    listing of its subject but not in the student dashboard's list; after one
    [togglePublish] on the listed week it is in the student list; after a
    second one, on the week as listed then, the store is the one before the
    first toggle, so the week is hidden again. The generated id is assumed
    fresh. *)
Theorem publish_toggle_visibility ck tok req b (s : store) sid :
  admin_session getUser tok s ->
  authorization req = Some ("Bearer " +:+ tok) -> payload req = JObj b ->
  b !! "subjectId" = Some (JStr sid) -> sid <> EmptyString ->
  truthy (b !! "weekNumber") = true -> truthy (b !! "title") = true ->
  truthy (b !! "published") = false ->
  (forall k w, s !! k = Some w -> startsWith "weeks:" k = true ->
               w !! "id" <> Some (JStr (new_weekId ck))) ->
  let wid := new_weekId ck in
  let visible := visible_to_students scan str_to_num sid wid in
  let s1 := (createWeek getUser ck req s).2 in
  exists w1,
    s1 !! weekKey sid wid = Some w1
    /\ w1 ∈ listWeeksForSubject scan str_to_num sid s1
    /\ ~ visible s1
    /\ let s2 := (updateWeek scan getUser (Admin.togglePublish tok w1) s1).2 in
       visible s2
       /\ forall w2, w2 ∈ listWeeksForSubject scan str_to_num sid s2 ->
            w2 !! "id" = Some (JStr wid) ->
            let s3 := (updateWeek scan getUser (Admin.togglePublish tok w2) s2).2 in
            s3 = s1 /\ ~ visible s3.
Proof.
  intros Hadm Hauth Hp Hsid Hne Hnum Htitle Hpub Hfresh wid visible s1.
  assert (truthy (b !! "subjectId") = true) as Hts
    by (rewrite Hsid; by destruct sid).
  destruct (admin_session_gate tok s (param req) (payload req) Hadm) as [uid Hg].
  assert (Request (Some ("Bearer " +:+ tok)) (param req) (payload req) = req) as Hreq
    by (destruct req; simpl in *; by rewrite Hauth).
  rewrite Hreq in Hg.
  set (w1 := new_week wid ck b).
  assert (s1 = <[weekKey sid wid := w1]> s) as Hs1.
  { unfold s1. rewrite (createWeek_ok getUser ck req s uid b) by done. by rewrite Hsid. }
  assert (w1 !! "id" = Some (JStr wid)) as Hid1 by apply new_week_id.
  assert (template (w1 !! "subjectId") = sid) as Hsid1.
  { unfold w1. rewrite (new_week_subjectId _ _ _ (JStr sid)); [done..|]. by rewrite <- Hsid. }
  assert (w1 !! "published" = Some (JBool false)) as Hpub1.
  { unfold w1. rewrite new_week_published. unfold or_default.
    destruct (b !! "published"); [|done]. by rewrite Hpub. }
  assert (s1 !! weekKey sid wid = Some w1) as Hk1 by (rewrite Hs1; apply lookup_insert_eq).
  assert (sole_week_with_id s1 wid (weekKey sid wid)) as Hsole1.
  { intros k w Hk Hpk Hid. rewrite Hs1 in Hk.
    apply lookup_insert_Some in Hk as [[<- _] | [_ Hk]]; [done|].
    by destruct (Hfresh k w Hk Hpk). }
  assert (admin_session getUser tok s1) as Hadm1.
  { rewrite Hs1. apply admin_session_insert; [apply startsWith_weeks | done]. }
  exists w1. split; [done|]. split; [|split].
  - unfold listWeeksForSubject. apply elem_of_sort_by, (elem_of_getByPrefix scan scan_perm).
    exists (weekKey sid wid). split; [done | apply startsWith_week].
  - unfold visible. rewrite (visible_iff s1 sid wid w1) by done. by rewrite Hpub1.
  - cbn zeta. rewrite (togglePublish_store tok s1 sid wid w1) by done.
    rewrite Hpub1. cbn [truthy negb].
    set (w1' := <["published" := JBool true]> w1).
    set (s2 := <[weekKey sid wid := w1']> s1).
    assert (s2 !! weekKey sid wid = Some w1') as Hk2 by apply lookup_insert_eq.
    assert (w1' !! "id" = Some (JStr wid)) as Hid2 by (unfold w1'; by rewrite lookup_insert_ne).
    assert (sole_week_with_id s2 wid (weekKey sid wid)) as Hsole2 by by apply sole_week_insert.
    split.
    + unfold visible. rewrite (visible_iff s2 sid wid w1') by done.
      unfold w1'. by rewrite lookup_insert_eq.
    + intros w2 Hin Hid. unfold listWeeksForSubject in Hin.
      apply elem_of_sort_by, (elem_of_getByPrefix scan scan_perm) in Hin as (k & Hk & Hpk).
      rewrite (Hsole2 k w2 Hk (weekPrefix_weeks _ _ Hpk) Hid) in Hk.
      assert (w2 = w1') as -> by congruence.
      assert (admin_session getUser tok s2) as Hadm2
        by (apply admin_session_insert; [apply startsWith_weeks | done]).
      assert (template (w1' !! "subjectId") = sid) as Hsid2
        by (unfold w1'; by rewrite lookup_insert_ne).
      rewrite (togglePublish_store tok s2 sid wid w1') by done.
      assert (<[weekKey sid wid := <["published" := JBool (negb (truthy (w1' !! "published")))]> w1']> s2
              = s1) as ->.
      { unfold s2, w1'. rewrite insert_insert_eq, lookup_insert_eq. cbn [truthy negb].
        rewrite insert_insert_eq. rewrite (insert_id w1) by done. by apply insert_id. }
      split; [done|]. unfold visible. rewrite (visible_iff s1 sid wid w1) by done.
      by rewrite Hpub1.
Qed.

(** Two clicks bring any listed week with a boolean [published] back to the
    stored state it had, and one click flips its visibility. *)
Lemma togglePublish_twice tok (s : store) sid wid w (b : bool) :
  admin_session getUser tok s ->
  s !! weekKey sid wid = Some w -> w !! "id" = Some (JStr wid) ->
  template (w !! "subjectId") = sid ->
  sole_week_with_id s wid (weekKey sid wid) ->
  w !! "published" = Some (JBool b) ->
  let s' := (updateWeek scan getUser (Admin.togglePublish tok w) s).2 in
  let w' := <["published" := JBool (negb b)]> w in
  s' !! weekKey sid wid = Some w'
  /\ (visible_to_students scan str_to_num sid wid s'
      <-> ~ visible_to_students scan str_to_num sid wid s)
  /\ (updateWeek scan getUser (Admin.togglePublish tok w') s').2 = s.
Proof.
  intros Hadm Hk Hid Hsid Hsole Hpub s' w'. subst s' w'.
  rewrite (togglePublish_store tok s sid wid w) by done.
  rewrite Hpub. cbn [truthy].
  set (w' := <["published" := JBool (negb b)]> w).
  assert (w' !! "id" = Some (JStr wid)) as Hid' by (unfold w'; by rewrite lookup_insert_ne).
  assert (sole_week_with_id (<[weekKey sid wid := w']> s) wid (weekKey sid wid)) as Hsole'
    by by apply sole_week_insert.
  split; [apply lookup_insert_eq|]. split.
  - rewrite (visible_iff _ sid wid w') by (done || apply lookup_insert_eq).
    rewrite (visible_iff s sid wid w) by done.
    unfold w'. rewrite lookup_insert_eq, Hpub. cbn [truthy]. by destruct b.
  - rewrite (togglePublish_store tok _ sid wid w'); try done.
    + unfold w'. rewrite insert_insert_eq, lookup_insert_eq. cbn [truthy].
      rewrite negb_involutive, insert_insert_eq.
      rewrite (insert_id w) by done. by apply insert_id.
    + apply admin_session_insert; [apply startsWith_weeks | done].
    + apply lookup_insert_eq.
    + unfold w'. by rewrite lookup_insert_ne.
Qed.

End Publish.

(** ** Quiz scoring *)

Section Scoring.
Import Student.

Lemma fold_count {A} (P : A -> bool) (l : list A) (n : nat) :
  fold_left (fun c q => if P q then S c else c) l n = (n + length (List.filter P l))%nat.
Proof.
  revert n. induction l as [|x l IH]; intros n; simpl; [lia|].
  rewrite IH. destruct (P x); simpl; lia.
Qed.

Lemma findIndex_own (pre : list question_ref) q suf :
  NoDup ((pre ++ q :: suf).*1) -> findIndex q (pre ++ q :: suf) = Some (length pre).
Proof.
  induction pre as [|p pre IH]; intros Hnd; simpl.
  - by rewrite Nat.eqb_refl.
  - simpl in Hnd. apply NoDup_cons in Hnd as [Hp Hnd].
    destruct (p.1 =? q.1)%nat eqn:E.
    + apply Nat.eqb_eq in E. destruct Hp. rewrite E, fmap_app, fmap_cons.
      apply elem_of_app. right. left.
    + by rewrite IH.
Qed.

Lemma count_from (answers : gmap nat answer) (pre suf : list question_ref) :
  NoDup ((pre ++ suf).*1) ->
  (forall q, q ∈ suf -> is_mcq q.2 = true -> is_Some (correctAnswer q.2)) ->
  length (List.filter
            (fun q => strict_eq (findIndex q (pre ++ suf) ≫= fun i => answers !! i)
                        (correctAnswer q.2))
            (List.filter (fun q => is_mcq q.2) suf))
  = count_correct answers (length pre) (suf.*2).
Proof.
  revert pre. induction suf as [|q suf IH]; intros pre Hnd Hca; [done|].
  assert (pre ++ q :: suf = (pre ++ [q]) ++ suf) as Happ by by rewrite <- app_assoc.
  specialize (IH (pre ++ [q])). rewrite <- Happ, length_app in IH. simpl in IH.
  rewrite Nat.add_1_r in IH.
  cbn [List.filter fmap list_fmap count_correct snd].
  destruct (is_mcq q.2) eqn:Em; cbn [List.filter andb].
  - rewrite (findIndex_own pre q suf Hnd). cbn [mbind option_bind].
    destruct (Hca q (list_elem_of_here _ _) Em) as [c Hc].
    assert (strict_eq (answers !! length pre) (correctAnswer q.2)
            = chose_correct answers (length pre) q.2) as ->.
    { unfold strict_eq, chose_correct. rewrite Hc. by destruct (answers !! length pre) as [[]|]. }
    destruct (chose_correct answers (length pre) q.2); cbn [length];
      rewrite IH by eauto using list_elem_of_further; done.
  - rewrite IH by eauto using list_elem_of_further. done.
Qed.

(** C8: on the questions of a loaded week (distinct objects), each MCQ
    question carrying a [correctAnswer], [calculateScore] returns as [correct]
    the number of MCQ questions whose selected option index equals the
    question's [correctAnswer], and as [total] the number of MCQ questions,
    where a question is MCQ when its type is "mcq" or it has none; other
    questions count in neither. *)
Theorem calculateScore_counts (questions : list question_ref) (answers : gmap nat answer) :
  NoDup (questions.*1) ->
  (forall q, q ∈ questions -> is_mcq q.2 = true -> is_Some (correctAnswer q.2)) ->
  calculateScore (Some questions) answers
  = Score (count_correct answers 0 (questions.*2)) (count_mcq (questions.*2)).
Proof.
  intros Hnd Hca. unfold calculateScore. f_equal.
  - rewrite fold_count. simpl. apply (count_from answers [] questions Hnd Hca).
  - unfold count_mcq. induction questions as [|q qs IH]; [done|].
    simpl in *. apply NoDup_cons in Hnd as [_ Hnd].
    destruct (is_mcq q.2); simpl; rewrite IH; eauto using list_elem_of_further.
Qed.

End Scoring.

(** ** YouTube id extraction *)

Section YouTube.
Import RegExp Student.

Lemma run_star_cls p k s :
  forall fuel pos c, (length s <= fuel)%nat ->
    (fix loop (fuel : nat) (pos : nat) (s : list ascii) (c : captures) : option captures :=
       match fuel with
       | O => k pos s c
       | S fuel' =>
           match run (Cls p) pos s c
                   (fun pos' s' c' => if (pos <? pos')%nat then loop fuel' pos' s' c' else None) with
           | Some x => Some x
           | None => k pos s c
           end
       end) fuel pos s c
    = star_cls p pos s c k.
Proof.
  induction s as [|a s IH]; intros fuel pos c Hf.
  - destruct fuel; reflexivity.
  - destruct fuel as [|fuel]; [simpl in Hf; lia|].
    cbn [run star_cls]. destruct (p a); [|done].
    assert ((pos <? S pos)%nat = true) as -> by (apply Nat.ltb_lt; lia).
    rewrite IH by (simpl in Hf; lia). done.
Qed.

Lemma run_Star_Cls p pos s c k : run (Star (Cls p)) pos s c k = star_cls p pos s c k.
Proof. apply (run_star_cls p k s (length s) pos c). lia. Qed.

Lemma star_cls_total p k s :
  forall pos c, (forall pos' s', k pos' s' c <> None) ->
    star_cls p pos s c k
    = k (pos + length (run_of p s))%nat (drop (length (run_of p s)) s) c.
Proof.
  induction s as [|a s IH]; intros pos c Hk; cbn [star_cls run_of].
  - simpl. by rewrite Nat.add_0_r.
  - destruct (p a); cbn [length drop].
    + rewrite IH by done. rewrite Nat.add_succ_comm.
      by destruct (k _ _ c) eqn:E; [|destruct (Hk _ _ E)].
    + by rewrite Nat.add_0_r.
Qed.

Lemma take_run_of p s : take (length (run_of p s)) s = run_of p s.
Proof. induction s as [|a s IH]; simpl; [done|]. destruct (p a); simpl; by rewrite ?IH. Qed.

Lemma run_Seq r1 r2 pos s c k :
  run (Seq r1 r2) pos s c k = run r1 pos s c (fun pos' s' c' => run r2 pos' s' c' k).
Proof. reflexivity. Qed.

Lemma run_Group n r pos s c k :
  run (Group n r) pos s c k
  = run r pos s c (fun pos' s' c' => k pos' s' (<[n := take (pos' - pos) s]> c')).
Proof. reflexivity. Qed.

Lemma run_Alt r1 r2 pos s c k :
  run (Alt r1 r2) pos s c k
  = match run r1 pos s c k with Some x => Some x | None => run r2 pos s c k end.
Proof. reflexivity. Qed.

Lemma run_star_accept p pos s c : run (Star (Cls p)) pos s c accept = Some c.
Proof. rewrite run_Star_Cls, star_cls_total; done. Qed.

(** The tail of the pattern, from group 7 on, always matches. *)
Lemma run_group7 pos s c :
  run (Seq (Group 7 (Star (none_of "#&?"))) (Star any)) pos s c accept
  = Some (<[7%nat := run_of (not_in "#&?") s]> c).
Proof.
  unfold none_of, any. rewrite run_Seq, run_Group, run_Star_Cls.
  rewrite star_cls_total.
  - rewrite (run_star_accept not_line_terminator). f_equal. f_equal.
    rewrite Nat.add_comm, Nat.add_sub. apply take_run_of.
  - intros pos' s'. by rewrite (run_star_accept not_line_terminator).
Qed.

Lemma run_opt_chr a r (f : list ascii -> captures -> captures) pos s c :
  (forall pos s c, run r pos s c accept = Some (f s c)) ->
  run (Seq (Opt (chr a)) r) pos s c accept = Some (f (skip a s) c).
Proof.
  intros Hr. unfold chr. cbn [run]. destruct s as [|b s]; cbn [skip]; [apply Hr|].
  destruct (Ascii.eqb a b); by rewrite Hr.
Qed.

Lemma run_tail pos s c :
  run (Seq (Opt (chr "?")) (Seq (Opt (chr "v")) (Seq (Opt (chr "="))
         (Seq (Group 7 (Star (none_of "#&?"))) (Star any))))) pos s c accept
  = Some (<[7%nat := token s]> c).
Proof.
  unfold token.
  apply (run_opt_chr "?" _ (fun s c => <[7%nat := run_of (not_in "#&?") (skip "=" (skip "v" s))]> c)).
  intros pos1 s1 c1.
  apply (run_opt_chr "v" _ (fun s c => <[7%nat := run_of (not_in "#&?") (skip "=" s)]> c)).
  intros pos2 s2 c2.
  apply (run_opt_chr "=" _ (fun s c => <[7%nat := run_of (not_in "#&?") s]> c)).
  intros pos3 s3 c3. apply run_group7.
Qed.

Lemma match_prefix_app ps1 ps2 s :
  match_prefix (ps1 ++ ps2) s = match_prefix ps1 s ≫= match_prefix ps2.
Proof.
  revert s. induction ps1 as [|p ps1 IH]; intros s; simpl.
  - by destruct ps2.
  - destruct s as [|a s]; [done|]. destruct (p a); [apply IH | done].
Qed.

Lemma run_classes r :
  forall ps pos s c k, classes_of r = Some ps ->
    run r pos s c k
    = match match_prefix ps s with
      | Some rest => k (pos + length ps)%nat rest c
      | None => None
      end.
Proof.
  induction r as [| |p|r1 IH1 r2 IH2| | | |]; intros ps pos s c k Hps; try done.
  - injection Hps as <-. simpl. by rewrite Nat.add_0_r.
  - injection Hps as <-. simpl. destruct s as [|a s]; [done|].
    rewrite Nat.add_1_r. by destruct (p a).
  - simpl in Hps. destruct (classes_of r1) as [ps1|]; [|done].
    destruct (classes_of r2) as [ps2|]; [|done]. injection Hps as <-.
    cbn [run]. rewrite (IH1 ps1) by done. rewrite match_prefix_app.
    destruct (match_prefix ps1 s) as [rest1|]; [|done]. cbn [mbind option_bind].
    rewrite (IH2 ps2) by done. rewrite length_app, Nat.add_assoc. done.
Qed.

(** The part of the pattern after the leading [.*]. *)
Local Abbreviation after_dots :=
  (Seq (Group 1 (alt [Group 2 (seq [lit "youtu"; any; lit "be/"]);
                      Group 3 (lit "v/");
                      Group 4 (seq [lit "/u/"; word; chr "/"]);
                      Group 5 (lit "embed/");
                      Group 6 (lit "watch?")]))
       (Seq (Opt (chr "?")) (Seq (Opt (chr "v")) (Seq (Opt (chr "="))
          (Seq (Group 7 (Star (none_of "#&?"))) (Star any)))))).

Lemma run_after_dots pos s c :
  match after_separator s with
  | Some rest =>
      exists c', run after_dots pos s c accept = Some c' /\ c' !! 7%nat = Some (token rest)
  | None => run after_dots pos s c accept = None
  end.
Proof.
  rewrite run_Seq, run_Group. cbn [alt]. rewrite !run_Alt, !run_Group.
  rewrite (run_classes _ (chars "youtu" ++ [not_line_terminator] ++ chars "be/")) by reflexivity.
  rewrite (run_classes _ (chars "v/")) by reflexivity.
  rewrite (run_classes _ (chars "/u/" ++ [is_word] ++ chars "/")) by reflexivity.
  rewrite (run_classes _ (chars "embed/")) by reflexivity.
  rewrite (run_classes _ (chars "watch?")) by reflexivity.
  unfold after_separator, separators. cbn [first_match].
  repeat (destruct (match_prefix _ s) as [rest|];
          [rewrite run_tail; eexists; split; [reflexivity | apply lookup_insert_eq] |]).
  done.
Qed.

Lemma star_after_dots s :
  forall pos c,
    match last_token s with
    | Some t =>
        exists c', star_cls not_line_terminator pos s c
                     (fun pos' s' c' => run after_dots pos' s' c' accept) = Some c'
                   /\ c' !! 7%nat = Some t
    | None =>
        star_cls not_line_terminator pos s c
          (fun pos' s' c' => run after_dots pos' s' c' accept) = None
    end.
Proof.
  induction s as [|a s IH]; intros pos c; cbn [star_cls last_token].
  - pose proof (run_after_dots pos [] c) as H.
    destruct (after_separator []); exact H.
  - pose proof (run_after_dots pos (a :: s) c) as H.
    destruct (not_line_terminator a).
    + specialize (IH (S pos) c). destruct (last_token s) as [t|].
      * destruct IH as (c' & -> & Hc'). eauto.
      * rewrite IH. destruct (after_separator (a :: s)); exact H.
    + destruct (after_separator (a :: s)); exact H.
Qed.

Lemma search_anchored r s : forall pos, pos <> O -> search (Seq Bol r) pos s = None.
Proof.
  induction s as [|a s IH]; intros pos Hpos; cbn [search]; rewrite run_Seq; cbn [run];
    destruct pos; try done; cbn [Nat.eqb]. by apply IH.
Qed.

Lemma exec_regExp url :
  match last_token (list_ascii_of_string url) with
  | Some t => exists m, exec regExp url = Some m /\ m !! 7%nat = Some t
  | None => exec regExp url = None
  end.
Proof.
  unfold exec. set (s := list_ascii_of_string url).
  assert (run regExp O s ∅ accept
          = star_cls not_line_terminator O s ∅
              (fun pos' s' c' => run after_dots pos' s' c' accept)) as Hrun.
  { change regExp with (Seq Bol (Seq (Star (Cls not_line_terminator)) after_dots)).
    rewrite run_Seq. change (run Bol O s ∅ ?k) with (k O s ∅). cbv beta.
    by rewrite run_Seq, run_Star_Cls. }
  pose proof (star_after_dots s O ∅) as H. rewrite <- Hrun in H.
  assert (search regExp O s
          = match run regExp O s ∅ accept with Some c => Some c | None => None end) as ->.
  { destruct s as [|a s']; cbn [search]; [done|].
    destruct (run regExp O (a :: s') ∅ accept); [done|].
    apply (search_anchored _ s' 1%nat). done. }
  destruct (last_token s) as [t|].
  - destruct H as (c' & -> & Hc'). eauto.
  - by rewrite H.
Qed.

(** [extractYouTubeId], computed without the matcher. *)
Lemma extractYouTubeId_last_token url :
  extractYouTubeId url
  = match last_token (list_ascii_of_string url) with
    | Some t => if (length t =? 11)%nat then Some (string_of_list_ascii t) else None
    | None => None
    end.
Proof.
  unfold extractYouTubeId. pose proof (exec_regExp url) as H.
  destruct (last_token (list_ascii_of_string url)) as [t|].
  - destruct H as (m & -> & ->). done.
  - by rewrite H.
Qed.

Lemma last_token_None s :
  last_token s = None
  <-> forall pre suf, s = pre ++ suf -> forallb not_line_terminator pre = true ->
                      after_separator suf = None.
Proof.
  induction s as [|a s IH]; cbn [last_token].
  - split.
    + intros H pre suf Hs _. symmetry in Hs. apply app_eq_nil in Hs as [_ ->].
      by destruct (after_separator []).
    + intros H. by rewrite (H [] []).
  - destruct (not_line_terminator a) eqn:Ea.
    + split.
      * intros H [|b pre] suf Hs Hpre.
        -- simpl in Hs. subst suf. destruct (last_token s); [done|].
           by destruct (after_separator (a :: s)).
        -- injection Hs as <- ->. simpl in Hpre. apply andb_true_iff in Hpre as [_ Hpre].
           destruct (last_token (pre ++ suf)) eqn:E; [done|].
           apply (proj1 IH eq_refl pre suf); done.
      * intros H. assert (last_token s = None) as ->.
        { apply IH. intros pre suf -> Hpre. apply (H (a :: pre) suf); [done|].
          simpl. by rewrite Ea. }
        by rewrite (H [] (a :: s)).
    + split.
      * intros H [|b pre] suf Hs Hpre.
        -- simpl in Hs. subst suf. by destruct (after_separator (a :: s)).
        -- injection Hs as <- ->. simpl in Hpre. by rewrite Ea in Hpre.
      * intros H. by rewrite (H [] (a :: s)).
Qed.

Lemma last_token_Some s t :
  last_token s = Some t ->
  exists pre suf rest,
    s = pre ++ suf /\ forallb not_line_terminator pre = true
    /\ after_separator suf = Some rest
    /\ (forall pre' suf', s = pre' ++ suf' -> forallb not_line_terminator pre' = true ->
          after_separator suf' <> None -> (length pre' <= length pre)%nat)
    /\ t = token rest.
Proof.
  revert t. induction s as [|a s IH]; intros t; cbn [last_token].
  - destruct (after_separator []) as [rest|] eqn:E; [|done]. intros [= <-].
    exists [], [], rest. split; [done|]; split; [done|]; split; [done|]; split; [|done].
    intros pre' suf' Hs _ _. symmetry in Hs. by apply app_eq_nil in Hs as [-> _].
  - destruct (not_line_terminator a) eqn:Ea.
    + destruct (last_token s) as [t'|] eqn:El.
      * intros [= <-]. destruct (IH t' eq_refl) as (pre & suf & rest & -> & Hpre & Hsep & Hl & ->).
        exists (a :: pre), suf, rest.
        split; [done|]; split; [by simpl; rewrite Ea|]; split; [done|]; split; [|done].
        intros [|b pre'] suf' Hs Hpre' Hsep'; simpl; [lia|].
        injection Hs as <- Hs. simpl in Hpre'. apply andb_true_iff in Hpre' as [_ Hpre'].
        specialize (Hl pre' suf' Hs Hpre' Hsep'). lia.
      * destruct (after_separator (a :: s)) as [rest|] eqn:E; [|done]. intros [= <-].
        exists [], (a :: s), rest. split; [done|]; split; [done|]; split; [done|]; split; [|done].
        intros [|b pre'] suf' Hs Hpre' Hsep'; simpl; [lia|].
        injection Hs as <- Hs. simpl in Hpre'. apply andb_true_iff in Hpre' as [_ Hpre'].
        destruct Hsep'. by apply (proj1 (last_token_None s) El pre' suf').
    + destruct (after_separator (a :: s)) as [rest|] eqn:E; [|done]. intros [= <-].
      exists [], (a :: s), rest. split; [done|]; split; [done|]; split; [done|]; split; [|done].
      intros [|b pre'] suf' Hs Hpre' Hsep'; simpl; [lia|].
      injection Hs as <- Hs. simpl in Hpre'. by rewrite Ea in Hpre'.
Qed.

(** C7, as amended: the extraction succeeds exactly when, after a prefix
    free of line terminators, the URL has one of the five separators of the
    pattern ([youtu], any character, [be/]; [v/]; [/u/], a word character,
    [/]; [embed/]; [watch?]) and the token after the last such separator —
    past an optional [?], an optional [v] and an optional [=], up to the next
    [#], [&] or [?] — has exactly 11 characters; the result is that token.
    So [https://youtu.be/dQw4w9WgXcQ] gives [dQw4w9WgXcQ], and a token of
    another length, such as 10, gives no id. *)
Theorem extractYouTubeId_accepts :
  (forall url id,
     extractYouTubeId url = Some id
     <-> exists pre suf rest,
           list_ascii_of_string url = pre ++ suf
           /\ forallb not_line_terminator pre = true
           /\ after_separator suf = Some rest
           /\ (forall pre' suf', list_ascii_of_string url = pre' ++ suf' ->
                 forallb not_line_terminator pre' = true ->
                 after_separator suf' <> None -> (length pre' <= length pre)%nat)
           /\ length (token rest) = 11%nat
           /\ id = string_of_list_ascii (token rest))
  /\ extractYouTubeId "https://youtu.be/dQw4w9WgXcQ" = Some "dQw4w9WgXcQ"
  /\ extractYouTubeId "https://youtu.be/dQw4w9WgXc" = None.
Proof.
  split; [|split; by vm_compute].
  intros url id. rewrite extractYouTubeId_last_token. split.
  - destruct (last_token _) as [t|] eqn:El; [|done].
    destruct (length t =? 11)%nat eqn:E11; [|done]. intros [= <-].
    apply Nat.eqb_eq in E11.
    destruct (last_token_Some _ t El) as (pre & suf & rest & Hs & Hpre & Hsep & Hl & ->).
    exists pre, suf, rest. by repeat split.
  - intros (pre & suf & rest & Hs & Hpre & Hsep & Hl & H11 & ->).
    destruct (last_token _) as [t|] eqn:El.
    + destruct (last_token_Some _ t El) as (pre2 & suf2 & rest2 & Hs2 & Hpre2 & Hsep2 & Hl2 & ->).
      assert (length pre = length pre2) as Hlen.
      { apply Nat.le_antisymm.
        - apply (Hl2 pre suf); [done..|]. by rewrite Hsep.
        - apply (Hl pre2 suf2); [done..|]. by rewrite Hsep2. }
      rewrite Hs in Hs2. apply app_inj_1 in Hs2 as [<- <-]; [|done].
      assert (rest2 = rest) as -> by congruence.
      by rewrite H11.
    + apply last_token_None with (pre := pre) (suf := suf) in El; [congruence | done..].
Qed.

End YouTube.

(** C7, as stated, fails: the pattern has a fifth form, [/u/] with one word
    character, so an id is extracted from a URL that has none of the four
    listed forms. *)
Lemma extractYouTubeId_fifth_form :
  Student.extractYouTubeId "https://www.youtube.com/u/1/dQw4w9WgXcQ" = Some "dQw4w9WgXcQ"
  /\ Student.matches_accepted_form "https://www.youtube.com/u/1/dQw4w9WgXcQ" = false.
Proof. split; by vm_compute. Qed.

(** The other direction fails as well: [?v=] without [watch] is not a
    separator of the pattern. *)
Example extractYouTubeId_bare_query :
  Student.extractYouTubeId "https://www.youtube.com/?v=dQw4w9WgXcQ" = None
  /\ Student.matches_accepted_form "https://www.youtube.com/?v=dQw4w9WgXcQ" = true.
Proof. split; by vm_compute. Qed.

(** ** The layout is the one the handlers produce *)

Lemma map_forallb_lookup {A} (P : string -> A -> bool) (s : gmap string A) :
  forallb (fun kv => P kv.1 kv.2) (map_to_list s) = true ->
  forall k v, s !! k = Some v -> P k v = true.
Proof.
  intros H k v Hk. rewrite forallb_forall in H.
  apply (H (k, v)). apply list_elem_of_In. by apply elem_of_map_to_list.
Qed.

Lemma weeks_wf_b_sound (s : store) : weeks_wf_b s = true -> weeks_wf s.
Proof.
  intros H k w Hk Hp.
  pose proof (map_forallb_lookup (fun k w => implb (startsWith "weeks:" k) (week_wf_b k w))
                s H k w Hk) as Hw.
  cbn beta in Hw. rewrite Hp in Hw. simpl in Hw. unfold week_wf_b in Hw.
  apply andb_true_iff in Hw as [Hkey Hc]. apply String.eqb_eq in Hkey. by split.
Qed.

Lemma createWeek_wf getUser ck req (s : store) :
  weeks_wf s ->
  (forall b, destructure (payload req) = Some b ->
             colon_free (template (b !! "subjectId")) = true) ->
  weeks_wf (createWeek getUser ck req s).2.
Proof.
  intros Hwf Hc. unfold createWeek.
  destruct (admin_gate getUser req s); [done..|].
  destruct (destructure (payload req)) as [b|] eqn:Eb; [|done].
  destruct (truthy (b !! "subjectId")) eqn:Es; [|done].
  destruct (negb true || negb (truthy (b !! "weekNumber")) || negb (truthy (b !! "title")));
    [done|].
  cbn [snd]. apply weeks_wf_insert; [done|]. intros _.
  destruct (b !! "subjectId") as [x|] eqn:Ex; [|done].
  unfold week_wf. rewrite new_week_id, (new_week_subjectId _ _ _ x Ex Es).
  split; [done|]. rewrite <- Ex. by apply Hc.
Qed.

(** The dashboard's toggle keeps the layout: it sends the listed week back
    with only [published] changed. *)
Lemma togglePublish_wf scan getUser tok (s : store) sid wid w :
  (forall s, scan s ≡ₚ map_to_list s) ->
  admin_session getUser tok s ->
  s !! weekKey sid wid = Some w -> w !! "id" = Some (JStr wid) ->
  template (w !! "subjectId") = sid ->
  sole_week_with_id s wid (weekKey sid wid) ->
  weeks_wf s ->
  weeks_wf (updateWeek scan getUser (Admin.togglePublish tok w) s).2.
Proof.
  intros Hscan Hadm Hk Hid Hsid Hsole Hwf.
  rewrite (togglePublish_store scan getUser Hscan tok s sid wid w) by done.
  apply weeks_wf_insert; [done|]. intros Hp.
  destruct (Hwf _ _ Hk Hp) as [Hkey Hc]. unfold week_wf.
  by rewrite !lookup_insert_ne.
Qed.

(** ** The properties on the concrete deployment *)

Lemma scan_enumerates (s : store) : Scenario.scan s ≡ₚ map_to_list s.
Proof. reflexivity. Qed.

Lemma admin_routes_reject_witness :
  deleteSubject Scenario.scan Scenario.getUser (Request None "A" JNull) Scenario.store2
  = (error 401 "Unauthorized", Scenario.store2)
  /\ deleteSubject Scenario.scan Scenario.getUser (Request Scenario.student "A" JNull)
       Scenario.store2
     = (error 403 "Admin access required", Scenario.store2).
Proof.
  assert (deleteSubject Scenario.scan Scenario.getUser
          ∈ admin_handlers Scenario.scan Scenario.getUser Scenario.ck1) as Hin
    by (right; left).
  split.
  - apply (admin_routes_reject Scenario.scan Scenario.getUser Scenario.ck1
             (Request None "A" JNull) Scenario.store2 _ Hin).
    intros tok Htok. discriminate Htok.
  - apply (proj2 (admin_routes_reject Scenario.scan Scenario.getUser Scenario.ck1
                    (Request Scenario.student "A" JNull) Scenario.store2 _ Hin)
             "student-token" "u-student").
    + reflexivity.
    + discriminate.
    + reflexivity.
    + intros profile Hp Hrole.
      assert (Scenario.store2 !! ("users:" +:+ "u-student")
              = Some (Scenario.profile "u-student" "student")) as E by (vm_compute; reflexivity).
      rewrite E in Hp. injection Hp as <-. discriminate Hrole.
Defined.

Lemma recordProgress_last_write_wins_witness :
  listProgress Scenario.scan "u-student" Scenario.store_saved
  = [progress_record "u-student" "w1" true (iso_now Scenario.ck2)].
Proof.
  apply (recordProgress_last_write_wins Scenario.scan Scenario.getUser scan_enumerates
           Scenario.ck1 Scenario.ck2 (Scenario.save false) (Scenario.save true)
           Scenario.store0 "u-student"
           (Scenario.progress_fields "w1" false) (Scenario.progress_fields "w1" true)
           "w1" false true); try reflexivity.
  intros k v Hk Hp.
  pose proof (map_forallb_lookup (fun k _ => negb (startsWith (progressPrefix "u-student") k))
                Scenario.store0 eq_refl k v Hk) as Hn.
  cbn beta in Hn. rewrite Hp in Hn. discriminate Hn.
Defined.

Lemma created_from_form_has_no_blank_links_witness :
  exists week,
    (createWeek Scenario.getUser Scenario.ck1
       (Request (Some ("Bearer " +:+ "admin-token")) EmptyString
          (JObj (Admin.weekData Scenario.form "subject_1_abc"))) Scenario.store0).2
    = <[weekKey "subject_1_abc" (new_weekId Scenario.ck1) := week]> Scenario.store0
    /\ week !! "videoLinks"
       = Some (JArr [Admin.item_json (Admin.Build_ContentItem "http://x" EmptyString)]).
Proof.
  destruct (created_from_form_has_no_blank_links Scenario.getUser Scenario.ck1 "admin-token"
              Scenario.form "subject_1_abc" 1 Scenario.store0 "u-admin"
              (Request (Some ("Bearer " +:+ "admin-token")) EmptyString
                 (JObj (Admin.weekData Scenario.form "subject_1_abc"))))
    as (_ & week & Hs & Hv & _).
  - reflexivity.
  - reflexivity.
  - discriminate.
  - discriminate.
  - reflexivity.
  - discriminate.
  - exists week. split; [exact Hs | exact Hv].
Defined.

Lemma deleteSubject_cascade_witness :
  listWeeksForSubject Scenario.scan Scenario.str_to_num "A"
    (deleteSubject Scenario.scan Scenario.getUser (Request Scenario.admin "A" JNull)
       Scenario.store2).2
  = [].
Proof.
  apply (deleteSubject_cascade Scenario.scan Scenario.getUser Scenario.str_to_num
           scan_enumerates (Request Scenario.admin "A" JNull) Scenario.store2 "u-admin").
  - reflexivity.
  - apply weeks_wf_b_sound. reflexivity.
  - reflexivity.
Defined.

(** C2, as stated, fails on stores that authorized requests produce. After a
    PUT whose body is [{ id: "zzz" }], the week of subject "A" stays under its
    key while its record carries the id "zzz": deleting "A" succeeds, deletes
    the key that the record spells, and the week is still listed under "A".
    After a PUT whose body is [{ subjectId: "B" }], the week is stored under
    the key of "A" with the subjectId "B": deleting "B" succeeds and a week
    whose subjectId is "B" is still stored. With a week of the subject "A:B",
    deleting "A" finds that week under the prefix of "A", deletes another
    key, and the listing of "A" still holds it. *)
Lemma deleteSubject_leaves_weeks :
  (Examples.delete_subject "A" Examples.store_relabelled).1 = ok [("success", JBool true)]
  /\ (fun w => w !! "title")
       <$> listWeeksForSubject Scenario.scan Scenario.str_to_num "A"
             (Examples.delete_subject "A" Examples.store_relabelled).2
     = [Some (JStr "Intro")]
  /\ (Examples.delete_subject "B" Scenario.store_moved).1 = ok [("success", JBool true)]
  /\ ((Examples.delete_subject "B" Scenario.store_moved).2 !! weekKey "A" Scenario.wid1)
       ≫= (fun w => w !! "subjectId")
     = Some (JStr "B")
  /\ (Examples.delete_subject "A" Examples.store_nested).1 = ok [("success", JBool true)]
  /\ (fun w => w !! "subjectId")
       <$> listWeeksForSubject Scenario.scan Scenario.str_to_num "A"
             (Examples.delete_subject "A" Examples.store_nested).2
     = [Some (JStr "A:B")].
Proof. repeat split; vm_compute; reflexivity. Qed.

Lemma listWeeksForSubject_sorted_stable_witness :
  Scenario.listing = [Scenario.week2; Scenario.week1]
  /\ weekNumberOf Scenario.str_to_num Scenario.week2
     <= weekNumberOf Scenario.str_to_num Scenario.week1.
Proof.
  split; [vm_compute; reflexivity|].
  destruct (listWeeksForSubject_sorted_stable Scenario.scan Scenario.str_to_num "A"
              Scenario.store2) as [Hsorted _].
  - intros w Hw. apply list_elem_of_In in Hw.
    assert (forallb (fun w => match toNumber Scenario.str_to_num (w !! "weekNumber") with
                              | Some _ => true
                              | None => false
                              end)
              (kv_getByPrefix Scenario.scan (weekPrefix "A") Scenario.store2) = true) as Hall
      by reflexivity.
    rewrite forallb_forall in Hall. specialize (Hall w Hw).
    destruct (toNumber Scenario.str_to_num (w !! "weekNumber")); [eauto | discriminate].
  - apply (Hsorted O); vm_compute; reflexivity.
Defined.

(** The listing of the two weeks: "Basics" (week 1), created second, comes
    first. *)
Example listing_sorted :
  (fun w => w !! "title") <$> Scenario.listing
  = [Some (JStr "Basics"); Some (JStr "Intro")].
Proof. vm_compute. reflexivity. Qed.


Lemma updateWeek_keeps_key_witness :
  dom Scenario.store_moved = dom Scenario.store1
  /\ merge Scenario.week1 {[ "subjectId" := JStr "B" ]} !! "subjectId" = Some (JStr "B")
  /\ merge Scenario.week1 {[ "subjectId" := JStr "B" ]}
     ∈ listWeeksForSubject Scenario.scan Scenario.str_to_num "A" Scenario.store_moved.
Proof.
  destruct (updateWeek_keeps_key Scenario.scan Scenario.getUser Scenario.str_to_num
              scan_enumerates (Scenario.move "B") Scenario.store1 "u-admin" Scenario.week1)
    as (_ & Hdom & _ & Hsid & Hlisted).
  - reflexivity.
  - reflexivity.
  - reflexivity.
  - split; [exact Hdom|]. split; [|exact Hlisted].
    apply (Hsid {[ "subjectId" := JStr "B" ]}); reflexivity.
Defined.

(** C10, as stated, fails once a week's subjectId field has been changed: the
    week created under "A" and updated with subjectId "B" still sits under
    the key of "A"; the next update writes the merged record under the key of
    "B", a key that did not exist, and leaves the record under "A" as it
    was. *)
Lemma updateWeek_changes_key :
  (Scenario.store_moved !! weekKey "A" Scenario.wid1) ≫= (fun w => w !! "subjectId")
  = Some (JStr "B")
  /\ Scenario.store_moved !! weekKey "B" Scenario.wid1 = None
  /\ (Scenario.store_again !! weekKey "B" Scenario.wid1) ≫= (fun w => w !! "subjectId")
     = Some (JStr "C")
  /\ Scenario.store_again !! weekKey "A" Scenario.wid1
     = Scenario.store_moved !! weekKey "A" Scenario.wid1
  /\ length (listWeeksForSubject Scenario.scan Scenario.str_to_num "B" Scenario.store_again)
     = 1%nat.
Proof. repeat split; vm_compute; reflexivity. Qed.

Lemma publish_toggle_visibility_witness :
  exists w1,
    Scenario.store1 !! weekKey "A" (new_weekId Scenario.ck1) = Some w1
    /\ ~ visible_to_students Scenario.scan Scenario.str_to_num "A"
           (new_weekId Scenario.ck1) Scenario.store1
    /\ visible_to_students Scenario.scan Scenario.str_to_num "A" (new_weekId Scenario.ck1)
         (updateWeek Scenario.scan Scenario.getUser
            (Admin.togglePublish "admin-token" w1) Scenario.store1).2.
Proof.
  destruct (publish_toggle_visibility Scenario.scan Scenario.getUser Scenario.str_to_num
              scan_enumerates Scenario.ck1 "admin-token"
              (Request Scenario.admin EmptyString (JObj (Scenario.week_fields "A" 2 "Intro")))
              (Scenario.week_fields "A" 2 "Intro") Scenario.store0 "A")
    as (w1 & Hk & _ & Hhidden & Hshown & _).
  - exists "u-admin", (Scenario.profile "u-admin" "admin"). repeat split; reflexivity.
  - reflexivity.
  - reflexivity.
  - reflexivity.
  - discriminate.
  - reflexivity.
  - reflexivity.
  - reflexivity.
  - intros k w Hk Hp.
    pose proof (map_forallb_lookup (fun k _ => negb (startsWith "weeks:" k))
                  Scenario.store0 eq_refl k w Hk) as Hn.
    cbn beta in Hn. rewrite Hp in Hn. discriminate Hn.
  - exists w1. split; [exact Hk|]. split; [exact Hhidden | exact Hshown].
Defined.

(** Correct options 0, 1, 2 and answers 0, 2, 2: two of three; the
    short-answer question counts in neither number. *)
Lemma calculateScore_counts_witness :
  Student.calculateScore (Some Scenario.quiz) Scenario.answers = Student.Score 2 3.
Proof.
  apply (calculateScore_counts Scenario.quiz Scenario.answers).
  - apply (bool_decide_unpack _). reflexivity.
  - intros q Hq Hm. apply list_elem_of_In in Hq.
    assert (forallb (fun q => implb (Student.is_mcq q.2)
                                match Student.correctAnswer q.2 with
                                | Some _ => true
                                | None => false
                                end) Scenario.quiz = true) as Hall by reflexivity.
    rewrite forallb_forall in Hall. specialize (Hall q Hq). rewrite Hm in Hall.
    destruct (Student.correctAnswer q.2); [eauto | discriminate].
Defined.

(** Where an MCQ question carries no [correctAnswer], leaving it unanswered
    counts as correct: both sides of the comparison are undefined. *)
Example calculateScore_undefined :
  Student.calculateScore
    (Some [(0%nat, Student.Build_Question None "?" (Some ["a"; "b"]) None None)]) ∅
  = Student.Score 1 1.
Proof. reflexivity. Qed.

(** * Further properties of the code *)

(** ** Accounts *)

Section AccountProps.
Context (scan : store -> list (string * obj)) (getUser : string -> option string).

Lemma register_cases role ck created b (s : store) :
  Accounts.register role ck created b s = (error 400 "Missing required fields", s)
  \/ (exists message, created = inl message
        /\ Accounts.register role ck created b s = (error 400 message, s))
  \/ (exists uid email name,
        created = inr uid /\ b !! "email" = Some email /\ b !! "name" = Some name
        /\ truthy (b !! "password") = true
        /\ Accounts.register role ck created b s
           = (ok [("success", JBool true); ("user", Accounts.public_user uid email name role)],
              <["users:" +:+ uid := Accounts.new_profile uid email name role ck]> s)).
Proof.
  unfold Accounts.register.
  destruct (truthy (b !! "email")) eqn:Ee; [|by left].
  destruct (truthy (b !! "password")) eqn:Ep; [|by left].
  destruct (truthy (b !! "name")) eqn:En; [|by left].
  cbn [negb orb]. destruct created as [message | uid]; right; [left; eauto|right].
  destruct (b !! "email") as [email|] eqn:E1; [|done].
  destruct (b !! "name") as [name|] eqn:E2; [|done].
  exists uid, email, name. unfold or_default. rewrite Ee, En. done.
Qed.

Lemma new_profile_role uid email name role ck :
  Accounts.new_profile uid email name role ck !! "role" = Some (JStr role).
Proof. unfold Accounts.new_profile. by simplify_map_eq. Qed.

Lemma admin_gate_profile req (s : store) uid profile role :
  authenticate getUser req = Some uid ->
  s !! ("users:" +:+ uid) = Some profile ->
  profile !! "role" = Some (JStr role) ->
  admin_gate getUser req s = if String.eqb role "admin" then Granted uid else Forbidden.
Proof.
  intros Ha Hp Hr. unfold admin_gate, kv_get. rewrite Ha, Hp. unfold strict_eq_str.
  by rewrite Hr.
Qed.

Lemma forbidden_everywhere ck req (s : store) h :
  h ∈ admin_handlers scan getUser ck ->
  admin_gate getUser req s = Forbidden ->
  h req s = (error 403 "Admin access required", s).
Proof.
  intros Hh Hf. unfold admin_handlers in Hh.
  repeat (apply elem_of_cons in Hh as [-> | Hh]); [..| by apply elem_of_nil in Hh];
    unfold createSubject, deleteSubject, createWeek, updateWeek, deleteWeek;
    by rewrite Hf.
Qed.

(** X1: POST /signup cannot create an admin: whatever the body and the
    provider's answer, the store is unchanged unless the answer is 200, and
    then one profile was written, with role "student", so that every admin
    route called with a token of that account answers 403 and writes
    nothing. *)
Theorem signup_is_not_admin ck created req (s : store) :
  let r := Accounts.signup ck created req s in
  (status r.1 <> 200%nat -> r.2 = s)
  /\ (status r.1 = 200%nat ->
      exists uid profile,
        created = inr uid
        /\ r.2 = <["users:" +:+ uid := profile]> s
        /\ profile !! "role" = Some (JStr "student")
        /\ forall ck' req' h,
             h ∈ admin_handlers scan getUser ck' ->
             authenticate getUser req' = Some uid ->
             h req' r.2 = (error 403 "Admin access required", r.2)).
Proof.
  intros r. subst r. unfold Accounts.signup.
  destruct (destructure (payload req)) as [b|]; [|by split].
  destruct (register_cases "student" ck created b s)
    as [-> | [(message & _ & ->) | (uid & email & name & Hc & _ & _ & _ & ->)]];
    [by split.. |].
  cbn [fst snd]. split; [done|]. intros _. exists uid, (Accounts.new_profile uid email name "student" ck).
  split; [done|]. split; [done|]. split; [apply new_profile_role|].
  intros ck' req' h Hh Ha. apply (forbidden_everywhere ck'); [done|].
  by rewrite (admin_gate_profile req' _ uid _ "student" Ha
                (lookup_insert_eq _ _ _) (new_profile_role _ _ _ _ _)).
Qed.

(** X2: POST /admin/signup checks the shared secret before the fields and
    before the provider is asked: a body whose [adminSecret] is not the
    string "admin123" gets 403 and nothing is stored. *)
Theorem adminSignup_wrong_secret ck created req (s : store) b :
  destructure (payload req) = Some b ->
  b !! "adminSecret" <> Some (JStr "admin123") ->
  Accounts.adminSignup ck created req s = (error 403 "Invalid admin secret", s).
Proof.
  intros Hb Hsec. unfold Accounts.adminSignup. rewrite Hb.
  unfold strict_eq_str. destruct (b !! "adminSecret") as [[| | |t| |]|]; try done.
  destruct (String.eqb t "admin123") eqn:E; [|done].
  apply String.eqb_eq in E as ->. done.
Qed.

(** X3: an admin sign-up with the secret, the three fields and a created
    account stores the profile with role "admin"; from then on the admin gate
    grants every request whose token the provider resolves to that account,
    and GET /user returns the stored profile. *)
Theorem adminSignup_grants ck req (s : store) b uid email name :
  payload req = JObj b ->
  b !! "adminSecret" = Some (JStr "admin123") ->
  b !! "email" = Some email -> truthy (Some email) = true ->
  b !! "name" = Some name -> truthy (Some name) = true ->
  truthy (b !! "password") = true ->
  let r := Accounts.adminSignup ck (inr uid) req s in
  let profile := Accounts.new_profile uid email name "admin" ck in
  r = (ok [("success", JBool true); ("user", Accounts.public_user uid email name "admin")],
       <["users:" +:+ uid := profile]> s)
  /\ forall req', authenticate getUser req' = Some uid ->
       admin_gate getUser req' r.2 = Granted uid
       /\ Accounts.getUserProfile getUser req' r.2 = (ok [("user", JObj profile)], r.2).
Proof.
  intros Hp Hsec He Het Hn Hnt Hpw r profile. subst r profile.
  unfold Accounts.adminSignup. rewrite Hp. cbn [destructure].
  unfold strict_eq_str. rewrite Hsec.
  change (negb (String.eqb "admin123" "admin123")) with false. cbv iota.
  unfold Accounts.register. rewrite He, Hn, Het, Hnt, Hpw. cbn [negb orb or_default].
  rewrite Het, Hnt. unfold kv_set. split; [done|]. intros req' Ha. cbn [snd]. split.
  - by rewrite (admin_gate_profile req' _ uid _ "admin" Ha
                  (lookup_insert_eq _ _ _) (new_profile_role _ _ _ _ _)).
  - unfold Accounts.getUserProfile, kv_get, kv_set. by rewrite Ha, lookup_insert_eq.
Qed.

(** X4: GET /user answers 401 without a valid token and 404 when the account
    has no profile; after a successful POST /signup it returns the profile
    just stored, whose email and name are those of the body. None of the
    three changes the store. *)
Theorem getUserProfile_after_signup ck req req' (s : store) b uid email name :
  payload req = JObj b ->
  b !! "email" = Some email -> truthy (Some email) = true ->
  b !! "name" = Some name -> truthy (Some name) = true ->
  truthy (b !! "password") = true ->
  authenticate getUser req' = Some uid ->
  let s' := (Accounts.signup ck (inr uid) req s).2 in
  Accounts.getUserProfile getUser req' s'
  = (ok [("user", JObj (Accounts.new_profile uid email name "student" ck))], s')
  /\ (s !! ("users:" +:+ uid) = None ->
      Accounts.getUserProfile getUser req' s = (error 404 "User profile not found", s))
  /\ (forall req0 s0, authenticate getUser req0 = None ->
        Accounts.getUserProfile getUser req0 s0 = (error 401 "Unauthorized", s0)).
Proof.
  intros Hp He Het Hn Hnt Hpw Ha s'. subst s'.
  unfold Accounts.signup. rewrite Hp. cbn [destructure].
  unfold Accounts.register. rewrite He, Hn, Het, Hnt, Hpw. cbn [negb orb or_default snd].
  rewrite Het, Hnt. unfold Accounts.getUserProfile, kv_get, kv_set.
  rewrite Ha, lookup_insert_eq. split; [done|]. split.
  - intros ->. done.
  - intros req0 s0 ->. done.
Qed.

End AccountProps.

(** ** More on the prefix scan *)

Section ScanMore.
Context (scan : store -> list (string * obj)).
Hypothesis scan_perm : forall s, scan s ≡ₚ map_to_list s.

Lemma getByPrefix_delete p k v (s : store) :
  s !! k = Some v -> startsWith p k = true ->
  kv_getByPrefix scan p s ≡ₚ v :: kv_getByPrefix scan p (delete k s).
Proof.
  intros Hk Hp. rewrite <- (insert_delete_id s k v Hk) at 1.
  rewrite (getByPrefix_insert scan scan_perm), Hp. by rewrite delete_delete_eq.
Qed.

Lemma getByPrefix_delete_other p k (s : store) :
  startsWith p k = false ->
  kv_getByPrefix scan p (delete k s) ≡ₚ kv_getByPrefix scan p s.
Proof.
  intros Hp. destruct (s !! k) as [v|] eqn:Hk.
  - rewrite <- (insert_delete_id s k v Hk) at 2.
    rewrite (getByPrefix_insert scan scan_perm), Hp. by rewrite delete_delete_eq.
  - by rewrite delete_id.
Qed.

Lemma getByPrefix_insert_other p k v (s : store) :
  startsWith p k = false ->
  kv_getByPrefix scan p (<[k := v]> s) ≡ₚ kv_getByPrefix scan p s.
Proof.
  intros Hp. rewrite (getByPrefix_insert scan scan_perm), Hp. simpl.
  by apply getByPrefix_delete_other.
Qed.

End ScanMore.

(** ** Subjects and weeks: creation, validation, deletion *)

Section Registry.
Context (scan : store -> list (string * obj)) (getUser : string -> option string)
  (str_to_num : string -> option Z).
Hypothesis scan_perm : forall s, scan s ≡ₚ map_to_list s.

(** X5: an authorized POST /admin/subjects with a truthy name stores the new
    subject under its generated key and answers with it; the public listing
    then holds it once, next to the subjects stored under other keys, and
    next to all previous subjects when the generated id is new. *)
Theorem createSubject_listed ck req (s : store) uid b :
  admin_gate getUser req s = Granted uid ->
  destructure (payload req) = Some b ->
  truthy (b !! "name") = true ->
  let r := createSubject getUser ck req s in
  let key := subjectKey (new_subjectId ck) in
  r = (ok [("success", JBool true); ("subject", JObj (new_subject ck b))],
       <[key := new_subject ck b]> s)
  /\ new_subject ck b !! "name" = b !! "name"
  /\ listSubjects scan r.2 ≡ₚ new_subject ck b :: listSubjects scan (delete key s)
  /\ (s !! key = None -> listSubjects scan r.2 ≡ₚ new_subject ck b :: listSubjects scan s).
Proof.
  intros Hg Hb Hn r key. subst r key.
  assert (createSubject getUser ck req s
          = (ok [("success", JBool true); ("subject", JObj (new_subject ck b))],
             <[subjectKey (new_subjectId ck) := new_subject ck b]> s)) as ->.
  { unfold createSubject. rewrite Hg, Hb, Hn. reflexivity. }
  cbn [snd].
  assert (listSubjects scan (<[subjectKey (new_subjectId ck) := new_subject ck b]> s)
          ≡ₚ new_subject ck b :: listSubjects scan (delete (subjectKey (new_subjectId ck)) s))
    as HP.
  { unfold listSubjects. rewrite (getByPrefix_insert scan scan_perm).
    by rewrite (startsWith_app "subjects:"). }
  split; [done|]. split; [|split; [done|]].
  - unfold new_subject. simplify_map_eq. unfold or_default.
    destruct (b !! "name"); [by rewrite Hn | done].
  - intros Hfresh. rewrite HP. by rewrite delete_id.
Qed.

(** X6: validation failures write nothing. An authorized create-subject
    request whose name is missing or falsy gets 400, and an authorized
    create-week request gets 400 as soon as one of subjectId, weekNumber and
    title is missing or falsy; a week number of 0 counts as missing. *)
Theorem create_rejects_missing_fields ck req (s : store) uid b :
  admin_gate getUser req s = Granted uid ->
  destructure (payload req) = Some b ->
  (truthy (b !! "name") = false ->
   createSubject getUser ck req s = (error 400 "Subject name is required", s))
  /\ (truthy (b !! "subjectId") = false \/ truthy (b !! "weekNumber") = false
      \/ truthy (b !! "title") = false ->
      createWeek getUser ck req s = (error 400 "Missing required fields", s))
  /\ (b !! "weekNumber" = Some (JNum 0) ->
      createWeek getUser ck req s = (error 400 "Missing required fields", s)).
Proof.
  intros Hg Hb.
  assert (truthy (b !! "subjectId") = false \/ truthy (b !! "weekNumber") = false
          \/ truthy (b !! "title") = false ->
          createWeek getUser ck req s = (error 400 "Missing required fields", s)) as Hw.
  { intros H. unfold createWeek. rewrite Hg, Hb.
    destruct H as [-> | [-> | ->]]; cbn [negb orb]; rewrite ?orb_true_r; done. }
  split; [|split; [done|]].
  - intros Hn. unfold createSubject. by rewrite Hg, Hb, Hn.
  - intros H0. apply Hw. right; left. by rewrite H0.
Qed.

Lemma weekPrefix_other sid sid' wid :
  colon_free sid = true -> colon_free sid' = true -> sid <> sid' ->
  startsWith (weekPrefix sid') (weekKey sid wid) = false.
Proof.
  intros Hc Hc' Hne. destruct (startsWith _ _) eqn:E; [|done].
  apply weekPrefix_weekKey_inj in E; [|done..]. by destruct Hne.
Qed.

(** X7: a created week shows in the listing of its subject and in no other:
    the listing of the subject gains the new week, and the listing of every
    other subject keeps its weeks (ids without colon, as generated). *)
Theorem createWeek_listed ck req (s : store) uid b sid :
  admin_gate getUser req s = Granted uid ->
  payload req = JObj b ->
  b !! "subjectId" = Some (JStr sid) -> sid <> EmptyString ->
  truthy (b !! "weekNumber") = true -> truthy (b !! "title") = true ->
  colon_free sid = true ->
  let s' := (createWeek getUser ck req s).2 in
  let week := new_week (new_weekId ck) ck b in
  listWeeksForSubject scan str_to_num sid s'
  ≡ₚ week :: listWeeksForSubject scan str_to_num sid (delete (weekKey sid (new_weekId ck)) s)
  /\ (forall sid', colon_free sid' = true -> sid' <> sid ->
        listWeeksForSubject scan str_to_num sid' s'
        ≡ₚ listWeeksForSubject scan str_to_num sid' s)
  /\ listSubjects scan s' ≡ₚ listSubjects scan s.
Proof.
  intros Hg Hp Hsid Hne Hnum Htitle Hc s' week. subst s' week.
  rewrite (createWeek_ok getUser ck req s uid b Hg Hp);
    [| by rewrite Hsid; destruct sid | done..].
  rewrite Hsid. cbn [snd template toStr]. unfold listWeeksForSubject, listSubjects.
  split; [|split].
  - rewrite !sort_by_perm, (getByPrefix_insert scan scan_perm). by rewrite startsWith_week.
  - intros sid' Hc' Hne'. rewrite !sort_by_perm.
    apply (getByPrefix_insert_other scan scan_perm). by apply weekPrefix_other.
  - apply (getByPrefix_insert_other scan scan_perm).
    apply weeks_not_subjects, startsWith_weeks.
Qed.

Lemma find_week_None weekId (s : store) :
  (forall k w, s !! k = Some w -> startsWith "weeks:" k = true ->
               w !! "id" <> Some (JStr weekId)) ->
  find_week weekId (kv_getByPrefix scan "weeks:" s) = None.
Proof.
  intros H. unfold find_week. destruct (find _ _) as [w|] eqn:E; [|done].
  apply (find_week_Some scan scan_perm) in E as (Hid & k & Hk & Hp).
  by destruct (H k w Hk Hp).
Qed.

Lemma week_not_found req (s : store) uid :
  admin_gate getUser req s = Granted uid ->
  (forall k w, s !! k = Some w -> startsWith "weeks:" k = true ->
               w !! "id" <> Some (JStr (param req))) ->
  updateWeek scan getUser req s = (error 404 "Week not found", s)
  /\ deleteWeek scan getUser req s = (error 404 "Week not found", s).
Proof.
  intros Hg Hnone. unfold updateWeek, deleteWeek. rewrite Hg.
  by rewrite (find_week_None (param req) s Hnone).
Qed.

Lemma deleteWeek_found req (s : store) uid sid w :
  admin_gate getUser req s = Granted uid ->
  s !! weekKey sid (param req) = Some w ->
  w !! "id" = Some (JStr (param req)) ->
  template (w !! "subjectId") = sid ->
  sole_week_with_id s (param req) (weekKey sid (param req)) ->
  deleteWeek scan getUser req s
  = (ok [("success", JBool true)], delete (weekKey sid (param req)) s).
Proof.
  intros Hg Hk Hid Hsid Hsole. unfold deleteWeek. rewrite Hg.
  rewrite (find_week_sole scan scan_perm s (param req) (weekKey sid (param req)) w);
    [| done | apply startsWith_weeks | done..].
  by rewrite Hsid.
Qed.

(** X8: an id that no stored week carries is never created by the way: PUT
    and DELETE on /admin/weeks/:id answer 404 and leave the store as it
    is. *)
Theorem unknown_week_404 req (s : store) uid :
  admin_gate getUser req s = Granted uid ->
  (forall k w, s !! k = Some w -> startsWith "weeks:" k = true ->
               w !! "id" <> Some (JStr (param req))) ->
  updateWeek scan getUser req s = (error 404 "Week not found", s)
  /\ deleteWeek scan getUser req s = (error 404 "Week not found", s).
Proof.
  intros Hg Hnone. by apply week_not_found with (uid := uid).
Qed.

(** X9: DELETE /admin/weeks/:id on a week that sits under the key of its
    subject removes that key and nothing else: the week leaves the listing of
    its subject, and a second DELETE or a PUT on the same id answers 404. *)
Theorem deleteWeek_removes req (s : store) uid sid w :
  admin_gate getUser req s = Granted uid ->
  s !! weekKey sid (param req) = Some w ->
  w !! "id" = Some (JStr (param req)) ->
  template (w !! "subjectId") = sid ->
  sole_week_with_id s (param req) (weekKey sid (param req)) ->
  let r := deleteWeek scan getUser req s in
  r = (ok [("success", JBool true)], delete (weekKey sid (param req)) s)
  /\ listWeeksForSubject scan str_to_num sid s
     ≡ₚ w :: listWeeksForSubject scan str_to_num sid r.2
  /\ deleteWeek scan getUser req r.2 = (error 404 "Week not found", r.2)
  /\ updateWeek scan getUser req r.2 = (error 404 "Week not found", r.2).
Proof.
  intros Hg Hk Hid Hsid Hsole r. subst r.
  rewrite (deleteWeek_found req s uid sid w) by done.
  cbn [snd]. split; [done|]. split.
  - unfold listWeeksForSubject. rewrite !sort_by_perm.
    apply (getByPrefix_delete scan scan_perm); [done | apply startsWith_week].
  - assert (admin_gate getUser req (delete (weekKey sid (param req)) s) = Granted uid) as Hg'.
    { unfold admin_gate, kv_get in *. destruct (authenticate getUser req) as [u|]; [|done].
      rewrite lookup_delete_ne; [done|]. apply weeks_not_users, startsWith_weeks. }
    apply and_comm, week_not_found with (uid := uid); [done|].
    intros k w' Hk' Hp Hid'. apply lookup_delete_Some in Hk' as [Hne Hk'].
    by destruct Hne; symmetry; eapply Hsole.
Qed.

Lemma admin_gate_insert_week req (s : store) k v :
  startsWith "weeks:" k = true ->
  admin_gate getUser req (<[k := v]> s) = admin_gate getUser req s.
Proof.
  intros Hk. unfold admin_gate, kv_get. destruct (authenticate getUser req) as [u|]; [|done].
  rewrite lookup_insert_ne; [done|]. by apply weeks_not_users.
Qed.

(** X10: deleting a week right after creating it gives back the store as it
    was, when the generated id and its key are new. *)
Theorem createWeek_deleteWeek ck req req' (s : store) uid b sid :
  admin_gate getUser req s = Granted uid ->
  payload req = JObj b ->
  b !! "subjectId" = Some (JStr sid) -> sid <> EmptyString ->
  truthy (b !! "weekNumber") = true -> truthy (b !! "title") = true ->
  (forall k w, s !! k = Some w -> startsWith "weeks:" k = true ->
               w !! "id" <> Some (JStr (new_weekId ck))) ->
  s !! weekKey sid (new_weekId ck) = None ->
  admin_gate getUser req' s = Granted uid ->
  param req' = new_weekId ck ->
  deleteWeek scan getUser req' (createWeek getUser ck req s).2
  = (ok [("success", JBool true)], s).
Proof.
  intros Hg Hp Hsid Hne Hnum Htitle Hfresh Hkey Hg' Hpar.
  rewrite (createWeek_ok getUser ck req s uid b Hg Hp);
    [| by rewrite Hsid; destruct sid | done..].
  rewrite Hsid. cbn [snd template toStr].
  set (w := new_week (new_weekId ck) ck b).
  assert (deleteWeek scan getUser req' (<[weekKey sid (new_weekId ck) := w]> s)
          = (ok [("success", JBool true)],
             delete (weekKey sid (param req')) (<[weekKey sid (new_weekId ck) := w]> s))) as ->.
  { apply (deleteWeek_found req' _ uid sid w).
    - rewrite admin_gate_insert_week; [done | apply startsWith_weeks].
    - rewrite Hpar. apply lookup_insert_eq.
    - rewrite Hpar. apply new_week_id.
    - unfold w. rewrite (new_week_subjectId _ _ _ (JStr sid)); [done..|].
      by destruct sid.
    - rewrite Hpar. intros k w' Hk Hpk Hid.
      apply lookup_insert_Some in Hk as [[<- _] | [_ Hk]]; [done|].
      by destruct (Hfresh k w' Hk Hpk). }
  rewrite Hpar. by rewrite delete_insert_id.
Qed.

(** X11: PUT /admin/weeks/:id is idempotent for a body that names neither
    id nor subjectId: sending the same update a second time writes the same
    record under the same key, so the store does not change again. *)
Theorem updateWeek_idempotent req (s : store) uid sid w updates :
  admin_gate getUser req s = Granted uid ->
  payload req = JObj updates ->
  updates !! "id" = None -> updates !! "subjectId" = None ->
  s !! weekKey sid (param req) = Some w ->
  w !! "id" = Some (JStr (param req)) ->
  template (w !! "subjectId") = sid ->
  sole_week_with_id s (param req) (weekKey sid (param req)) ->
  let s1 := (updateWeek scan getUser req s).2 in
  s1 = <[weekKey sid (param req) := merge w updates]> s
  /\ updateWeek scan getUser req s1
     = (ok [("success", JBool true); ("week", JObj (merge w updates))], s1).
Proof.
  intros Hg Hp Hnid Hnsid Hk Hid Hsid Hsole s1. subst s1.
  assert (forall s0 w0, admin_gate getUser req s0 = Granted uid ->
            s0 !! weekKey sid (param req) = Some w0 ->
            w0 !! "id" = Some (JStr (param req)) -> template (w0 !! "subjectId") = sid ->
            sole_week_with_id s0 (param req) (weekKey sid (param req)) ->
            updateWeek scan getUser req s0
            = (ok [("success", JBool true); ("week", JObj (merge w0 updates))],
               <[weekKey sid (param req) := merge w0 updates]> s0)) as Hstep.
  { intros s0 w0 Hg0 Hk0 Hid0 Hsid0 Hsole0.
    rewrite (updateWeek_found scan getUser req s0 uid w0 Hg0).
    - by rewrite Hp, Hsid0.
    - apply (find_week_sole scan scan_perm s0 (param req) (weekKey sid (param req)));
        [done | apply startsWith_weeks | done..]. }
  rewrite (Hstep s w) by done. cbn [snd]. split; [done|].
  rewrite (Hstep _ (merge w updates)).
  - assert (merge (merge w updates) updates = merge w updates) as ->.
    { apply map_eq. intros f. rewrite !merge_lookup. by destruct (updates !! f). }
    by rewrite insert_insert_eq.
  - rewrite admin_gate_insert_week; [done | apply startsWith_weeks].
  - apply lookup_insert_eq.
  - by rewrite merge_lookup, Hnid.
  - by rewrite merge_lookup, Hnsid.
  - by apply sole_week_insert.
Qed.

End Registry.

(** ** Progress: the server routes and the student dashboard *)

Lemma progress_other uid uid' w :
  colon_free uid = true -> colon_free uid' = true -> uid' <> uid ->
  startsWith (progressPrefix uid') (progressKey uid w) = false.
Proof.
  intros Hc Hc' Hne. destruct (startsWith _ _) eqn:E; [|done].
  unfold progressPrefix, progressKey in E. rewrite startsWith_app_l in E.
  apply colon_prefix_inj in E; done.
Qed.

Lemma omap_objects (l : list obj) :
  omap (fun p => match p with JObj o => Some o | _ => None end) (JObj <$> l) = l.
Proof. induction l as [|x l IH]; csimpl; [done|]. by f_equal. Qed.

Section ProgressProps.
Context (scan : store -> list (string * obj)) (getUser : string -> option string).
Hypothesis scan_perm : forall s, scan s ≡ₚ map_to_list s.

Lemma authenticate_header h p b p' b' :
  authenticate getUser (Request h p b) = authenticate getUser (Request h p' b').
Proof. reflexivity. Qed.

(** X12: POST /progress writes one key of the caller and nothing else: the
    progress lists of all other users, the subjects, the weeks and every user
    profile are as before, whatever the body is. *)
Theorem recordProgress_frame ck req (s : store) uid :
  authenticate getUser req = Some uid -> colon_free uid = true ->
  let s' := (recordProgress getUser ck req s).2 in
  (forall uid', colon_free uid' = true -> uid' <> uid ->
     listProgress scan uid' s' ≡ₚ listProgress scan uid' s)
  /\ listSubjects scan s' ≡ₚ listSubjects scan s
  /\ kv_getByPrefix scan "weeks:" s' ≡ₚ kv_getByPrefix scan "weeks:" s
  /\ (forall u, s' !! ("users:" +:+ u) = s !! ("users:" +:+ u)).
Proof.
  intros Ha Hc s'. subst s'. unfold recordProgress. rewrite Ha.
  destruct (destructure (payload req)) as [b|]; [|done].
  cbn [snd]. unfold kv_set, listProgress, listSubjects.
  split; [|split; [|split]].
  - intros uid' Hc' Hne. apply (getByPrefix_insert_other scan scan_perm).
    by apply progress_other.
  - by apply (getByPrefix_insert_other scan scan_perm).
  - by apply (getByPrefix_insert_other scan scan_perm).
  - intros u. by rewrite lookup_insert_ne.
Qed.

(** X13: without a token that the identity provider knows, the progress
    routes and GET /user answer 401 and the store stays as it is. *)
Theorem identity_required ck req (s : store) :
  (forall tok, accessToken req = Some tok -> tok = EmptyString \/ getUser tok = None) ->
  recordProgress getUser ck req s = (error 401 "Unauthorized", s)
  /\ getProgress scan getUser req s = (error 401 "Unauthorized", s)
  /\ Accounts.getUserProfile getUser req s = (error 401 "Unauthorized", s).
Proof.
  intros H. apply authenticate_None in H.
  unfold recordProgress, getProgress, Accounts.getUserProfile. by rewrite H.
Qed.

Import Dashboard.

Lemma loadProgress_list tok uid (s : store) :
  authenticate getUser (loadProgress_request tok) = Some uid ->
  loadProgress scan getUser tok s = listProgress scan uid s.
Proof.
  intros Ha. unfold loadProgress, getProgress. rewrite Ha. cbn [fst body ok].
  unfold progress_of.
  assert (forall v : json, (list_to_map [("progress", v)] : obj) !! "progress" = Some v) as ->
    by (intros v; apply lookup_insert_eq).
  cbn [or_default truthy]. apply omap_objects.
Qed.

Lemma saveProgress_store ck tok uid w c (s : store) :
  authenticate getUser (loadProgress_request tok) = Some uid ->
  saveProgress scan getUser ck tok w c s
  = (listProgress scan uid (<[progressKey uid w := progress_record uid w c (iso_now ck)]> s),
     <[progressKey uid w := progress_record uid w c (iso_now ck)]> s).
Proof.
  intros Ha. unfold saveProgress.
  rewrite (recordProgress_once getUser ck _ s uid
             (list_to_map [("weekId", JStr w); ("completed", JBool c)]) w c);
    [| done | done | by simplify_map_eq..].
  cbn [snd]. by rewrite (loadProgress_list tok uid).
Qed.

Lemma isWeekStarted_elem progressData w p :
  p ∈ progressData -> p !! "weekId" = Some (JStr w) ->
  isWeekStarted progressData w = true.
Proof.
  intros Hin Hw. apply existsb_exists. exists p. split; [by apply list_elem_of_In|].
  unfold strict_eq_str. rewrite Hw. apply String.eqb_refl.
Qed.

Lemma isWeekCompleted_elem progressData w p :
  p ∈ progressData -> p !! "weekId" = Some (JStr w) -> truthy (p !! "completed") = true ->
  isWeekCompleted progressData w = true.
Proof.
  intros Hin Hw Hc. apply existsb_exists. exists p. split; [by apply list_elem_of_In|].
  unfold strict_eq_str. rewrite Hw, Hc. by rewrite String.eqb_refl.
Qed.

Lemma isWeekCompleted_started progressData w :
  isWeekCompleted progressData w = true -> isWeekStarted progressData w = true.
Proof.
  unfold isWeekCompleted, isWeekStarted. rewrite !existsb_exists.
  intros (p & Hin & H). apply andb_true_iff in H as [H _]. eauto.
Qed.

(** X14: no card is ever locked. [getWeekStatus] never answers [locked], so
    a click on a week always selects it; the status is [completed] exactly for
    a completed week, and [current] only for a started one. *)
Theorem getWeekStatus_never_locked progressData weeks week index :
  getWeekStatus progressData weeks week index <> locked
  /\ (getWeekStatus progressData weeks week index = completed
      <-> isWeekCompleted progressData (id week) = true)
  /\ (getWeekStatus progressData weeks week index = current ->
      isWeekStarted progressData (id week) = true)
  /\ exists call, onClick progressData weeks week index = Some (week, call).
Proof.
  assert (getWeekStatus progressData weeks week index <> locked) as Hl.
  { unfold getWeekStatus.
    repeat (match goal with |- context [if ?b then _ else _] => destruct b end
            || match goal with |- context [match ?o with Some _ => _ | None => _ end] =>
                 destruct o end); done. }
  split; [done|]. split; [|split].
  - unfold getWeekStatus. destruct (isWeekCompleted progressData (id week)); [done|].
    split; [|done].
    repeat (match goal with |- context [if ?b then _ else _] => destruct b end
            || match goal with |- context [match ?o with Some _ => _ | None => _ end] =>
                 destruct o end); done.
  - unfold getWeekStatus. destruct (isWeekStarted progressData (id week)); [done|].
    repeat (match goal with |- context [if ?b then _ else _] => destruct b end
            || match goal with |- context [match ?o with Some _ => _ | None => _ end] =>
                 destruct o end); done.
  - unfold onClick. destruct (getWeekStatus progressData weeks week index); [..|done|]; eauto.
Qed.

(** X15: submitting the quiz of the selected week completes it: the server
    stores the record with [completed = true], and with the progress list
    reloaded the week counts as completed and its card shows [completed]. *)
Theorem handleSubmitQuiz_completes ck tok uid (s : store) week weeks index w c :
  authenticate getUser (loadProgress_request tok) = Some uid ->
  handleSubmitQuiz (Some week) = Some (w, c) ->
  let r := saveProgress scan getUser ck tok w c s in
  r.2 !! progressKey uid (id week) = Some (progress_record uid (id week) true (iso_now ck))
  /\ isWeekCompleted r.1 (id week) = true
  /\ getWeekStatus r.1 weeks week index = completed.
Proof.
  intros Ha Hc r. subst r. injection Hc as <- <-.
  rewrite (saveProgress_store ck tok uid) by done. cbn [fst snd].
  split; [apply lookup_insert_eq|].
  assert (isWeekCompleted
            (listProgress scan uid
               (<[progressKey uid (id week)
                  := progress_record uid (id week) true (iso_now ck)]> s)) (id week) = true) as H.
  { apply isWeekCompleted_elem with (p := progress_record uid (id week) true (iso_now ck)).
    - apply (elem_of_getByPrefix scan scan_perm). exists (progressKey uid (id week)).
      split; [apply lookup_insert_eq | apply startsWith_progress].
    - unfold progress_record. by simplify_map_eq.
    - unfold progress_record. by simplify_map_eq. }
  split; [done|]. unfold getWeekStatus. by rewrite H.
Qed.

(** X16: a week that was saved once, as opened or as completed, is opened
    again without a request: with the progress list reloaded after the save,
    the click selects the week and calls [saveProgress] no more, so viewing
    never takes a completion back. *)
Theorem onClick_after_save ck tok uid (s : store) week weeks index c :
  authenticate getUser (loadProgress_request tok) = Some uid ->
  let r := saveProgress scan getUser ck tok (id week) c s in
  onClick r.1 weeks week index = Some (week, None).
Proof.
  intros Ha r. subst r. rewrite (saveProgress_store ck tok uid) by done. cbn [fst].
  set (pd := listProgress scan uid _).
  assert (isWeekStarted pd (id week) = true) as Hs.
  { apply isWeekStarted_elem with (p := progress_record uid (id week) c (iso_now ck)).
    - apply (elem_of_getByPrefix scan scan_perm). exists (progressKey uid (id week)).
      split; [apply lookup_insert_eq | apply startsWith_progress].
    - unfold progress_record. by simplify_map_eq. }
  unfold onClick. rewrite Hs. cbn [negb].
  by destruct (getWeekStatus pd weeks week index) eqn:E;
    [..| unfold getWeekStatus in E;
         repeat (match type of E with context [if ?b then _ else _] => destruct b end
            || match type of E with context [match ?o with Some _ => _ | None => _ end] =>
                 destruct o end) |].
Qed.

(** X17: the click relies on the progress list the dashboard holds. When
    that list does not show the week (not loaded yet, or the load failed), a
    click on a week that the server has as completed sends
    [completed = false], and the stored record is overwritten: after the
    reload the week counts as started and no longer as completed. *)
Theorem onClick_stale_progress ck tok uid (s : store) progressData week weeks index t0 :
  authenticate getUser (loadProgress_request tok) = Some uid ->
  isWeekStarted progressData (id week) = false ->
  s !! progressKey uid (id week) = Some (progress_record uid (id week) true t0) ->
  (forall k p, s !! k = Some p -> startsWith (progressPrefix uid) k = true ->
               p !! "weekId" = Some (JStr (id week)) -> k = progressKey uid (id week)) ->
  onClick progressData weeks week index = Some (week, Some (id week, false))
  /\ let r := saveProgress scan getUser ck tok (id week) false s in
     r.2 !! progressKey uid (id week) = Some (progress_record uid (id week) false (iso_now ck))
     /\ isWeekStarted r.1 (id week) = true
     /\ isWeekCompleted r.1 (id week) = false.
Proof.
  intros Ha Hs Hk Hsole. split.
  - unfold onClick. rewrite Hs. cbn [negb].
    destruct (getWeekStatus progressData weeks week index) eqn:E; try done.
    unfold getWeekStatus in E.
    repeat (match type of E with context [if ?b then _ else _] => destruct b end
            || match type of E with context [match ?o with Some _ => _ | None => _ end] =>
                 destruct o end); done.
  - intros r. subst r. rewrite (saveProgress_store ck tok uid) by done. cbn [fst snd].
    split; [apply lookup_insert_eq|]. split.
    + apply isWeekStarted_elem with (p := progress_record uid (id week) false (iso_now ck)).
      * apply (elem_of_getByPrefix scan scan_perm). exists (progressKey uid (id week)).
        split; [apply lookup_insert_eq | apply startsWith_progress].
      * unfold progress_record. by simplify_map_eq.
    + apply not_true_is_false. intros H. apply existsb_exists in H as (p & Hin & H).
      apply andb_true_iff in H as [Hw Hc]. apply list_elem_of_In in Hin.
      apply (elem_of_getByPrefix scan scan_perm) in Hin as (k & Hp & Hpre).
      assert (p !! "weekId" = Some (JStr (id week))) as Hw'.
      { unfold strict_eq_str in Hw. destruct (p !! "weekId") as [[| | |x| |]|]; try done.
        by apply String.eqb_eq in Hw as ->. }
      apply lookup_insert_Some in Hp as [[_ <-] | [Hne Hp]].
      * unfold progress_record in Hc. by simplify_map_eq.
      * destruct Hne. symmetry. by apply (Hsole k p).
Qed.

End ProgressProps.

(** ** The dashboards sort the listing again *)

Section Resort.
Context {A : Type} (key : A -> Z).

Lemma insert_by_least x l :
  Forall (fun y => key x <= key y) l -> insert_by (by_key key) x l = x :: l.
Proof.
  destruct 1 as [|y l Hy Hl]; simpl; [done|].
  unfold by_key. by destruct (Z.ltb_spec 0 (key x - key y)); [lia|].
Qed.

Lemma sort_by_sorted_id l :
  StronglySorted (fun a b => key a <= key b) l -> sort_by (by_key key) l = l.
Proof.
  induction 1 as [|x l Hl IH Hx]; [done|].
  change (sort_by (by_key key) (x :: l)) with (insert_by (by_key key) x (sort_by (by_key key) l)).
  rewrite IH. by apply insert_by_least.
Qed.

Lemma StronglySorted_filter (R : A -> A -> Prop) (f : A -> bool) l :
  StronglySorted R l -> StronglySorted R (List.filter f l).
Proof.
  induction 1 as [|x l Hl IH Hx]; simpl; [constructor|].
  destruct (f x); [|done]. constructor; [done|].
  rewrite Forall_forall in *. intros y Hy. apply Hx.
  apply list_elem_of_In, filter_In in Hy as [Hy _]. by apply list_elem_of_In.
Qed.

End Resort.

Section Dashboards.
Context (scan : store -> list (string * obj)) (str_to_num : string -> option Z).

(** X18: the second sort of the dashboards changes nothing. On the list that
    GET /weeks/:subjectId returns (week numbers being numbers), [loadWeeks] of
    the admin dashboard gives back the list, and [loadWeeks] of the student
    dashboard gives its published weeks in the order of the server. *)
Theorem loadWeeks_keeps_order (subjectId : string) (s : store) :
  (forall w, w ∈ kv_getByPrefix scan (weekPrefix subjectId) s ->
             is_Some (toNumber str_to_num (w !! "weekNumber"))) ->
  let weeks := listWeeksForSubject scan str_to_num subjectId s in
  Admin.loadWeeks str_to_num weeks = weeks
  /\ Student.loadWeeks str_to_num weeks
     = List.filter (fun w => truthy (w !! "published")) weeks.
Proof.
  intros Hnum weeks.
  assert (forall w, w ∈ weeks -> is_Some (toNumber str_to_num (w !! "weekNumber"))) as Hnum'.
  { intros w Hw. apply Hnum. by apply elem_of_sort_by in Hw. }
  assert (StronglySorted (fun a b => weekNumberOf str_to_num a <= weekNumberOf str_to_num b)
            weeks) as Hsorted.
  { subst weeks. unfold listWeeksForSubject.
    rewrite (sort_by_ext _ _ _ (after_key str_to_num _ Hnum)). apply sort_by_sorted. }
  split.
  - unfold Admin.loadWeeks.
    rewrite (sort_by_ext _ _ _ (after_key str_to_num _ Hnum')).
    by apply sort_by_sorted_id.
  - unfold Student.loadWeeks. rewrite (sort_by_ext _ (by_key (weekNumberOf str_to_num))).
    + by apply sort_by_sorted_id, StronglySorted_filter.
    + intros a b Ha Hb. apply (after_key str_to_num weeks Hnum').
      * apply list_elem_of_In, filter_In in Ha as [Ha _]. by apply list_elem_of_In.
      * apply list_elem_of_In, filter_In in Hb as [Hb _]. by apply list_elem_of_In.
Qed.

End Dashboards.

(** ** Google Drive links *)

Section Drive.
Import RegExp Student Content.

Lemma list_ascii_of_string_app a b :
  list_ascii_of_string (a +:+ b) = list_ascii_of_string a ++ list_ascii_of_string b.
Proof. induction a as [|c a IH]; simpl; [done|]. by rewrite <- IH. Qed.

Lemma string_of_list_ascii_app l1 l2 :
  string_of_list_ascii (l1 ++ l2) = string_of_list_ascii l1 +:+ string_of_list_ascii l2.
Proof. induction l1 as [|c l1 IH]; simpl; [done|]. by rewrite IH. Qed.

Lemma run_of_split p s : s = run_of p s ++ drop (length (run_of p s)) s.
Proof.
  induction s as [|a s IH]; simpl; [done|]. destruct (p a); simpl; [|done]. by rewrite <- IH.
Qed.

Lemma run_of_all p s : forallb p (run_of p s) = true.
Proof. induction s as [|a s IH]; simpl; [done|]. destruct (p a) eqn:E; simpl; by rewrite ?E. Qed.

Lemma run_of_stops p s :
  match drop (length (run_of p s)) s with a :: _ => p a = false | [] => True end.
Proof. induction s as [|a s IH]; simpl; [done|]. by destruct (p a) eqn:E; simpl. Qed.

Lemma run_of_app p l rest :
  forallb p l = true -> match rest with a :: _ => p a = false | [] => True end ->
  run_of p (l ++ rest) = l.
Proof.
  intros Hl Hr. induction l as [|a l IH]; simpl in *.
  - destruct rest as [|a rest]; [done|]. simpl. by rewrite Hr.
  - apply andb_true_iff in Hl as [-> Hl]. by rewrite IH.
Qed.

(** One or more characters of a class, captured as group [n], at the end of
    a pattern. *)
Lemma run_group_plus n p pos s c :
  run (Group n (plus (Cls p))) pos s c accept
  = match s with
    | a :: rest => if p a then Some (<[n := a :: run_of p rest]> c) else None
    | [] => None
    end.
Proof.
  unfold plus. rewrite run_Group, run_Seq. cbn [run]. destruct s as [|a rest]; [done|].
  destruct (p a); [|done].
  change ((fix loop (fuel pos0 : nat) (s0 : list ascii) (c0 : captures) {struct fuel} := _)
            (length rest) (S pos) rest c)
    with (run (Star (Cls p)) (S pos) rest c
            (fun pos' s' c' => accept pos' s' (<[n := take (pos' - pos) (a :: rest)]> c'))).
  rewrite run_Star_Cls, star_cls_total by done. unfold accept. do 2 f_equal.
  replace (S pos + length (run_of p rest) - pos)%nat with (S (length (run_of p rest))) by lia.
  cbn [take]. by rewrite take_run_of.
Qed.

(** A pattern made of a sequence of classes and then the id group. *)
Lemma run_id r ps pos s :
  classes_of r = Some ps ->
  run (Seq r (Group 1 (plus (Cls is_id)))) pos s ∅ accept
  = match match_prefix ps s with
    | Some (a :: rest) => if is_id a then Some (<[1%nat := a :: run_of is_id rest]> ∅) else None
    | _ => None
    end.
Proof.
  intros Hps. rewrite run_Seq, (run_classes r ps) by done.
  destruct (match_prefix ps s) as [rest|]; [|done]. by rewrite run_group_plus.
Qed.

Lemma match_prefix_split ps s rest :
  match_prefix ps s = Some rest ->
  exists mid, s = mid ++ rest /\ Forall2 (fun p a => p a = true) ps mid.
Proof.
  revert s. induction ps as [|p ps IH]; intros s H; simpl in H.
  - injection H as <-. by exists [].
  - destruct s as [|a s]; [done|]. destruct (p a) eqn:E; [|done].
    destruct (IH s H) as (mid & -> & HF). exists (a :: mid). split; [done|]. by constructor.
Qed.

Lemma search_sound r ps :
  classes_of r = Some ps ->
  forall s pos m, search (Seq r (Group 1 (plus (Cls is_id)))) pos s = Some m ->
    exists pre mid a rest,
      s = pre ++ mid ++ a :: rest /\ Forall2 (fun p a => p a = true) ps mid
      /\ is_id a = true /\ m = <[1%nat := a :: run_of is_id rest]> ∅.
Proof.
  intros Hps. induction s as [|b s IH]; intros pos m H; cbn [search] in H;
    rewrite (run_id r ps) in H by done.
  - destruct (match_prefix ps []) as [[|a rest]|] eqn:E; try done.
    destruct (is_id a) eqn:Ea; [|done]. injection H as <-.
    apply match_prefix_split in E as (mid & Hs & HF). by exists [], mid, a, rest.
  - destruct (match_prefix ps (b :: s)) as [[|a rest]|] eqn:E.
    + destruct (IH _ _ H) as (pre & mid & a & rest & -> & HF & Ha & ->).
      by exists (b :: pre), mid, a, rest.
    + destruct (is_id a) eqn:Ea.
      * injection H as <-. apply match_prefix_split in E as (mid & Hs & HF).
        by exists [], mid, a, rest.
      * destruct (IH _ _ H) as (pre & mid & a' & rest' & -> & HF & Ha & ->).
        by exists (b :: pre), mid, a', rest'.
    + destruct (IH _ _ H) as (pre & mid & a & rest & -> & HF & Ha & ->).
      by exists (b :: pre), mid, a, rest.
Qed.

(** The search passes a prefix in which no position starts a match. *)
Lemma search_skip r pre s :
  forall pos,
    (forall j, (j < length pre)%nat ->
               run r (pos + j) (drop j (pre ++ s)) ∅ accept = None) ->
    search r pos (pre ++ s) = search r (pos + length pre) s.
Proof.
  induction pre as [|b pre IH]; intros pos H.
  - simpl. by rewrite Nat.add_0_r.
  - assert (run r pos ((b :: pre) ++ s) ∅ accept = None) as H0.
    { specialize (H O). rewrite Nat.add_0_r in H. apply H. simpl. lia. }
    change (search r pos ((b :: pre) ++ s))
      with (match run r pos ((b :: pre) ++ s) ∅ accept with
            | Some c => Some c
            | None => search r (S pos) (pre ++ s)
            end).
    rewrite H0, IH.
    + f_equal. simpl. lia.
    + intros j Hj. specialize (H (S j)). rewrite Nat.add_succ_r in H. apply H. simpl. lia.
Qed.

Lemma search_None r s :
  forall pos,
    (forall j, (j <= length s)%nat -> run r (pos + j) (drop j s) ∅ accept = None) ->
    search r pos s = None.
Proof.
  induction s as [|b s IH]; intros pos H.
  - cbn [search]. assert (run r pos [] ∅ accept = None) as ->; [|done].
    specialize (H O). rewrite Nat.add_0_r in H. apply H. simpl. lia.
  - cbn [search]. assert (run r pos (b :: s) ∅ accept = None) as ->.
    { specialize (H O). rewrite Nat.add_0_r in H. apply H. simpl. lia. }
    apply IH. intros j Hj. specialize (H (S j)). rewrite Nat.add_succ_r in H.
    apply H. simpl. lia.
Qed.

(** Occurrences of a literal, on strings and on lists of code units. *)
Lemma match_prefix_chars p s :
  startsWith p s = false -> match_prefix (chars p) (list_ascii_of_string s) = None.
Proof.
  revert s. induction p as [|a p IH]; intros s H; [done|].
  destruct s as [|b s]; [done|]. cbn [startsWith] in H. unfold chars. simpl.
  destruct (Ascii.eqb a b); [|done]. by apply IH.
Qed.

Lemma includes_drop p s j :
  includes p s = false ->
  match_prefix (chars p) (drop j (list_ascii_of_string s)) = None.
Proof.
  revert j. induction s as [|b s IH]; intros j H.
  - cbn [includes] in H. apply orb_false_iff in H as [H _].
    change (list_ascii_of_string EmptyString) with (@nil ascii). rewrite drop_nil.
    by apply (match_prefix_chars p EmptyString).
  - cbn [includes] in H. apply orb_false_iff in H as [H1 H2].
    destruct j as [|j]; [by apply (match_prefix_chars p (String b s))|]. by apply IH.
Qed.

Lemma match_prefix_None_app ps x y :
  match_prefix ps x = None -> (length ps <= length x)%nat -> match_prefix ps (x ++ y) = None.
Proof.
  revert x. induction ps as [|p ps IH]; intros x H Hl; [done|].
  destruct x as [|a x]; [simpl in Hl; lia|]. simpl in *.
  destruct (p a); [|done]. apply IH; [done | lia].
Qed.

Lemma length_chars p : length (chars p) = String.length p.
Proof.
  unfold chars. rewrite length_fmap. induction p as [|a p IH]; simpl; by rewrite ?IH.
Qed.

Lemma length_list_ascii s : length (list_ascii_of_string s) = String.length s.
Proof. induction s as [|a s IH]; simpl; by rewrite ?IH. Qed.

(** No occurrence of [p] in [x +:+ q], with [q] one code unit shorter than
    [p]: in [x +:+ q +:+ y] no occurrence of [p] starts within [x]. *)
Lemma no_early_occurrence p x q y j :
  includes p (x +:+ q) = false -> (S (String.length q) = String.length p)%nat ->
  (j < String.length x)%nat ->
  match_prefix (chars p) (drop j (list_ascii_of_string (x +:+ q) ++ y)) = None.
Proof.
  intros H Hq Hj. rewrite drop_app_le.
  - apply match_prefix_None_app; [by apply includes_drop|].
    rewrite length_drop, length_chars, list_ascii_of_string_app, length_app, !length_list_ascii.
    lia.
  - rewrite list_ascii_of_string_app, length_app, !length_list_ascii. lia.
Qed.

Lemma forallb_nonempty_id i :
  i <> EmptyString -> forallb is_id (list_ascii_of_string i) = true ->
  exists a l, list_ascii_of_string i = a :: l /\ is_id a = true /\ forallb is_id l = true.
Proof.
  intros Hne H. destruct i as [|a i]; [done|]. simpl in H.
  apply andb_true_iff in H as [Ha Hl]. by exists a, (list_ascii_of_string i).
Qed.

Lemma group_1 l : group 1 (<[1%nat := l]> ∅) = Some (string_of_list_ascii l).
Proof. unfold group. by rewrite lookup_insert_eq. Qed.

Lemma no_id_ahead_list rest :
  no_id_ahead rest ->
  match list_ascii_of_string rest with a :: _ => is_id a = false | [] => True end.
Proof. by destruct rest. Qed.

Lemma list_no_id_ahead l :
  match l with a :: _ => is_id a = false | [] => True end ->
  no_id_ahead (string_of_list_ascii l).
Proof. by destruct l. Qed.

Lemma classes_by_path : classes_of (lit "/d/") = Some (chars "/d/").
Proof. reflexivity. Qed.

Lemma classes_by_query :
  classes_of (Seq (Cls is_query_mark) (lit "id=")) = Some (is_query_mark :: chars "id=").
Proof. reflexivity. Qed.

(** What a match of one of the two patterns says about the url. *)
Lemma exec_sound r ps url m i :
  classes_of r = Some ps ->
  exec (Seq r (Group 1 (plus (Cls is_id)))) url = Some m -> group 1 m = Some i ->
  i <> EmptyString /\ forallb is_id (list_ascii_of_string i) = true
  /\ exists pre mid rest,
       url = pre +:+ string_of_list_ascii mid +:+ i +:+ rest
       /\ Forall2 (fun p a => p a = true) ps mid /\ no_id_ahead rest.
Proof.
  intros Hps Hm Hi. unfold exec in Hm.
  apply (search_sound r ps Hps) in Hm as (pre & mid & a & rest & Hs & HF & Ha & ->).
  rewrite group_1 in Hi.
  assert (i = string_of_list_ascii (a :: run_of is_id rest)) as -> by congruence.
  clear Hi. split; [done|]. split.
  - rewrite list_ascii_of_string_of_list_ascii. simpl. by rewrite Ha, run_of_all.
  - exists (string_of_list_ascii pre), mid,
      (string_of_list_ascii (drop (length (run_of is_id rest)) rest)).
    split; [|split; [done|]].
    + rewrite <- (string_of_list_ascii_of_string url), Hs.
      rewrite !string_of_list_ascii_app. do 2 f_equal.
      rewrite <- string_of_list_ascii_app. f_equal.
      rewrite <- app_comm_cons. f_equal. apply run_of_split.
    + apply list_no_id_ahead, run_of_stops.
Qed.

(** X19: an id that [extractGoogleDriveId] returns stands in the url, right
    after [/d/], [?id=] or [&id=]; it is not empty, consists of letters,
    digits, [_] and [-], and is not followed by one more such character. *)
Theorem extractGoogleDriveId_sound url i :
  extractGoogleDriveId url = Some i ->
  i <> EmptyString /\ forallb is_id (list_ascii_of_string i) = true
  /\ exists pre sep rest,
       url = pre +:+ sep +:+ i +:+ rest
       /\ sep ∈ ["/d/"; "?id="; "&id="] /\ no_id_ahead rest.
Proof.
  unfold extractGoogleDriveId. intros H.
  destruct (exec by_path url) as [m|] eqn:E1.
  - destruct (exec_sound _ _ _ _ _ classes_by_path E1 H)
      as (Hne & Hall & pre & mid & rest & Hurl & HF & Hrest).
    split; [done|]. split; [done|]. exists pre, "/d/", rest. split; [|split; [|done]].
    + rewrite Hurl. do 2 f_equal.
      apply Forall2_cons_inv_l in HF as (a1 & mid1 & H1 & HF & ->).
      apply Forall2_cons_inv_l in HF as (a2 & mid2 & H2 & HF & ->).
      apply Forall2_cons_inv_l in HF as (a3 & mid3 & H3 & HF & ->).
      apply Forall2_nil_inv_l in HF as ->.
      apply Ascii.eqb_eq in H1 as <-, H2 as <-, H3 as <-. reflexivity.
    + apply list_elem_of_here.
  - destruct (exec by_query url) as [m|] eqn:E2; [|done].
    destruct (exec_sound _ _ _ _ _ classes_by_query E2 H)
      as (Hne & Hall & pre & mid & rest & Hurl & HF & Hrest).
    split; [done|]. split; [done|].
    apply Forall2_cons_inv_l in HF as (a0 & mid0 & H0 & HF & ->).
    apply Forall2_cons_inv_l in HF as (a1 & mid1 & H1 & HF & ->).
    apply Forall2_cons_inv_l in HF as (a2 & mid2 & H2 & HF & ->).
    apply Forall2_cons_inv_l in HF as (a3 & mid3 & H3 & HF & ->).
    apply Forall2_nil_inv_l in HF as ->.
    apply Ascii.eqb_eq in H1 as <-, H2 as <-, H3 as <-.
    unfold is_query_mark in H0. apply orb_true_iff in H0 as [H0 | H0];
      apply Ascii.eqb_eq in H0 as ->.
    + exists pre, "?id=", rest. split; [exact Hurl|]. split; [|done].
      apply list_elem_of_further, list_elem_of_here.
    + exists pre, "&id=", rest. split; [exact Hurl|]. split; [|done].
      do 2 apply list_elem_of_further. apply list_elem_of_here.
Qed.

(** The id found where the pattern matches. *)
Lemma run_id_here r ps pos sep i rest :
  classes_of r = Some ps ->
  match_prefix ps (list_ascii_of_string (sep +:+ i +:+ rest))
  = Some (list_ascii_of_string (i +:+ rest)) ->
  i <> EmptyString -> forallb is_id (list_ascii_of_string i) = true -> no_id_ahead rest ->
  run (Seq r (Group 1 (plus (Cls is_id)))) pos
      (list_ascii_of_string (sep +:+ i +:+ rest)) ∅ accept
  = Some (<[1%nat := list_ascii_of_string i]> ∅).
Proof.
  intros Hps Hsep Hne Hall Hrest. rewrite (run_id r ps) by done. rewrite Hsep.
  rewrite list_ascii_of_string_app.
  destruct (forallb_nonempty_id i Hne Hall) as (a & l & -> & Ha & Hl).
  cbn [app]. rewrite Ha. do 3 f_equal. apply run_of_app; [done|].
  by apply no_id_ahead_list.
Qed.

Lemma search_here r pos s m :
  run r pos s ∅ accept = Some m -> search r pos s = Some m.
Proof. intros H. destruct s; cbn [search]; by rewrite H. Qed.

(** X20: the path form wins. In a url whose first [/d/] is followed by an
    id, [extractGoogleDriveId] returns that id, up to the first character
    that is no letter, digit, [_] or [-], whatever [id=] parameters the url
    has. *)
Theorem extractGoogleDriveId_path pre i rest :
  includes "/d/" (pre +:+ "/d") = false ->
  i <> EmptyString -> forallb is_id (list_ascii_of_string i) = true -> no_id_ahead rest ->
  extractGoogleDriveId (pre +:+ "/d/" +:+ i +:+ rest) = Some i.
Proof.
  intros Hpre Hne Hall Hrest. unfold extractGoogleDriveId, exec.
  rewrite list_ascii_of_string_app.
  rewrite (search_skip by_path).
  - rewrite (search_here _ _ _ (<[1%nat := list_ascii_of_string i]> ∅)).
    + by rewrite group_1, string_of_list_ascii_of_string.
    + by apply (run_id_here _ _ _ "/d/" i rest classes_by_path).
  - intros j Hj. unfold by_path. rewrite (run_id _ _ _ _ classes_by_path).
    assert (list_ascii_of_string pre ++ list_ascii_of_string ("/d/" +:+ i +:+ rest)
            = list_ascii_of_string (pre +:+ "/d")
              ++ list_ascii_of_string ("/" +:+ i +:+ rest)) as ->.
    { rewrite (list_ascii_of_string_app pre "/d"), <- app_assoc. done. }
    rewrite (no_early_occurrence "/d/" pre "/d"); [done..|].
    by rewrite <- length_list_ascii.
Qed.

Lemma match_query_None L j :
  match_prefix (chars "id=") (drop (S j) L) = None ->
  match_prefix (is_query_mark :: chars "id=") (drop j L) = None.
Proof.
  intros H. destruct (L !! j) as [b|] eqn:E.
  - rewrite (drop_S L b j E). cbn [match_prefix]. by destruct (is_query_mark b).
  - apply lookup_ge_None in E. by rewrite drop_ge.
Qed.

Lemma by_path_None url : includes "/d/" url = false -> exec by_path url = None.
Proof.
  intros H. apply search_None. intros j _. unfold by_path.
  rewrite (run_id _ _ _ _ classes_by_path). by rewrite includes_drop.
Qed.

(** X21: the query form. In a url without [/d/], whose first [id=] stands
    after [?] or [&] and is followed by an id, [extractGoogleDriveId] returns
    that id. *)
Theorem extractGoogleDriveId_query pre q i rest :
  is_query_mark q = true ->
  includes "/d/" (pre +:+ String q ("id=" +:+ i +:+ rest)) = false ->
  includes "id=" (pre +:+ String q "id") = false ->
  i <> EmptyString -> forallb is_id (list_ascii_of_string i) = true -> no_id_ahead rest ->
  extractGoogleDriveId (pre +:+ String q ("id=" +:+ i +:+ rest)) = Some i.
Proof.
  intros Hq Hd Hpre Hne Hall Hrest. unfold extractGoogleDriveId.
  rewrite (by_path_None _ Hd). unfold exec.
  rewrite list_ascii_of_string_app, (search_skip by_query).
  - rewrite (search_here _ _ _ (<[1%nat := list_ascii_of_string i]> ∅)).
    + by rewrite group_1, string_of_list_ascii_of_string.
    + apply (run_id_here _ _ _ (String q "id=") i rest classes_by_query); [|done..].
      change (list_ascii_of_string (String q "id=" +:+ i +:+ rest))
        with (q :: "i"%char :: "d"%char :: "="%char :: list_ascii_of_string (i +:+ rest)).
      cbn [match_prefix]. by rewrite Hq.
  - intros j Hj. unfold by_query. rewrite (run_id _ _ _ _ classes_by_query).
    rewrite match_query_None; [done|].
    assert (list_ascii_of_string pre
              ++ list_ascii_of_string (String q ("id=" +:+ i +:+ rest))
            = list_ascii_of_string ((pre +:+ String q EmptyString) +:+ "id")
              ++ list_ascii_of_string ("=" +:+ i +:+ rest)) as ->.
    { rewrite (list_ascii_of_string_app _ "id"), (list_ascii_of_string_app pre), <- !app_assoc.
      reflexivity. }
    apply (no_early_occurrence "id=" (pre +:+ String q EmptyString) "id"); [|done|].
    + rewrite app_assoc_str. exact Hpre.
    + rewrite <- length_list_ascii, list_ascii_of_string_app, length_app in *.
      simpl. lia.
Qed.

(** X22: a url with neither [/d/] nor [id=] has no Drive id. *)
Theorem extractGoogleDriveId_none url :
  includes "/d/" url = false -> includes "id=" url = false ->
  extractGoogleDriveId url = None.
Proof.
  intros Hd Hq. unfold extractGoogleDriveId. rewrite (by_path_None _ Hd).
  assert (exec by_query url = None) as ->; [|done].
  apply search_None. intros j _. unfold by_query.
  rewrite (run_id _ _ _ _ classes_by_query).
  rewrite match_query_None; [done|]. by apply includes_drop.
Qed.

End Drive.

(** ** The week form of the admin dashboard *)

Section FormProps.
Import Admin Form.

Lemma or_blank_rows links : or_blank links <> [].
Proof. unfold or_blank. by destruct links. Qed.

Lemma or_blank_id links : links <> [] -> or_blank links = links.
Proof. unfold or_blank. by destruct links. Qed.

Lemma links_of_with_links type links f : links_of type (with_links type links f) = links.
Proof. by destruct type. Qed.

Lemma links_of_with_links_ne type type' links f :
  type' <> type -> links_of type' (with_links type links f) = links_of type' f.
Proof. by destruct type, type'. Qed.

Lemma link_type_cases (type type' : link_type) : type' = type \/ type' <> type.
Proof. destruct type, type'; (by left) || (by right). Qed.

Lemma with_links_id type f : with_links type (links_of type f) f = f.
Proof. by destruct f, type. Qed.

Lemma without_last {A} (l : list A) x : without (length l) (l ++ [x]) = l.
Proof. induction l as [|y l IH]; simpl; [done|]. by rewrite IH. Qed.

Lemma without_length {A} i (l : list A) :
  length (without i l) = if (i <? length l)%nat then pred (length l) else length l.
Proof.
  revert i. induction l as [|x l IH]; intros i; [by destruct i|].
  destruct i as [|i]; [done|]. cbn [without length]. rewrite IH.
  change (S i <? S (length l))%nat with (i <? length l)%nat.
  destruct (Nat.ltb_spec i (length l)); [|done]. destruct l; simpl in *; [lia | done].
Qed.

Lemma has_url_blank : has_url blank = false.
Proof. reflexivity. Qed.

Lemma filter_has_url_or_blank links :
  List.filter has_url (or_blank links) = List.filter has_url links.
Proof. unfold or_blank. by destruct links. Qed.

Lemma filter_app_blank links :
  List.filter has_url (links ++ [blank]) = List.filter has_url links.
Proof. rewrite List.filter_app. simpl. by rewrite app_nil_r. Qed.

(** X23: every link list of the week form keeps a row to type into: the
    form starts with one blank row per list, [editWeek] fills an empty list
    with the blank row, and adding or removing links or questions never
    leaves a list empty. *)
Theorem form_keeps_rows :
  (forall n, has_rows (resetWeekForm n))
  /\ (forall week f, editWeek week = Some f -> has_rows f)
  /\ (forall f, has_rows f ->
        (forall type, has_rows (addContentLink type f))
        /\ (forall type index, has_rows (removeContentLink type index f))
        /\ (forall type, has_rows (addQuestion type f))
        /\ (forall index, has_rows (removeQuestion index f))).
Proof.
  split; [|split].
  - intros n type. by destruct type.
  - intros week f H type. unfold editWeek in H.
    destruct (week_videoLinks week), (week_audioLinks week), (week_pdfLinks week); try done.
    injection H as <-. destruct type; apply or_blank_rows.
  - intros f Hf. split; [|split; [|split]].
    + intros type type'. unfold addContentLink.
      destruct (link_type_cases type type') as [-> | Hne].
      * rewrite links_of_with_links. by destruct (links_of type f).
      * by rewrite links_of_with_links_ne.
    + intros type index type'. unfold removeContentLink.
      destruct (link_type_cases type type') as [-> | Hne].
      * rewrite links_of_with_links. apply or_blank_rows.
      * by rewrite links_of_with_links_ne.
    + intros type type'. specialize (Hf type'). by destruct type'.
    + intros index type'. specialize (Hf type'). by destruct type'.
Qed.

Lemma weekData_links f f' sid :
  weekNumber f = weekNumber f' -> form_title f = form_title f' ->
  description f = description f' -> published f = published f' ->
  questions f = questions f' ->
  (forall type, List.filter has_url (links_of type f) = List.filter has_url (links_of type f')) ->
  weekData f sid = weekData f' sid.
Proof.
  intros H1 H2 H3 H4 H5 H6. unfold weekData.
  rewrite H1, H2, H3, H4, H5.
  pose proof (H6 VideoLinks) as Hv. pose proof (H6 AudioLinks) as Ha.
  pose proof (H6 PdfLinks) as Hp. cbn [links_of] in Hv, Ha, Hp.
  by rewrite Hv, Ha, Hp.
Qed.

(** X24: blank rows are not saved. The object [weekData] that
    [createOrUpdateWeek] sends is the same with and without added blank rows,
    and for a form filled by [editWeek] its link lists are the stored links
    with a non-blank url, the placeholder row left out. *)
Theorem blank_rows_not_saved :
  (forall type f sid, weekData (addContentLink type f) sid = weekData f sid)
  /\ (forall n type, List.filter has_url (links_of type (resetWeekForm n)) = [])
  /\ (forall week f v a p,
        editWeek week = Some f ->
        week_videoLinks week = Some v -> week_audioLinks week = Some a ->
        week_pdfLinks week = Some p ->
        List.filter has_url (videoLinks f) = List.filter has_url (normalizeContentLinks v)
        /\ List.filter has_url (audioLinks f) = List.filter has_url (normalizeContentLinks a)
        /\ List.filter has_url (pdfLinks f) = List.filter has_url (normalizeContentLinks p)).
Proof.
  split; [|split].
  - intros type f sid. apply weekData_links; try by destruct type.
    intros type'. unfold addContentLink.
    destruct (link_type_cases type type') as [-> | Hne].
    + rewrite links_of_with_links. apply filter_app_blank.
    + by rewrite links_of_with_links_ne.
  - intros n type. by destruct type.
  - intros week f v a p H Hv Ha Hp. unfold editWeek in H. rewrite Hv, Ha, Hp in H.
    injection H as <-. cbn [videoLinks audioLinks pdfLinks].
    by rewrite !filter_has_url_or_blank.
Qed.

(** X25: removing the row that was just added gives back the form, and
    adding or removing a row of one list leaves the other lists, the
    questions and the other fields as they are. *)
Theorem addContentLink_removeContentLink type (f : WeekForm) :
  links_of type f <> [] ->
  removeContentLink type (length (links_of type f)) (addContentLink type f) = f
  /\ (forall type' index, type' <> type ->
        links_of type' (addContentLink type f) = links_of type' f
        /\ links_of type' (removeContentLink type index f) = links_of type' f)
  /\ (forall index, questions (removeContentLink type index (addContentLink type f))
                    = questions f)
  /\ (forall index, (index < length (links_of type f))%nat ->
        (1 < length (links_of type f))%nat ->
        length (links_of type (removeContentLink type index f))
        = pred (length (links_of type f))).
Proof.
  intros Hrows. split; [|split; [|split]].
  - unfold removeContentLink, addContentLink.
    rewrite links_of_with_links.
    rewrite without_last, (or_blank_id _ Hrows). by destruct f, type.
  - intros type' index Hne. unfold addContentLink, removeContentLink.
    by rewrite !links_of_with_links_ne.
  - intros index. by destruct type.
  - intros index Hi Hl. unfold removeContentLink. rewrite links_of_with_links.
    rewrite or_blank_id.
    + rewrite without_length. by apply Nat.ltb_lt in Hi as ->.
    + intros E. apply (f_equal length) in E. rewrite without_length in E.
      apply Nat.ltb_lt in Hi as Hi'. rewrite Hi' in E. simpl in E. lia.
Qed.

Lemma nonempty_trim s : nonempty (trim s) = true -> nonempty s = true.
Proof. by destruct s. Qed.

Lemma filter_length_le {A} (f g : A -> bool) l :
  (forall x, f x = true -> g x = true) ->
  (length (List.filter f l) <= length (List.filter g l))%nat.
Proof.
  intros H. induction l as [|x l IH]; simpl; [done|].
  destruct (f x) eqn:E.
  - rewrite (H x E). simpl. lia.
  - destruct (g x); simpl; lia.
Qed.

Lemma filter_fmap_length {A B} (g : A -> B) (f : B -> bool) l :
  length (List.filter f (g <$> l)) = length (List.filter (fun x => f (g x)) l).
Proof.
  induction l as [|x l IH]; [done|]. cbn [fmap list_fmap List.filter].
  destruct (f (g x)); cbn [length]; by rewrite <- IH.
Qed.

Lemma counted_saved (l : list ContentItem) :
  length (List.filter counted (inr <$> List.filter has_url l))
  = length (List.filter has_url l).
Proof.
  induction l as [|i l IH]; [done|]. cbn [List.filter].
  destruct (has_url i) eqn:E; [|done].
  cbn [fmap list_fmap List.filter counted].
  unfold has_url in E. rewrite (nonempty_trim _ E). cbn [length]. by rewrite <- IH.
Qed.

(** X26: the counts on a week card. [getContentCount] counts the links with
    a non-empty url, so it counts every link that the form would save; for a
    link list that was saved from the form the count is its length; and the
    student's [getContentUrl] and [getContentTitle] read a stored link as
    [normalizeContentLinks] of the admin dashboard presents it. *)
Theorem getContentCount_counts_saved (week : Week) :
  (forall v, week_videoLinks week = Some v ->
     (length (List.filter has_url (normalizeContentLinks v)) <= videos (getContentCount week))%nat)
  /\ (forall l, week_videoLinks week = Some (inr <$> List.filter has_url l) ->
        videos (getContentCount week) = length (List.filter has_url l))
  /\ (week_videoLinks week = None -> videos (getContentCount week) = O)
  /\ (forall item defaultTitle,
        Content.getContentUrl item = url (default blank (head (normalizeContentLinks [item])))
        /\ Content.getContentTitle item defaultTitle
           = let t := title (default blank (head (normalizeContentLinks [item]))) in
             if nonempty t then t else defaultTitle).
Proof.
  split; [|split; [|split]].
  - intros v Hv. unfold getContentCount. cbn [videos]. rewrite Hv. cbn [default].
    unfold normalizeContentLinks. rewrite filter_fmap_length.
    apply filter_length_le. intros [s|i] H; by apply nonempty_trim.
  - intros l Hl. unfold getContentCount. cbn [videos]. rewrite Hl. cbn [default].
    apply counted_saved.
  - intros Hv. unfold getContentCount. cbn [videos]. by rewrite Hv.
  - intros [s|i] defaultTitle; done.
Qed.

End FormProps.

(** ** Saving an edited week *)

Section EditWeek.
Context (scan : store -> list (string * obj)) (getUser : string -> option string).
Hypothesis scan_perm : forall s, scan s ≡ₚ map_to_list s.

Lemma weekData_lookup form sid :
  Admin.weekData form sid !! "id" = None
  /\ Admin.weekData form sid !! "createdAt" = None
  /\ Admin.weekData form sid !! "subjectId" = Some (JStr sid)
  /\ Admin.weekData form sid !! "videoLinks"
     = Some (JArr (Admin.item_json <$> List.filter Admin.has_url (Admin.videoLinks form)))
  /\ Admin.weekData form sid !! "audioLinks"
     = Some (JArr (Admin.item_json <$> List.filter Admin.has_url (Admin.audioLinks form)))
  /\ Admin.weekData form sid !! "pdfLinks"
     = Some (JArr (Admin.item_json <$> List.filter Admin.has_url (Admin.pdfLinks form))).
Proof. unfold Admin.weekData. repeat split; by simplify_map_eq. Qed.

(** X27: saving the edit form of a listed week through the dashboard keeps
    the week in place. The PUT carries the id of the week and the id of the
    selected subject, so the merged record is written under the key the week
    already has; it keeps [id] and [createdAt], and its link lists are the
    rows of the form with a non-blank url. *)
Theorem createOrUpdateWeek_edit_in_place tok (s : store) sid wid w form :
  admin_session getUser tok s ->
  s !! weekKey sid wid = Some w -> w !! "id" = Some (JStr wid) ->
  w !! "subjectId" = Some (JStr sid) ->
  sole_week_with_id s wid (weekKey sid wid) ->
  exists req,
    Admin.createOrUpdateWeek tok form sid (Some w) = Admin.PUT_weeks req
    /\ let week' := merge w (Admin.weekData form sid) in
       updateWeek scan getUser req s
       = (ok [("success", JBool true); ("week", JObj week')], <[weekKey sid wid := week']> s)
       /\ week' !! "id" = Some (JStr wid)
       /\ week' !! "subjectId" = Some (JStr sid)
       /\ week' !! "createdAt" = w !! "createdAt"
       /\ week' !! "videoLinks"
          = Some (JArr (Admin.item_json
                          <$> List.filter Admin.has_url (Admin.videoLinks form)))
       /\ sole_week_with_id (<[weekKey sid wid := week']> s) wid (weekKey sid wid).
Proof.
  intros Hadm Hk Hid Hsid Hsole. unfold Admin.createOrUpdateWeek.
  eexists. split; [reflexivity|]. cbv zeta.
  set (week' := merge w (Admin.weekData form sid)).
  destruct (weekData_lookup form sid) as (Dn & Dc & Ds & Dv & _).
  destruct (admin_session_gate getUser tok s (template (w !! "id"))
              (JObj (Admin.weekData form sid)) Hadm) as [uid Hg].
  split; [|split; [|split; [|split; [|split]]]].
  - rewrite (updateWeek_found scan getUser _ s uid w Hg).
    + cbn [param payload spread]. rewrite Hsid, Hid. reflexivity.
    + cbn [param]. rewrite Hid. cbn [template toStr].
      apply (find_week_sole scan scan_perm s wid (weekKey sid wid));
        [done | apply startsWith_weeks | done..].
  - subst week'. by rewrite merge_lookup, Dn.
  - subst week'. by rewrite merge_lookup, Ds.
  - subst week'. by rewrite merge_lookup, Dc.
  - subst week'. by rewrite merge_lookup, Dv.
  - by apply sole_week_insert.
Qed.

End EditWeek.

(** ** The further properties on the concrete deployment *)

Lemma no_week_check (s : store) wid :
  forallb (fun kv => implb (startsWith "weeks:" kv.1)
                           (negb (strict_eq_str (kv.2 !! "id") wid)))
          (map_to_list s) = true ->
  forall k w, s !! k = Some w -> startsWith "weeks:" k = true ->
              w !! "id" <> Some (JStr wid).
Proof.
  intros H k w Hk Hp Hid.
  pose proof (map_forallb_lookup
                (fun k w => implb (startsWith "weeks:" k) (negb (strict_eq_str (w !! "id") wid)))
                s H k w Hk) as Hn.
  cbn beta in Hn. rewrite Hp, Hid in Hn. unfold strict_eq_str in Hn.
  by rewrite String.eqb_refl in Hn.
Qed.

Lemma sole_week_check (s : store) wid key :
  forallb (fun kv => implb (startsWith "weeks:" kv.1)
                           (implb (strict_eq_str (kv.2 !! "id") wid) (String.eqb kv.1 key)))
          (map_to_list s) = true ->
  sole_week_with_id s wid key.
Proof.
  intros H k w Hk Hp Hid.
  pose proof (map_forallb_lookup
                (fun k w => implb (startsWith "weeks:" k)
                                  (implb (strict_eq_str (w !! "id") wid) (String.eqb k key)))
                s H k w Hk) as Hn.
  cbn beta in Hn. rewrite Hp, Hid in Hn. unfold strict_eq_str in Hn.
  rewrite String.eqb_refl in Hn. by apply String.eqb_eq in Hn.
Qed.

Lemma sole_progress_check (s : store) uid w :
  forallb (fun kv => implb (startsWith (progressPrefix uid) kv.1)
                           (implb (strict_eq_str (kv.2 !! "weekId") w)
                                  (String.eqb kv.1 (progressKey uid w))))
          (map_to_list s) = true ->
  forall k p, s !! k = Some p -> startsWith (progressPrefix uid) k = true ->
              p !! "weekId" = Some (JStr w) -> k = progressKey uid w.
Proof.
  intros H k p Hk Hp Hid.
  pose proof (map_forallb_lookup
                (fun k p => implb (startsWith (progressPrefix uid) k)
                                  (implb (strict_eq_str (p !! "weekId") w)
                                         (String.eqb k (progressKey uid w))))
                s H k p Hk) as Hn.
  cbn beta in Hn. rewrite Hp, Hid in Hn. unfold strict_eq_str in Hn.
  rewrite String.eqb_refl in Hn. by apply String.eqb_eq in Hn.
Qed.

Lemma adminSignup_wrong_secret_witness :
  Accounts.adminSignup Scenario.ck1 (inr "u-ann")
    (Examples.anonymous (Examples.account (Some "letmein"))) Scenario.store0
  = (error 403 "Invalid admin secret", Scenario.store0).
Proof.
  apply (adminSignup_wrong_secret Scenario.ck1 (inr "u-ann") _ Scenario.store0
           (Examples.account (Some "letmein"))).
  - reflexivity.
  - vm_compute. discriminate.
Defined.

Lemma adminSignup_grants_witness :
  admin_gate Scenario.getUser (Request Scenario.admin EmptyString JNull)
    (Accounts.adminSignup Scenario.ck1 (inr "u-admin")
       (Examples.anonymous (Examples.account (Some "admin123"))) ∅).2
  = Granted "u-admin".
Proof.
  destruct (adminSignup_grants Scenario.getUser Scenario.ck1
              (Examples.anonymous (Examples.account (Some "admin123"))) ∅
              (Examples.account (Some "admin123")) "u-admin"
              (JStr "ann@example.org") (JStr "Ann")) as [_ H].
  - reflexivity.
  - reflexivity.
  - reflexivity.
  - reflexivity.
  - reflexivity.
  - reflexivity.
  - reflexivity.
  - apply H. reflexivity.
Defined.

Lemma getUserProfile_after_signup_witness :
  Accounts.getUserProfile Scenario.getUser (Request Scenario.student EmptyString JNull)
    (Accounts.signup Scenario.ck1 (inr "u-student")
       (Examples.anonymous (Examples.account None)) ∅).2
  = (ok [("user", JObj (Accounts.new_profile "u-student" (JStr "ann@example.org")
                          (JStr "Ann") "student" Scenario.ck1))],
     (Accounts.signup Scenario.ck1 (inr "u-student")
        (Examples.anonymous (Examples.account None)) ∅).2).
Proof.
  apply (getUserProfile_after_signup Scenario.getUser Scenario.ck1
           (Examples.anonymous (Examples.account None))
           (Request Scenario.student EmptyString JNull) ∅ (Examples.account None)
           "u-student" (JStr "ann@example.org") (JStr "Ann")); reflexivity.
Defined.

Lemma createSubject_listed_witness :
  listSubjects Scenario.scan
    (createSubject Scenario.getUser Scenario.ck1
       (Request Scenario.admin EmptyString (JObj Examples.subject_body)) Scenario.store0).2
  ≡ₚ new_subject Scenario.ck1 Examples.subject_body
     :: listSubjects Scenario.scan Scenario.store0.
Proof.
  destruct (createSubject_listed Scenario.scan Scenario.getUser scan_enumerates Scenario.ck1
              (Request Scenario.admin EmptyString (JObj Examples.subject_body))
              Scenario.store0 "u-admin" Examples.subject_body) as (_ & _ & _ & H).
  - reflexivity.
  - reflexivity.
  - reflexivity.
  - apply H. reflexivity.
Defined.

Lemma create_rejects_missing_fields_witness :
  createSubject Scenario.getUser Scenario.ck1
    (Request Scenario.admin EmptyString (JObj Examples.week0_body)) Scenario.store0
  = (error 400 "Subject name is required", Scenario.store0)
  /\ createWeek Scenario.getUser Scenario.ck1
       (Request Scenario.admin EmptyString (JObj Examples.week0_body)) Scenario.store0
     = (error 400 "Missing required fields", Scenario.store0).
Proof.
  destruct (create_rejects_missing_fields Scenario.getUser Scenario.ck1
              (Request Scenario.admin EmptyString (JObj Examples.week0_body))
              Scenario.store0 "u-admin" Examples.week0_body) as (Hs & _ & Hw).
  - reflexivity.
  - reflexivity.
  - split; [apply Hs | apply Hw]; reflexivity.
Defined.

Lemma createWeek_listed_witness :
  listWeeksForSubject Scenario.scan Scenario.str_to_num "A" Scenario.store1
  ≡ₚ Scenario.week1
     :: listWeeksForSubject Scenario.scan Scenario.str_to_num "A"
          (delete (weekKey "A" Scenario.wid1) Scenario.store0)
  /\ listWeeksForSubject Scenario.scan Scenario.str_to_num "B" Scenario.store1
     ≡ₚ listWeeksForSubject Scenario.scan Scenario.str_to_num "B" Scenario.store0.
Proof.
  destruct (createWeek_listed Scenario.scan Scenario.getUser Scenario.str_to_num
              scan_enumerates Scenario.ck1 Examples.intro Scenario.store0 "u-admin"
              (Scenario.week_fields "A" 2 "Intro") "A") as (Hown & Hother & _).
  - reflexivity.
  - reflexivity.
  - reflexivity.
  - discriminate.
  - reflexivity.
  - reflexivity.
  - reflexivity.
  - split; [exact Hown|]. apply Hother; [reflexivity | discriminate].
Defined.

Lemma unknown_week_404_witness :
  updateWeek Scenario.scan Scenario.getUser
    (Request Scenario.admin "week_0" (JObj {[ "title" := JStr "Renamed" ]})) Scenario.store1
  = (error 404 "Week not found", Scenario.store1)
  /\ deleteWeek Scenario.scan Scenario.getUser
       (Request Scenario.admin "week_0" (JObj {[ "title" := JStr "Renamed" ]})) Scenario.store1
     = (error 404 "Week not found", Scenario.store1).
Proof.
  apply (unknown_week_404 Scenario.scan Scenario.getUser scan_enumerates
           (Request Scenario.admin "week_0" (JObj {[ "title" := JStr "Renamed" ]}))
           Scenario.store1 "u-admin").
  - reflexivity.
  - apply no_week_check. reflexivity.
Defined.

Lemma deleteWeek_removes_witness :
  deleteWeek Scenario.scan Scenario.getUser (Request Scenario.admin Scenario.wid1 JNull)
    Scenario.store1
  = (ok [("success", JBool true)], delete (weekKey "A" Scenario.wid1) Scenario.store1)
  /\ delete (weekKey "A" Scenario.wid1) Scenario.store1 = Scenario.store0.
Proof.
  destruct (deleteWeek_removes Scenario.scan Scenario.getUser Scenario.str_to_num
              scan_enumerates (Request Scenario.admin Scenario.wid1 JNull) Scenario.store1
              "u-admin" "A" Scenario.week1) as (H & _).
  - reflexivity.
  - reflexivity.
  - reflexivity.
  - reflexivity.
  - apply sole_week_check. reflexivity.
  - split; [exact H|]. vm_compute. reflexivity.
Defined.

Lemma createWeek_deleteWeek_witness :
  deleteWeek Scenario.scan Scenario.getUser (Request Scenario.admin Scenario.wid1 JNull)
    (createWeek Scenario.getUser Scenario.ck1 Examples.intro Scenario.store0).2
  = (ok [("success", JBool true)], Scenario.store0).
Proof.
  apply (createWeek_deleteWeek Scenario.scan Scenario.getUser scan_enumerates Scenario.ck1
           Examples.intro (Request Scenario.admin Scenario.wid1 JNull) Scenario.store0
           "u-admin" (Scenario.week_fields "A" 2 "Intro") "A").
  - reflexivity.
  - reflexivity.
  - reflexivity.
  - discriminate.
  - reflexivity.
  - reflexivity.
  - apply no_week_check. reflexivity.
  - reflexivity.
  - reflexivity.
  - reflexivity.
Defined.

Lemma updateWeek_idempotent_witness :
  updateWeek Scenario.scan Scenario.getUser Scenario.rename
    (updateWeek Scenario.scan Scenario.getUser Scenario.rename Scenario.store1).2
  = (ok [("success", JBool true);
         ("week", JObj (merge Scenario.week1 {[ "title" := JStr "Renamed" ]}))],
     (updateWeek Scenario.scan Scenario.getUser Scenario.rename Scenario.store1).2).
Proof.
  destruct (updateWeek_idempotent Scenario.scan Scenario.getUser scan_enumerates
              Scenario.rename Scenario.store1 "u-admin" "A" Scenario.week1
              {[ "title" := JStr "Renamed" ]}) as [_ H].
  - reflexivity.
  - reflexivity.
  - reflexivity.
  - reflexivity.
  - reflexivity.
  - reflexivity.
  - reflexivity.
  - apply sole_week_check. reflexivity.
  - exact H.
Defined.

Lemma recordProgress_frame_witness :
  listProgress Scenario.scan "u-admin"
    (recordProgress Scenario.getUser Scenario.ck1 (Scenario.save true) Scenario.store1).2
  ≡ₚ listProgress Scenario.scan "u-admin" Scenario.store1
  /\ kv_getByPrefix Scenario.scan "weeks:"
       (recordProgress Scenario.getUser Scenario.ck1 (Scenario.save true) Scenario.store1).2
     ≡ₚ kv_getByPrefix Scenario.scan "weeks:" Scenario.store1.
Proof.
  destruct (recordProgress_frame Scenario.scan Scenario.getUser scan_enumerates Scenario.ck1
              (Scenario.save true) Scenario.store1 "u-student") as (Hother & _ & Hweeks & _).
  - reflexivity.
  - reflexivity.
  - split; [|exact Hweeks]. apply Hother; [reflexivity | discriminate].
Defined.

Lemma identity_required_witness :
  recordProgress Scenario.getUser Scenario.ck1
    (Request (Scenario.bearer "stale-token") EmptyString
       (JObj (Scenario.progress_fields "w1" true))) Scenario.store0
  = (error 401 "Unauthorized", Scenario.store0)
  /\ getProgress Scenario.scan Scenario.getUser
       (Request (Scenario.bearer "stale-token") EmptyString
          (JObj (Scenario.progress_fields "w1" true))) Scenario.store0
     = (error 401 "Unauthorized", Scenario.store0).
Proof.
  destruct (identity_required Scenario.scan Scenario.getUser Scenario.ck1
              (Request (Scenario.bearer "stale-token") EmptyString
                 (JObj (Scenario.progress_fields "w1" true))) Scenario.store0)
    as (H1 & H2 & _).
  - intros tok Htok. right. vm_compute in Htok. injection Htok as <-. reflexivity.
  - split; [exact H1 | exact H2].
Defined.

Lemma handleSubmitQuiz_completes_witness :
  Dashboard.getWeekStatus
    (Dashboard.saveProgress Scenario.scan Scenario.getUser Scenario.ck2 "student-token"
       "w1" true Scenario.store0).1 [Examples.w1] Examples.w1 0
  = Dashboard.completed.
Proof.
  destruct (handleSubmitQuiz_completes Scenario.scan Scenario.getUser scan_enumerates
              Scenario.ck2 "student-token" "u-student" Scenario.store0 Examples.w1
              [Examples.w1] O "w1" true) as (_ & _ & H).
  - reflexivity.
  - reflexivity.
  - exact H.
Defined.

Lemma onClick_after_save_witness :
  Dashboard.onClick
    (Dashboard.saveProgress Scenario.scan Scenario.getUser Scenario.ck2 "student-token"
       "w1" true Scenario.store0).1 [Examples.w1] Examples.w1 0
  = Some (Examples.w1, None).
Proof.
  apply (onClick_after_save Scenario.scan Scenario.getUser scan_enumerates Scenario.ck2
           "student-token" "u-student" Scenario.store0 Examples.w1 [Examples.w1] O true).
  reflexivity.
Defined.

Lemma onClick_stale_progress_witness :
  Dashboard.onClick [] [Examples.w1] Examples.w1 0 = Some (Examples.w1, Some ("w1", false))
  /\ Dashboard.isWeekCompleted
       (Dashboard.loadProgress Scenario.scan Scenario.getUser "student-token"
          Scenario.store_saved) "w1" = true
  /\ Dashboard.isWeekCompleted
       (Dashboard.saveProgress Scenario.scan Scenario.getUser Scenario.ck1 "student-token"
          "w1" false Scenario.store_saved).1 "w1" = false.
Proof.
  destruct (onClick_stale_progress Scenario.scan Scenario.getUser scan_enumerates
              Scenario.ck1 "student-token" "u-student" Scenario.store_saved []
              Examples.w1 [Examples.w1] O (iso_now Scenario.ck2)) as (Hclick & _ & _ & Hdone).
  - reflexivity.
  - reflexivity.
  - reflexivity.
  - apply sole_progress_check. reflexivity.
  - split; [exact Hclick|]. split; [vm_compute; reflexivity | exact Hdone].
Defined.

Lemma loadWeeks_keeps_order_witness :
  Admin.loadWeeks Scenario.str_to_num Scenario.listing = Scenario.listing
  /\ Student.loadWeeks Scenario.str_to_num Scenario.listing
     = List.filter (fun w => truthy (w !! "published")) Scenario.listing.
Proof.
  apply (loadWeeks_keeps_order Scenario.scan Scenario.str_to_num "A" Scenario.store2).
  intros w Hw. apply list_elem_of_In in Hw.
  assert (forallb (fun w => match toNumber Scenario.str_to_num (w !! "weekNumber") with
                            | Some _ => true
                            | None => false
                            end)
            (kv_getByPrefix Scenario.scan (weekPrefix "A") Scenario.store2) = true) as Hall
    by reflexivity.
  rewrite forallb_forall in Hall. specialize (Hall w Hw).
  destruct (toNumber Scenario.str_to_num (w !! "weekNumber")); [eauto | discriminate].
Defined.

Lemma extractGoogleDriveId_sound_witness :
  exists pre sep rest,
    "https://drive.google.com/open?id=1AbC_d-9&usp=sharing" = pre +:+ sep +:+ "1AbC_d-9" +:+ rest
    /\ sep ∈ ["/d/"; "?id="; "&id="] /\ Content.no_id_ahead rest.
Proof.
  destruct (extractGoogleDriveId_sound
              "https://drive.google.com/open?id=1AbC_d-9&usp=sharing" "1AbC_d-9")
    as (_ & _ & H).
  - vm_compute. reflexivity.
  - exact H.
Defined.

Lemma extractGoogleDriveId_path_witness :
  Content.extractGoogleDriveId "https://drive.google.com/file/d/1AbC_d-9/view?id=zzz"
  = Some "1AbC_d-9".
Proof.
  apply (extractGoogleDriveId_path "https://drive.google.com/file" "1AbC_d-9" "/view?id=zzz").
  - reflexivity.
  - discriminate.
  - reflexivity.
  - reflexivity.
Defined.

Lemma extractGoogleDriveId_query_witness :
  Content.extractGoogleDriveId "https://drive.google.com/uc?export=download&id=1AbC_d-9"
  = Some "1AbC_d-9".
Proof.
  apply (extractGoogleDriveId_query "https://drive.google.com/uc?export=download" "&"
           "1AbC_d-9" EmptyString).
  - reflexivity.
  - reflexivity.
  - reflexivity.
  - discriminate.
  - reflexivity.
  - exact I.
Defined.

Lemma extractGoogleDriveId_none_witness :
  Content.extractGoogleDriveId "https://example.org/notes.pdf" = None.
Proof. apply extractGoogleDriveId_none; reflexivity. Defined.

Lemma addContentLink_removeContentLink_witness :
  Form.removeContentLink Form.VideoLinks 2 (Form.addContentLink Form.VideoLinks Scenario.form)
  = Scenario.form.
Proof.
  destruct (addContentLink_removeContentLink Form.VideoLinks Scenario.form) as [H _].
  - discriminate.
  - exact H.
Defined.

Lemma createOrUpdateWeek_edit_in_place_witness :
  exists req,
    Admin.createOrUpdateWeek "admin-token" Scenario.form "A" (Some Scenario.week1)
    = Admin.PUT_weeks req
    /\ (updateWeek Scenario.scan Scenario.getUser req Scenario.store1).2
       = <[weekKey "A" Scenario.wid1
           := merge Scenario.week1 (Admin.weekData Scenario.form "A")]> Scenario.store1.
Proof.
  destruct (createOrUpdateWeek_edit_in_place Scenario.scan Scenario.getUser scan_enumerates
              "admin-token" Scenario.store1 "A" Scenario.wid1 Scenario.week1 Scenario.form)
    as (req & Hcall & Hput & _).
  - exists "u-admin", (Scenario.profile "u-admin" "admin"). repeat split; reflexivity.
  - reflexivity.
  - reflexivity.
  - reflexivity.
  - apply sole_week_check. reflexivity.
  - exists req. split; [exact Hcall|]. rewrite Hput. reflexivity.
Defined.
